(** * memgpt.client.client: the REST and local client strategies

    A shallow embedding of [memgpt/client/client.py].  Python values are a
    small dynamically typed universe, exceptions are data, and every method
    is a computation over a [World] that holds what the client talks to:
    the HTTP backend, the embedded server, the file system, the metadata
    store and the queuing interfaces.  Console output ([print]) is not
    part of the model. *)

From Stdlib Require Import ZArith NArith String Ascii List Bool Lia DecimalString.
Import ListNotations.

Local Open Scope string_scope.
Local Open Scope list_scope.
Local Open Scope Z_scope.

Infix "+++" := String.append (right associativity, at level 60).

(** ** Python values *)

(** [datetime.datetime]: the civil fields, and whether the object is aware
    (carries [timezone.utc]) or naive. *)
Record datetime := mk_datetime {
  year : Z; month : Z; day : Z;
  hour : Z; minute : Z; second : Z; microsecond : Z;
  tz_utc : bool
}.

(** [uuid.UUID]: the 128-bit integer the object wraps. *)
Definition UUID := N.

#[local] Set Warnings "-register-all".

Inductive value :=
| VNone
| VBool (b : bool)
| VInt (z : Z)
| VStr (s : string)
| VList (l : list value)
| VDict (d : list (string * value))
| VUUID (u : UUID)
| VDatetime (t : datetime).

(** Truth value testing, as [if x:] and [not x] apply it, on
    [Optional[str]] arguments: [None] and the empty string are falsy. *)
Definition truthy_str (o : option string) : bool :=
  match o with
  | None => false
  | Some s => negb (String.eqb s "")
  end.

(** Modelled from the spec: the truth value of an [Optional[C]] argument
    for the classes [EmbeddingConfig] and [LLMConfig] (not in this file):
    "passing an explicit [embedding_config]/[llm_config] to the remote
    strategy is rejected", so an instance is truthy, as the instances of a
    class without [__bool__] and [__len__] are, and only [None] is falsy. *)
Definition truthy_obj {A : Type} (o : option A) : bool :=
  match o with None => false | Some _ => true end.

Definition of_opt_str (o : option string) : value :=
  match o with None => VNone | Some s => VStr s end.

(** Dictionary lookup [d[k]] on the key-value pairs of a dict. *)
Fixpoint lookup (k : string) (d : list (string * value)) : option value :=
  match d with
  | [] => None
  | (k', v) :: d' => if String.eqb k k' then Some v else lookup k d'
  end.

(** ** Rendering identifiers and numbers *)

Definition hex_digit (n : N) : ascii :=
  match n with
  | 0%N => "0" | 1%N => "1" | 2%N => "2" | 3%N => "3"
  | 4%N => "4" | 5%N => "5" | 6%N => "6" | 7%N => "7"
  | 8%N => "8" | 9%N => "9" | 10%N => "a" | 11%N => "b"
  | 12%N => "c" | 13%N => "d" | 14%N => "e" | _ => "f"
  end%char.

(** The [w] low hexadecimal digits of [x], most significant first. *)
Fixpoint hex_fixed (w : nat) (x : N) (acc : string) : string :=
  match w with
  | O => acc
  | S w' => hex_fixed w' (x / 16)%N (String (hex_digit (x mod 16)%N) acc)
  end.

(** [str(u)] for a UUID: ['%032x' % u.int], hyphenated 8-4-4-4-12. *)
Definition uuid_str (u : UUID) : string :=
  let h := hex_fixed 32 u "" in
  substring 0 8 h +++ "-" +++ substring 8 4 h +++ "-" +++
  substring 12 4 h +++ "-" +++ substring 16 4 h +++ "-" +++
  substring 20 12 h.

(** [str(n)] for an integer. *)
Definition int_str (z : Z) : string := NilZero.string_of_int (Z.to_int z).

(** ** Exceptions and outcomes *)

Inductive exn :=
| ValueError (msg : string)
| AssertionError (msg : string)
| NotImplementedError
| TypeError (msg : string)
| AttributeError (msg : string)
| KeyError (key : string)
| OverflowError
| JSONDecodeError
| ValidationError (model : string)
| ConnectionError
| FileNotFoundError (filename : string).

(** What a call does: it returns, it raises, or it is still running when
    the step budget of a [while True] loop is used up. *)
Inductive outcome (A : Type) :=
| Return (a : A)
| Raise (e : exn)
| Diverge.
Arguments Return {A} a.
Arguments Raise {A} e.
Arguments Diverge {A}.

(** ** The Python runtime the client relies on

    Library functions of CPython that the client calls and whose bodies
    are not part of this repository. *)
Class PyRuntime := {
  (** [uuid.UUID(s)]: the identifier, or the message of the [ValueError]. *)
  uuid_of_string : string -> UUID + string;
  (** [datetime.datetime.fromtimestamp(t, tz=timezone.utc)]: the timestamp,
      or the exception it raises when [t] is out of range. *)
  fromtimestamp_utc : Z -> datetime + exn;
  (** [datetime.datetime.strptime(s, fmt)]: the timestamp, or the message of
      the [ValueError]. *)
  strptime : string -> string -> datetime + string;
  (** [str(x)] for lists, dicts and datetimes. *)
  container_str : value -> string
}.

(** [str(x)], as [str()] and f-string interpolation apply it. *)
Definition py_str `{PyRuntime} (v : value) : string :=
  match v with
  | VNone => "None"
  | VBool true => "True"
  | VBool false => "False"
  | VInt z => int_str z
  | VStr s => s
  | VUUID u => uuid_str u
  | _ => container_str v
  end.

(** ** The world around the client *)

Inductive http_method := GET | POST | PATCH | DELETE.

Record request := mk_request {
  method : http_method;
  url : string;
  req_headers : list (string * string);
  req_params : list (string * value);
  req_json : option value;
  req_files : list (string * string)
}.

(** A [requests.Response]: [body] is what [.json()] decodes, [None] when
    the body is not JSON. *)
Record response := mk_response {
  status_code : Z;
  text : string;
  body : option value
}.

(** One call into the embedded [SyncServer]: the messages it pushes to its
    interface while running, and how it ends. *)
Record server_reply := mk_reply {
  emitted : list value;
  reply : value + exn
}.

Inductive event :=
| EvHttp (r : request)
| EvSleep (seconds : Z)
| EvOpen (filename : string)
| EvServer (meth : string) (args : list value).

(** [memgpt.data_types.User]: "identifier plus optional default-agent
    reference and a policy-acceptance flag". *)
Record User := mk_User {
  user_id_of : UUID;
  default_agent : option string;
  policies_accepted : bool
}.

(** What the metadata store holds: the User rows, and the presets by
    owner and name. *)
Record MetadataStore := mk_store {
  users : list User;
  presets : list (UUID * string)
}.

Record World := mk_world {
  (** the responses the HTTP backend gives, in the order of the requests *)
  http_script : list response;
  (** the replies of the embedded server, in the order of the calls *)
  srv_script : list server_reply;
  (** the files that can be opened, by name *)
  fs : list (string * string);
  (** [MemGPTConfig.load().anon_clientid] *)
  anon_clientid : string;
  (** the persistent metadata store *)
  ms : MetadataStore;
  (** the buffers of the [QueuingInterface] objects, by reference *)
  ifaces : list (list value);
  (** what the client has done so far, oldest first *)
  trace : list event
}.

(** ** Computations

    Two layers: [outcome] for code that only computes or raises (decoding
    a body, building an object), and [M] for code that also acts on the
    world.  Both share [ret], [bind] and [raise]. *)

Class PyMonad (F : Type -> Type) := {
  ret : forall {A}, A -> F A;
  bind : forall {A B}, F A -> (A -> F B) -> F B;
  raise : forall {A}, exn -> F A
}.

Notation "x <- m ;; k" := (bind m (fun x => k))
  (at level 61, m at next level, right associativity).
Notation "m ;;; k" := (bind m (fun _ => k))
  (at level 61, right associativity).

#[global] Instance outcome_monad : PyMonad outcome := {
  ret := fun A a => Return a;
  bind := fun A B m k =>
    match m with
    | Return a => k a
    | Raise e => Raise e
    | Diverge => Diverge
    end;
  raise := fun A e => Raise e
}.

Definition M (A : Type) : Type := World -> outcome A * World.

#[global] Instance M_monad : PyMonad M := {
  ret := fun A a w => (Return a, w);
  bind := fun A B m k w =>
    match m w with
    | (Return a, w') => k a w'
    | (Raise e, w') => (Raise e, w')
    | (Diverge, w') => (Diverge, w')
    end;
  raise := fun A e w => (Raise e, w)
}.

(** A computation that does not touch the world, run inside [M]. *)
Definition lift {A} (o : outcome A) : M A := fun w => (o, w).

Definition diverge {A} : M A := fun w => (Diverge, w).

Definition get_world : M World := fun w => (Return w, w).

Definition log (e : event) : M unit :=
  fun w => (Return tt,
            mk_world (http_script w) (srv_script w) (fs w) (anon_clientid w)
                     (ms w) (ifaces w) (trace w ++ [e])).

(** [assert cond, msg] *)
Definition assert (cond : bool) (msg : string) : M unit :=
  if cond then ret tt else raise (AssertionError msg).

(** [requests.request(...)]: the request goes out and the backend's next
    response comes back; with no backend left the connection fails. *)
Definition http (r : request) : M response :=
  log (EvHttp r) ;;;
  (fun w =>
    match http_script w with
    | [] => (Raise ConnectionError, w)
    | resp :: rest =>
        (Return resp,
         mk_world rest (srv_script w) (fs w) (anon_clientid w)
                  (ms w) (ifaces w) (trace w))
    end) : M response.

(** [response.json()] *)
Definition response_json (r : response) : outcome value :=
  match body r with
  | Some v => Return v
  | None => Raise JSONDecodeError
  end.

(** [time.sleep(seconds)] *)
Definition sleep (seconds : Z) : M unit := log (EvSleep seconds).

(** The content of a file, when there is one of that name. *)
Fixpoint read_file (files : list (string * string)) (filename : string)
  : option string :=
  match files with
  | [] => None
  | (n, content) :: rest =>
      if String.eqb n filename then Some content else read_file rest filename
  end.

(** [open(filename, "rb")] *)
Definition open_rb (filename : string) : M string :=
  log (EvOpen filename) ;;;
  (fun w =>
    match read_file (fs w) filename with
    | Some content => (Return content, w)
    | None => (Raise (FileNotFoundError filename), w)
    end) : M string.

(** [d[k]] on a Python value. *)
Definition subscript (v : value) (k : string) : outcome value :=
  match v with
  | VDict d =>
      match lookup k d with
      | Some x => Return x
      | None => Raise (KeyError k)
      end
  | _ => Raise (TypeError "object is not subscriptable")
  end.

(** [x == s] for a string [s]. *)
Definition eq_str (v : value) (s : string) : bool :=
  match v with
  | VStr s' => String.eqb s' s
  | _ => false
  end.

(** [Model( **d)]: the argument must be a mapping. *)
Definition kwargs (d : value) : outcome (list (string * value)) :=
  match d with
  | VDict kv => Return kv
  | _ => Raise (TypeError "argument after ** must be a mapping")
  end.

(** A required field of a wire model. *)
Definition field (model k : string) (kv : list (string * value)) : outcome value :=
  match lookup k kv with
  | Some v => Return v
  | None => Raise (ValidationError model)
  end.

Fixpoint mapM {F} `{PyMonad F} {A B} (f : A -> F B) (l : list A) : F (list B) :=
  match l with
  | [] => ret []
  | x :: l' => y <- f x ;; ys <- mapM f l' ;; ret (y :: ys)
  end.

(** [uuid.UUID(x)] on a Python value. *)
Definition UUID_new `{PyRuntime} (v : value) : outcome UUID :=
  match v with
  | VStr s =>
      match uuid_of_string s with
      | inl u => Return u
      | inr msg => Raise (ValueError msg)
      end
  | VNone => Raise (TypeError "one of the hex, bytes, bytes_le, fields, or int arguments must be given")
  | _ => Raise (AttributeError "object has no attribute 'replace'")
  end.

(** ** Domain objects ([memgpt.data_types]) *)

(** [LLMConfig], with the attributes [get_agent_response_to_state] sets. *)
Record LLMConfig := mk_LLMConfig {
  model : value;
  model_endpoint_type : value;
  model_endpoint : value;
  model_wrapper : value;
  context_window : value
}.

(** [EmbeddingConfig], with the attributes [get_agent_response_to_state]
    and [list_sources] set. *)
Record EmbeddingConfig := mk_EmbeddingConfig {
  embedding_endpoint_type : value;
  embedding_endpoint : value;
  embedding_model : value;
  embedding_dim : value;
  embedding_chunk_size : value
}.

(** [AgentState], with the attributes [get_agent_response_to_state] sets. *)
Record AgentState := mk_AgentState {
  agent_id_of : value;
  agent_name : value;
  agent_user_id : value;
  agent_preset : value;
  agent_persona : value;
  agent_human : value;
  agent_llm_config : LLMConfig;
  agent_embedding_config : EmbeddingConfig;
  agent_state : value;
  agent_created_at : value
}.

(** [Source], with the attributes [create_source] sets. *)
Record Source := mk_Source {
  source_id_of : UUID;
  source_name_of : value;
  source_user_id : UUID;
  source_created_at : value;
  source_embedding_dim : value;
  source_embedding_model : value
}.

(** ** Wire models ([memgpt.models.pydantic_models], [memgpt.server.rest_api]) *)

(** Modelled from the spec: the status enumeration of a Job
    ([JobStatus], not in this file), "one of a fixed set including at
    least pending/running, completed, failed"; a string enumeration whose
    members are named after their values. *)
Inductive JobStatus := created | running | completed | failed.

Definition JobStatus_of_string (s : string) : option JobStatus :=
  if String.eqb s "created" then Some created
  else if String.eqb s "running" then Some running
  else if String.eqb s "completed" then Some completed
  else if String.eqb s "failed" then Some failed
  else None.

Definition JobStatus_eqb (a b : JobStatus) : bool :=
  match a, b with
  | created, created | running, running
  | completed, completed | failed, failed => true
  | _, _ => false
  end.

(** [JobModel], with the attributes [load_file_into_source] reads. *)
Record JobModel := mk_JobModel {
  job_id : value;
  job_status : JobStatus;
  job_metadata : value
}.

(** Modelled from the spec: [JobModel( **d)] (the class is not in this
    file): a Job has an identity, a status and free-form metadata, empty
    unless the backend populates it. *)
Definition JobModel_new (d : value) : outcome JobModel :=
  kv <- kwargs d ;;
  i <- field "JobModel" "id" kv ;;
  s <- field "JobModel" "status" kv ;;
  match s with
  | VStr name =>
      match JobStatus_of_string name with
      | Some st =>
          ret (mk_JobModel i st
                 (match lookup "metadata" kv with Some m => m | None => VDict [] end))
      | None => raise (ValidationError "JobModel")
      end
  | _ => raise (ValidationError "JobModel")
  end.

(** [JobModel( **response.json())] *)
Definition job_of_response (r : response) : outcome JobModel :=
  d <- response_json r ;;
  JobModel_new d.

(** The [embedding_config] attribute of a source: the wire dictionary, or
    the domain object [list_sources] puts in its place. *)
Inductive config_attr :=
| WireConfig (v : value)
| DomainConfig (c : EmbeddingConfig).

(** [SourceModel], with the attributes [list_sources], [delete_source]
    and [create_source] read. *)
Record SourceModel := mk_SourceModel {
  sm_id : value;
  sm_name : value;
  sm_user_id : value;
  sm_created_at : value;
  sm_embedding_config : config_attr
}.

(** Modelled from the spec: [SourceModel( **d)] (the class is not in this
    file): a Source has an identity, an owning user, a name, a creation
    timestamp and an embedding configuration; the attributes hold the wire
    values as they came. *)
Definition SourceModel_new (d : value) : outcome SourceModel :=
  kv <- kwargs d ;;
  i <- field "SourceModel" "id" kv ;;
  n <- field "SourceModel" "name" kv ;;
  u <- field "SourceModel" "user_id" kv ;;
  c <- field "SourceModel" "created_at" kv ;;
  e <- field "SourceModel" "embedding_config" kv ;;
  ret (mk_SourceModel i n u c (WireConfig e)).

(** Modelled from the spec: [ListSourcesResponse( **d).sources] (the class
    is not in this file): a list of sources. *)
Definition ListSourcesResponse_sources (d : value) : outcome (list SourceModel) :=
  kv <- kwargs d ;;
  l <- field "ListSourcesResponse" "sources" kv ;;
  match l with
  | VList xs => mapM SourceModel_new xs
  | _ => raise (ValidationError "ListSourcesResponse")
  end.

(** [ListAgentsResponse] *)
Record ListAgentsResponse := mk_ListAgentsResponse {
  num_agents : value;
  agents : value
}.

(** Modelled from the spec: [ListAgentsResponse( **d)] (the class is not in
    this file): the number of agents and the list of their descriptions. *)
Definition ListAgentsResponse_new (d : value) : outcome ListAgentsResponse :=
  kv <- kwargs d ;;
  n <- field "ListAgentsResponse" "num_agents" kv ;;
  a <- field "ListAgentsResponse" "agents" kv ;;
  match a with
  | VList _ => ret (mk_ListAgentsResponse n a)
  | _ => raise (ValidationError "ListAgentsResponse")
  end.

(** [AgentStateModel], with the attributes
    [get_agent_response_to_state] reads. *)
(** Modelled from the spec: [existing[key]] on a [ListAgentsResponse]
    (the class is not in this file): a response model is an object with
    attributes, not a mapping, and has no [__getitem__]; subscripting it
    raises [TypeError]. *)
Definition ListAgentsResponse_getitem (existing : ListAgentsResponse)
    (key : string) : outcome (list value) :=
  Raise (TypeError "'ListAgentsResponse' object is not subscriptable").

Record AgentStateModel := mk_AgentStateModel {
  asm_id : value;
  asm_name : value;
  asm_user_id : value;
  asm_preset : value;
  asm_persona : value;
  asm_human : value;
  asm_llm_config : LLMConfig;
  asm_embedding_config : EmbeddingConfig;
  asm_state : value;
  asm_created_at : value
}.

(** Modelled from the spec: [LLMConfigModel( **d)] (the class is not in
    this file): model name, endpoint type and address, wrapper, context
    window; a missing field is a malformed config. *)
Definition LLMConfigModel_new (d : value) : outcome LLMConfig :=
  kv <- kwargs d ;;
  a <- field "LLMConfigModel" "model" kv ;;
  b <- field "LLMConfigModel" "model_endpoint_type" kv ;;
  c <- field "LLMConfigModel" "model_endpoint" kv ;;
  e <- field "LLMConfigModel" "model_wrapper" kv ;;
  f <- field "LLMConfigModel" "context_window" kv ;;
  ret (mk_LLMConfig a b c e f).

(** Modelled from the spec: [EmbeddingConfigModel( **d)] (the class is not
    in this file): endpoint type and address, model, dimensionality, chunk
    size; a missing field is a malformed config. *)
Definition EmbeddingConfigModel_new (d : value) : outcome EmbeddingConfig :=
  kv <- kwargs d ;;
  a <- field "EmbeddingConfigModel" "embedding_endpoint_type" kv ;;
  b <- field "EmbeddingConfigModel" "embedding_endpoint" kv ;;
  c <- field "EmbeddingConfigModel" "embedding_model" kv ;;
  e <- field "EmbeddingConfigModel" "embedding_dim" kv ;;
  f <- field "EmbeddingConfigModel" "embedding_chunk_size" kv ;;
  ret (mk_EmbeddingConfig a b c e f).

(** Modelled from the spec: [GetAgentResponse( **d)] and
    [CreateAgentResponse( **d)] (the classes are not in this file): both
    carry a fully populated [agent_state]. *)
Definition AgentResponse_new (d : value) : outcome AgentStateModel :=
  kv0 <- kwargs d ;;
  st <- field "AgentResponse" "agent_state" kv0 ;;
  kv <- kwargs st ;;
  i <- field "AgentStateModel" "id" kv ;;
  n <- field "AgentStateModel" "name" kv ;;
  u <- field "AgentStateModel" "user_id" kv ;;
  p <- field "AgentStateModel" "preset" kv ;;
  pe <- field "AgentStateModel" "persona" kv ;;
  h <- field "AgentStateModel" "human" kv ;;
  l <- field "AgentStateModel" "llm_config" kv ;;
  lc <- LLMConfigModel_new l ;;
  e <- field "AgentStateModel" "embedding_config" kv ;;
  ec <- EmbeddingConfigModel_new e ;;
  s <- field "AgentStateModel" "state" kv ;;
  c <- field "AgentStateModel" "created_at" kv ;;
  ret (mk_AgentStateModel i n u p pe h lc ec s c).

(** ** class AbstractClient *)

Module AbstractClient.

(** [get_messages]: the body every strategy inherits unless it defines
    its own. *)
Definition get_messages (agent_id : value) (before after : option UUID)
    (limit : option Z) : M value :=
  raise NotImplementedError.

End AbstractClient.

(** ** class RESTClient *)

Module RESTClient.

Record t := mk {
  base_url : string;
  headers : list (string * string);
  debug : bool
}.

(** [__init__] *)
Definition init (base_url token : string) (debug : bool) : t :=
  mk base_url
     [("accept", "application/json"); ("authorization", "Bearer " +++ token)]
     debug.

Definition requests_get (self : t) (u : string) (params : list (string * value))
  : M response :=
  http (mk_request GET u (headers self) params None []).

Definition requests_post (self : t) (u : string) (json : option value)
    (files : list (string * string)) : M response :=
  http (mk_request POST u (headers self) [] json files).

Definition requests_delete (self : t) (u : string) : M response :=
  http (mk_request DELETE u (headers self) [] None []).

Section Methods.
Context `{PyRuntime}.

(** [list_agents] *)
Definition list_agents (self : t) : M ListAgentsResponse :=
  response <- requests_get self (base_url self +++ "/api/agents") [] ;;
  lift (d <- response_json response ;;
        ListAgentsResponse_new d).

(** [agent_exists] *)
Definition agent_exists (self : t) (agent_id agent_name : option string)
  : M bool :=
  response <- requests_get self
    (base_url self +++ "/api/agents/" +++ py_str (of_opt_str agent_id) +++ "/config") [] ;;
  if status_code response =? 404 then ret false
  else if status_code response =? 200 then ret true
  else raise (ValueError ("Failed to check if agent exists: " +++ text response)).

(** [get_agent_response_to_state] *)
Definition get_agent_response_to_state (response : AgentStateModel)
  : outcome AgentState :=
  let llm_config :=
    mk_LLMConfig (model (asm_llm_config response))
                 (model_endpoint_type (asm_llm_config response))
                 (model_endpoint (asm_llm_config response))
                 (model_wrapper (asm_llm_config response))
                 (context_window (asm_llm_config response)) in
  let embedding_config :=
    mk_EmbeddingConfig
      (embedding_endpoint_type (asm_embedding_config response))
      (embedding_endpoint (asm_embedding_config response))
      (embedding_model (asm_embedding_config response))
      (embedding_dim (asm_embedding_config response))
      (embedding_chunk_size (asm_embedding_config response)) in
  created_at <-
    match asm_created_at response with
    | VInt z =>
        match fromtimestamp_utc z with
        | inl t => ret (VDatetime t)
        | inr e => raise e
        end
    | VBool b =>
        match fromtimestamp_utc (Z.b2z b) with
        | inl t => ret (VDatetime t)
        | inr e => raise e
        end
    | _ => raise (TypeError "an integer is required")
    end ;;
  ret (mk_AgentState (asm_id response) (asm_name response)
         (asm_user_id response) (asm_preset response)
         (asm_persona response) (asm_human response)
         llm_config embedding_config (asm_state response) created_at).

(** [create_agent] *)
Definition create_agent (self : t) (name preset persona human : option string)
    (embedding_config : option EmbeddingConfig) (llm_config : option LLMConfig)
  : M AgentState :=
  if truthy_obj embedding_config || truthy_obj llm_config then
    raise (ValueError "Cannot override embedding_config or llm_config when creating agent via REST API")
  else
    let payload :=
      VDict [("config",
              VDict [("name", of_opt_str name);
                     ("preset", of_opt_str preset);
                     ("persona", of_opt_str persona);
                     ("human", of_opt_str human)])] in
    response <- requests_post self (base_url self +++ "/api/agents/create")
                  (Some payload) [] ;;
    if negb (status_code response =? 200) then
      raise (ValueError ("Status " +++ int_str (status_code response)
                         +++ " - Failed to create agent: " +++ text response))
    else
      lift (d <- response_json response ;;
            response_obj <- AgentResponse_new d ;;
            get_agent_response_to_state response_obj).

(** [get_messages] *)
Definition get_messages (self : t) (agent_id : value)
    (before after : option UUID) (limit : option Z) : M value :=
  let opt_uuid o := match o with Some u => VUUID u | None => VNone end in
  let opt_int o := match o with Some z => VInt z | None => VNone end in
  let params := [("before", opt_uuid before); ("after", opt_uuid after);
                 ("limit", opt_int limit)] in
  response <- requests_get self
    (base_url self +++ "/api/agents/" +++ py_str agent_id +++ "/messages-cursor")
    params ;;
  if negb (status_code response =? 200) then
    raise (ValueError ("Failed to get messages: " +++ text response))
  else
    lift (d <- response_json response ;;
          kv <- kwargs d ;;
          ret (VDict kv)).

(** The body of the loop of [list_sources], for one source. *)
Definition normalize_source (source : SourceModel) : outcome SourceModel :=
  user_id <- UUID_new (sm_user_id source) ;;
  let date_format := "%Y-%m-%dT%H:%M:%S.%f" in
  created_at <-
    match sm_created_at source with
    | VStr s =>
        match strptime s date_format with
        | inl t => ret (VDatetime t)
        | inr msg => raise (ValueError msg)
        end
    | _ => raise (TypeError "strptime() argument 1 must be str")
    end ;;
  cfg <-
    match sm_embedding_config source with
    | WireConfig c => ret c
    | DomainConfig _ => raise (TypeError "object is not subscriptable")
    end ;;
  a <- subscript cfg "embedding_endpoint_type" ;;
  b <- subscript cfg "embedding_endpoint" ;;
  c <- subscript cfg "embedding_dim" ;;
  d <- subscript cfg "embedding_model" ;;
  e <- subscript cfg "embedding_chunk_size" ;;
  ret (mk_SourceModel (sm_id source) (sm_name source) (VUUID user_id)
         created_at (DomainConfig (mk_EmbeddingConfig a b d c e))).

(** [list_sources] *)
Definition list_sources (self : t) : M (list SourceModel) :=
  response <- requests_get self (base_url self +++ "/api/sources") [] ;;
  lift (response_json <- response_json response ;;
        sources <- ListSourcesResponse_sources response_json ;;
        mapM normalize_source sources).

(** The loop of [delete_source]: the id of the first source with the
    given name, the initial [source_id] when there is none. *)
Fixpoint find_source_id (sources : list SourceModel) (source_name : string)
    (source_id : value) : value :=
  match sources with
  | [] => source_id
  | source :: rest =>
      if eq_str (sm_name source) source_name then sm_id source
      else find_source_id rest source_name source_id
  end.

(** [delete_source] *)
Definition delete_source (self : t) (source_name : string) : M unit :=
  get_sources <- requests_get self (base_url self +++ "/api/sources") [] ;;
  sources <- lift (sources_json <- response_json get_sources ;;
                   ListSourcesResponse_sources sources_json) ;;
  let source_id := find_source_id sources source_name (VUUID 0%N) in
  response <- requests_delete self
                (base_url self +++ "/api/sources/" +++ py_str source_id) ;;
  assert (status_code response =? 200)
         ("Failed to delete source: " +++ text response).

(** [get_job_status] *)
Definition get_job_status (self : t) (job_id : value) : M JobModel :=
  response <- requests_get self
    (base_url self +++ "/api/sources/status/" +++ py_str job_id) [] ;;
  lift (job_of_response response).

(** The [while True] loop of [load_file_into_source]; [fuel] bounds the
    number of status queries. *)
Fixpoint wait_for_job (fuel : nat) (self : t) (job : JobModel) : M JobModel :=
  match fuel with
  | O => diverge
  | S fuel' =>
      job <- get_job_status self (job_id job) ;;
      if JobStatus_eqb (job_status job) completed then ret job
      else if JobStatus_eqb (job_status job) failed then
        raise (ValueError ("Job failed: " +++ py_str (job_metadata job)))
      else
        sleep 1 ;;;
        wait_for_job fuel' self job
  end.

(** [load_file_into_source] *)
Definition load_file_into_source (fuel : nat) (self : t) (filename : string)
    (source_id : UUID) (blocking : bool) : M JobModel :=
  file <- open_rb filename ;;
  let files := [("file", file)] in
  response <- requests_post self
    (base_url self +++ "/api/sources/" +++ py_str (VUUID source_id) +++ "/upload")
    None files ;;
  if negb (status_code response =? 200) then
    raise (ValueError ("Failed to upload file to source: " +++ text response))
  else
    job <- lift (job_of_response response) ;;
    if blocking then wait_for_job fuel self job
    else ret job.

(** [create_source] *)
Definition create_source (self : t) (name : string) (description : option string)
  : M Source :=
  let payload := VDict [("name", VStr name);
                        ("description", of_opt_str description)] in
  response <- requests_post self (base_url self +++ "/api/sources")
                (Some payload) [] ;;
  lift (d <- response_json response ;;
        response_obj <- SourceModel_new d ;;
        id <- UUID_new (sm_id response_obj) ;;
        user_id <- UUID_new (sm_user_id response_obj) ;;
        cfg <-
          match sm_embedding_config response_obj with
          | WireConfig c => ret c
          | DomainConfig _ => raise (TypeError "object is not subscriptable")
          end ;;
        embedding_dim <- subscript cfg "embedding_dim" ;;
        embedding_model <- subscript cfg "embedding_model" ;;
        ret (mk_Source id (sm_name response_obj) user_id
               (sm_created_at response_obj) embedding_dim embedding_model)).

(** *** Further operations of the remote strategy *)

(** [requests.request(meth, u, params=..., json=..., headers=self.headers)] *)
Definition requests_call (self : t) (meth : http_method) (u : string)
    (params : list (string * value)) (json : option value) : M response :=
  http (mk_request meth u (headers self) params json []).

(** Modelled from the spec: [Model( **d)] for a response model (not in
    this file) that the client hands on without reading it, "consumed as an
    opaque request/response contract": the keyword arguments it holds. *)
Definition opaque_model (d : value) : outcome value :=
  kv <- kwargs d ;;
  ret (VDict kv).

Definition of_opt_uuid (o : option UUID) : value :=
  match o with Some u => VUUID u | None => VNone end.

Definition of_opt_int (o : option Z) : value :=
  match o with Some z => VInt z | None => VNone end.

Definition of_opt_bool (o : option bool) : value :=
  match o with Some b => VBool b | None => VNone end.

(** [GetAgentResponse( **response.json())] followed by
    [get_agent_response_to_state]. *)
Definition agent_state_of_response (response : response) : outcome AgentState :=
  d <- response_json response ;;
  response_obj <- AgentResponse_new d ;;
  get_agent_response_to_state response_obj.

(** [rename_agent] *)
Definition rename_agent (self : t) (agent_id : UUID) (new_name : string)
  : M AgentState :=
  response <- requests_call self PATCH
    (base_url self +++ "/api/agents/" +++ py_str (VUUID agent_id) +++ "/rename")
    [] (Some (VDict [("agent_name", VStr new_name)])) ;;
  assert (status_code response =? 200)
         ("Failed to rename agent: " +++ text response) ;;;
  lift (agent_state_of_response response).

(** [delete_agent] *)
Definition delete_agent (self : t) (agent_id : option UUID)
    (agent_name : option string) : M unit :=
  let data := VDict [("agent_id", VStr (py_str (of_opt_uuid agent_id)));
                     ("agent_name", of_opt_str agent_name)] in
  response <- requests_call self DELETE (base_url self +++ "/api/agents/delete")
                [] (Some data) ;;
  assert (status_code response =? 200)
         ("Failed to delete agent: " +++ text response).

(** [get_agent_config] *)
Definition get_agent_config (self : t) (agent_id : option UUID)
    (agent_name : option string) : M AgentState :=
  let params := [("agent_id", of_opt_uuid agent_id);
                 ("agent_name", of_opt_str agent_name)] in
  response <- requests_call self GET (base_url self +++ "/api/agents/config")
                params None ;;
  assert (status_code response =? 200)
         ("Failed to get agent: " +++ text response) ;;;
  lift (agent_state_of_response response).

(** [get_preset] *)
Definition get_preset (self : t) (preset_name user_id : value) : M value :=
  response <- requests_call self GET
    (base_url self +++ "/api/presets/" +++ py_str preset_name) [] None ;;
  assert (status_code response =? 200)
         ("Failed to get preset: " +++ text response) ;;;
  lift (d <- response_json response ;; opaque_model d).

(** A call [f( **kw)] of a function whose parameters all lack a default:
    a keyword that names no parameter is a [TypeError], and so is a
    parameter that gets no argument; else the arguments, in the order of
    the parameters. *)
Definition bind_keywords (fname : string) (params : list string)
    (kw : list (string * value)) : outcome (list value) :=
  match find (fun p => negb (existsb (String.eqb (fst p)) params)) kw with
  | Some (k, _) =>
      Raise (TypeError (fname +++ "() got an unexpected keyword argument '"
                        +++ k +++ "'"))
  | None =>
      mapM (fun p =>
              match lookup p kw with
              | Some v => Return v
              | None =>
                  Raise (TypeError (fname +++ "() missing required argument '"
                                    +++ p +++ "'"))
              end) params
  end.

(** [self.get_preset( **kw)] *)
Definition call_get_preset (self : t) (kw : list (string * value)) : M value :=
  args <- lift (bind_keywords "RESTClient.get_preset"
                  ["preset_name"; "user_id"] kw) ;;
  match args with
  | [preset_name; user_id] => get_preset self preset_name user_id
  | _ => raise (TypeError "RESTClient.get_preset() takes 3 positional arguments")
  end.

(** [ToolModel], with the attribute [create_preset] reads. *)
Record ToolModel := mk_ToolModel {
  json_schema : value
}.

(** [create_preset]: the second definition of that name in the class body,
    which is the one the class keeps.  [DEFAULT_PRESET] is
    [memgpt.constants.DEFAULT_PRESET]. *)
Definition create_preset (DEFAULT_PRESET : string) (self : t) (name : string)
    (description system_name persona_name human_name : option string)
    (tools : option (list ToolModel)) (default_tools : bool) : M value :=
  let schema :=
    match tools with
    | Some l => map json_schema l
    | None => []
    end in
  default_preset <- call_get_preset self [("name", VStr DEFAULT_PRESET)] ;;
  schema <-
    (if default_tools then
       functions <- lift (subscript default_preset "functions_schema") ;;
       match functions with
       | VList l => ret (schema ++ l)
       | _ => raise (TypeError "object is not iterable")
       end
     else ret schema) ;;
  let payload := VDict [("name", VStr name);
                        ("description", of_opt_str description);
                        ("system_name", of_opt_str system_name);
                        ("persona_name", of_opt_str persona_name);
                        ("human_name", of_opt_str human_name);
                        ("functions_schema", VList schema)] in
  response <- requests_call self POST (base_url self +++ "/api/presets")
                [] (Some payload) ;;
  assert (status_code response =? 200)
         ("Failed to create preset: " +++ text response) ;;;
  lift (d <- response_json response ;;
        m <- opaque_model d ;;
        subscript m "preset").

(** [send_message] *)
Definition send_message (self : t) (agent_id : value) (message role : string)
    (stream : option bool) : M value :=
  let data := VDict [("message", VStr message); ("role", VStr role);
                     ("stream", of_opt_bool stream)] in
  response <- requests_call self POST
    (base_url self +++ "/api/agents/" +++ py_str agent_id +++ "/messages")
    [] (Some data) ;;
  if negb (status_code response =? 200) then
    raise (ValueError ("Failed to send message: " +++ text response))
  else
    lift (d <- response_json response ;; opaque_model d).

(** [user_message] *)
Definition user_message (self : t) (agent_id message : string) : M value :=
  send_message self (VStr agent_id) message "user" (Some false).

(** [save] *)
Definition save (self : t) : M unit := raise NotImplementedError.

(** [get_agent_archival_memory] *)
Definition get_agent_archival_memory (self : t) (agent_id : UUID)
    (before after : option UUID) (limit : option Z) : M value :=
  let params := [("limit", of_opt_int limit)] in
  let params :=
    match before with
    | Some b => params ++ [("before", VStr (py_str (VUUID b)))]
    | None => params
    end in
  let params :=
    match after with
    | Some a => params ++ [("after", VStr (py_str (VUUID a)))]
    | None => params
    end in
  response <- requests_call self GET
    (base_url self +++ "/api/agents/" +++ py_str (VUUID agent_id) +++ "/archival")
    params None ;;
  assert (status_code response =? 200)
         ("Failed to get archival memory: " +++ text response) ;;;
  lift (d <- response_json response ;; opaque_model d).

(** [insert_archival_memory] *)
Definition insert_archival_memory (self : t) (agent_id : UUID) (memory : string)
  : M value :=
  response <- requests_call self POST
    (base_url self +++ "/api/agents/" +++ py_str (VUUID agent_id) +++ "/archival")
    [] (Some (VDict [("content", VStr memory)])) ;;
  if negb (status_code response =? 200) then
    raise (ValueError ("Failed to insert archival memory: " +++ text response))
  else
    lift (d <- response_json response ;; opaque_model d).

(** [delete_archival_memory] *)
Definition delete_archival_memory (self : t) (agent_id memory_id : UUID)
  : M unit :=
  response <- requests_call self DELETE
    (base_url self +++ "/api/agents/" +++ py_str (VUUID agent_id)
     +++ "/archival?id=" +++ py_str (VUUID memory_id)) [] None ;;
  assert (status_code response =? 200)
         ("Failed to delete archival memory: " +++ text response).

(** [get_human]; the result is [None] when the body is [null]. *)
Definition get_human (self : t) (name : string) (user_id : UUID)
  : M (option value) :=
  response <- requests_call self GET (base_url self +++ "/api/humans/" +++ name)
                [] None ;;
  first <- lift (response_json response) ;;
  match first with
  | VNone => ret None
  | _ =>
      lift (d <- response_json response ;;
            m <- opaque_model d ;;
            ret (Some m))
  end.

(** [detach_source] *)
Definition detach_source (self : t) (source_id agent_id : UUID) : M unit :=
  let params := [("agent_id", VStr (py_str (VUUID agent_id)))] in
  response <- requests_call self POST
    (base_url self +++ "/api/sources/" +++ py_str (VUUID source_id) +++ "/detach")
    params None ;;
  assert (status_code response =? 200)
         ("Failed to detach source from agent: " +++ text response).

End Methods.

End RESTClient.

(** ** The collaborators of the local strategy *)

Definition set_ms (s : MetadataStore) : M unit :=
  fun w => (Return tt,
            mk_world (http_script w) (srv_script w) (fs w) (anon_clientid w)
                     s (ifaces w) (trace w)).

Definition set_srv_script (l : list server_reply) : M unit :=
  fun w => (Return tt,
            mk_world (http_script w) l (fs w) (anon_clientid w)
                     (ms w) (ifaces w) (trace w)).

Definition set_ifaces (l : list (list value)) : M unit :=
  fun w => (Return tt,
            mk_world (http_script w) (srv_script w) (fs w) (anon_clientid w)
                     (ms w) l (trace w)).

Fixpoint set_nth {A} (n : nat) (x : A) (l : list A) : list A :=
  match n, l with
  | _, [] => []
  | O, _ :: l' => x :: l'
  | S n', y :: l' => y :: set_nth n' x l'
  end.

(** Modelled from the spec: the message-queuing interface
    ([memgpt.server.rest_api.interface.QueuingInterface], not in this
    file), "used to capture the server's emitted responses during a call":
    a buffer that is cleared before a call and drained after it. *)
Module QueuingInterface.

(** Modelled from the spec: [QueuingInterface(debug=...)], a new and empty
    buffer. *)
Definition new : M nat :=
  w <- get_world ;;
  set_ifaces (ifaces w ++ [[]]) ;;;
  ret (length (ifaces w)).

(** Modelled from the spec: [clear], "clear the queuing interface". *)
Definition clear (r : nat) : M unit :=
  w <- get_world ;;
  set_ifaces (set_nth r [] (ifaces w)).

(** Modelled from the spec: [to_list], "drain the queue into the return
    value": the messages the buffer holds, which it gives up. *)
Definition to_list (r : nat) : M (list value) :=
  w <- get_world ;;
  set_ifaces (set_nth r [] (ifaces w)) ;;;
  ret (nth r (ifaces w) []).

(** Modelled from the spec: what the server does to the interface it is
    bound to: the messages it emits are added to the buffer. *)
Definition push (r : nat) (msgs : list value) : M unit :=
  w <- get_world ;;
  set_ifaces (set_nth r (nth r (ifaces w) [] ++ msgs) (ifaces w)).

End QueuingInterface.

(** Modelled from the spec: a method call on the embedded [SyncServer]
    (not in this file) bound to the interface [iface], "invoke the
    corresponding server method synchronously": the
    server's next reply is consumed, its messages land in the interface,
    and the call returns or raises as the reply says.  A server with no
    reply left emits nothing and returns [None]. *)
Definition server_call (iface : nat) (meth : string) (args : list value) : M value :=
  log (EvServer meth args) ;;;
  w <- get_world ;;
  match srv_script w with
  | [] => ret VNone
  | r :: rest =>
      set_srv_script rest ;;;
      QueuingInterface.push iface (emitted r) ;;;
      match reply r with
      | inl v => ret v
      | inr e => raise e
      end
  end.

(** Modelled from the spec: the persistent metadata store
    ([memgpt.metadata.MetadataStore], not in this file), at its interface
    boundary: a table of User rows with get, update and create, where
    create fails on an id that is already there. *)
Module Store.

(** Modelled from the spec: [MetadataStore.get_user], the row of that id
    or [None]. *)
Definition get_user (s : MetadataStore) (id : UUID) : option User :=
  find (fun u => N.eqb (user_id_of u) id) (users s).

(** Modelled from the spec: [MetadataStore.update_user], "if found,
    refresh/update it". *)
Definition update_user (user : User) (s : MetadataStore) : MetadataStore :=
  mk_store
    (map (fun u => if N.eqb (user_id_of u) (user_id_of user) then user else u)
         (users s))
    (presets s).

(** Modelled from the spec: [MetadataStore.create_user], "if not found,
    create it"; a create that fails on an id already there. *)
Definition create_user (user : User) (s : MetadataStore) : MetadataStore + exn :=
  match get_user s (user_id_of user) with
  | Some _ =>
      inr (ValueError ("User with id " +++ uuid_str (user_id_of user)
                       +++ " already exists"))
  | None => inl (mk_store (users s ++ [user]) (presets s))
  end.

(** The number of User rows with the given id. *)
Definition count_user (s : MetadataStore) (id : UUID) : nat :=
  length (filter (fun u => N.eqb (user_id_of u) id) (users s)).

(** Modelled from the spec: whether the store has the preset of that
    owner and name. *)
Definition has_preset (s : MetadataStore) (id : UUID) (name : string) : bool :=
  existsb (fun p => N.eqb (fst p) id && String.eqb (snd p) name) (presets s).

End Store.

(** ** class LocalClient *)

Module LocalClient.

Record t := mk {
  auto_save : bool;
  user_id : UUID;
  user : User;
  (** a reference to the interface, shared with [server] *)
  interface : nat
}.

Section Methods.
Context `{PyRuntime}.
(** [memgpt.constants.DEFAULT_PRESET] *)
Variable DEFAULT_PRESET : string.

(** Modelled from the spec: [memgpt.presets.presets.add_default_presets]
    (not in this file): "ensure the default set of Presets exists for
    this user (idempotent: safe to call repeatedly)". *)
Definition add_default_presets (user_id : UUID) : M unit :=
  w <- get_world ;;
  if Store.has_preset (ms w) user_id DEFAULT_PRESET then ret tt
  else set_ms (mk_store (users (ms w))
                        (presets (ms w) ++ [(user_id, DEFAULT_PRESET)])).

(** [__init__] *)
Definition init (auto_save : bool) (user_id : option string) (debug : bool)
  : M t :=
  config <- get_world ;;
  self_user_id <-
    lift (if truthy_str user_id then UUID_new (of_opt_str user_id)
          else UUID_new (VStr (anon_clientid config))) ;;
  let self_user := mk_User self_user_id None false in
  w <- get_world ;;
  match Store.get_user (ms w) self_user_id with
  | Some _ => set_ms (Store.update_user self_user (ms w))
  | None =>
      match Store.create_user self_user (ms w) with
      | inl s => set_ms s
      | inr e => raise e
      end
  end ;;;
  add_default_presets self_user_id ;;;
  self_interface <- QueuingInterface.new ;;
  ret (mk auto_save self_user_id self_user self_interface).

(** [list_agents] *)
Definition list_agents (self : t) : M ListAgentsResponse :=
  QueuingInterface.clear (interface self) ;;;
  agents_data <- server_call (interface self) "list_agents"
                   [VUUID (user_id self)] ;;
  lift (ListAgentsResponse_new agents_data).

(** [x in [agent[key] for agent in agents]] *)
Definition member_by (key x : string) (agents : list value) : outcome bool :=
  col <- mapM (fun agent => subscript agent key) agents ;;
  ret (existsb (fun v => eq_str v x) col).

(** [agent_exists] *)
Definition agent_exists (self : t) (agent_id agent_name : option string)
  : M bool :=
  if negb (truthy_str agent_id || truthy_str agent_name) then
    raise (ValueError "Either agent_id or agent_name must be provided")
  else if truthy_str agent_id && truthy_str agent_name then
    raise (ValueError "Only one of agent_id or agent_name can be provided")
  else
    existing <- list_agents self ;;
    if truthy_str agent_id then
      rows <- lift (ListAgentsResponse_getitem existing "agents") ;;
      lift (member_by "id" (py_str (of_opt_str agent_id)) rows)
    else
      rows <- lift (ListAgentsResponse_getitem existing "agents") ;;
      lift (member_by "name" (py_str (of_opt_str agent_name)) rows).

(** [save] *)
Definition save (self : t) : M unit :=
  server_call (interface self) "save_agents" [] ;;;
  ret tt.

(** [user_message]; the result is [None] when the method falls off its
    end, else the [messages] of the [UserMessageResponse]. *)
Definition user_message (self : t) (agent_id message : string)
  : M (option (list value)) :=
  QueuingInterface.clear (interface self) ;;;
  server_call (interface self) "user_message"
    [VUUID (user_id self); VStr agent_id; VStr message] ;;;
  if auto_save self then
    save self ;;;
    ret None
  else
    messages <- QueuingInterface.to_list (interface self) ;;
    ret (Some messages).

(** *** Further operations of the local strategy *)

(** [create_agent]; the result is the agent state the server returns. *)
Definition create_agent (self : t) (name preset persona human : option string)
  : M value :=
  exists_ <-
    (if truthy_str name then agent_exists self None name else ret false) ;;
  if exists_ then
    raise (ValueError ("Agent with name " +++ py_str (of_opt_str name)
                       +++ " already exists (user_id="
                       +++ py_str (VUUID (user_id self)) +++ ")"))
  else
    QueuingInterface.clear (interface self) ;;;
    server_call (interface self) "create_agent"
      [VUUID (user_id self); of_opt_str name; of_opt_str preset;
       of_opt_str persona; of_opt_str human].

(** [get_agent_memory] *)
Definition get_agent_memory (self : t) (agent_id : string) : M value :=
  QueuingInterface.clear (interface self) ;;;
  server_call (interface self) "get_agent_memory"
    [VUUID (user_id self); VStr agent_id].

(** [run_command] *)
Definition run_command (self : t) (agent_id command : string) : M value :=
  QueuingInterface.clear (interface self) ;;;
  server_call (interface self) "run_command"
    [VUUID (user_id self); VStr agent_id; VStr command].

End Methods.

End LocalClient.

(** ** class AgentEncoder *)

(** What [AgentEncoder.default] is given: a value without [__dict__]
    (a string, a number, [None], a list, a dict, a UUID, a datetime), or an
    instance with its [__dict__]. *)
Inductive pyobj :=
| Plain (v : value)
| Instance (attrs : list (string * pyobj)).

(** [type(v).__name__] *)
Definition type_name (v : value) : string :=
  match v with
  | VNone => "NoneType"
  | VBool _ => "bool"
  | VInt _ => "int"
  | VStr _ => "str"
  | VList _ => "list"
  | VDict _ => "dict"
  | VUUID _ => "UUID"
  | VDatetime _ => "datetime"
  end.

Module AgentEncoder.

(** [default] *)
Fixpoint default (obj : pyobj) : outcome value :=
  match obj with
  | Plain (VUUID u) => Return (VStr (uuid_str u))
  | Instance attrs =>
      match
        (fix items (l : list (string * pyobj)) : outcome (list (string * value)) :=
           match l with
           | [] => Return []
           | (key, v) :: rest =>
               match default v with
               | Return x =>
                   match items rest with
                   | Return xs => Return ((key, x) :: xs)
                   | Raise e => Raise e
                   | Diverge => Diverge
                   end
               | Raise e => Raise e
               | Diverge => Diverge
               end
           end) attrs
      with
      | Return kv => Return (VDict kv)
      | Raise e => Raise e
      | Diverge => Diverge
      end
  | Plain v =>
      Raise (TypeError ("Object of type " +++ type_name v
                        +++ " is not JSON serializable"))
  end.

End AgentEncoder.

(** No attribute of the object, at any depth, holds a value other than a
    UUID. *)
Fixpoint uuids_only (obj : pyobj) : bool :=
  match obj with
  | Plain (VUUID _) => true
  | Plain _ => false
  | Instance attrs =>
      (fix all (l : list (string * pyobj)) : bool :=
         match l with
         | [] => true
         | (_, v) :: rest => uuids_only v && all rest
         end) attrs
  end.

(** The encoding of an object whose leaves are UUIDs: a UUID is its string
    form, an instance the dict of its attributes, under their names and in
    their order, each encoded in turn. *)
Fixpoint encoding (obj : pyobj) : value :=
  match obj with
  | Plain (VUUID u) => VStr (uuid_str u)
  | Plain v => v
  | Instance attrs =>
      VDict (map (fun kv => (fst kv, encoding (snd kv))) attrs)
  end.

(** The first value of the object, in the order of the attributes and
    depth first, that is not a UUID. *)
Fixpoint first_plain (obj : pyobj) : option value :=
  match obj with
  | Plain (VUUID _) => None
  | Plain v => Some v
  | Instance attrs =>
      (fix first (l : list (string * pyobj)) : option value :=
         match l with
         | [] => None
         | (_, v) :: rest =>
             match first_plain v with
             | Some x => Some x
             | None => first rest
             end
         end) attrs
  end.

(** ** Classes and method resolution *)

Inductive class := CAbstractClient | CRESTClient | CLocalClient.

Definition bases (c : class) : list class :=
  match c with
  | CAbstractClient => []
  | CRESTClient => [CAbstractClient]
  | CLocalClient => [CAbstractClient]
  end.

(** The names each class body defines. *)
Definition class_dict (c : class) : list string :=
  match c with
  | CAbstractClient =>
      ["__init__"; "list_agents"; "agent_exists"; "create_agent";
       "rename_agent"; "delete_agent"; "get_agent"; "get_agent_config";
       "update_agent"; "save_agent"; "get_user"; "create_user"; "get_preset";
       "add_default_presets"; "create_preset"; "delete_preset"; "list_presets";
       "get_agent_memory"; "update_agent_core_memory"; "user_message";
       "run_command"; "save"; "get_agent_archival_memory";
       "insert_archival_memory"; "delete_archival_memory"; "get_messages";
       "send_message"; "list_humans"; "create_human"; "get_human"; "add_human";
       "update_human"; "delete_human"; "list_personas"; "create_persona";
       "add_persona"; "list_tools"; "create_tool"; "list_sources";
       "delete_source"; "load_file_into_source"; "create_source";
       "attach_source_to_agent"; "detach_source"; "list_models"; "get_config"]
  | CRESTClient =>
      ["__init__"; "list_agents"; "agent_exists"; "create_agent";
       "get_agent_response_to_state"; "rename_agent"; "delete_agent";
       "get_agent_config"; "update_agent"; "save_agent"; "get_user";
       "create_user"; "create_preset"; "add_default_presets"; "get_preset";
       "get_preset_sources"; "create_preset_from_file"; "delete_preset";
       "list_presets"; "get_agent_memory"; "update_agent_core_memory";
       "user_message"; "run_command"; "save"; "get_agent_archival_memory";
       "insert_archival_memory"; "delete_archival_memory"; "get_messages";
       "send_message"; "list_humans"; "get_human"; "add_human"; "update_human";
       "delete_human"; "list_personas"; "get_persona"; "add_persona";
       "update_persona"; "delete_persona"; "list_sources"; "delete_source";
       "get_job_status"; "load_file_into_source"; "create_source";
       "attach_source_to_agent"; "detach_source"; "list_models"; "get_config"]
  | CLocalClient =>
      ["__init__"; "list_agents"; "agent_exists"; "create_agent";
       "get_agent_config"; "update_agent"; "save_agent"; "delete_agent";
       "get_user"; "create_user"; "create_preset"; "add_default_presets";
       "create_preset_from_file"; "get_preset"; "delete_preset"; "list_presets";
       "get_preset_sources"; "get_agent_memory"; "update_agent_core_memory";
       "user_message"; "run_command"; "save"; "get_agent_archival_memory";
       "list_humans"; "get_human"; "add_human"; "update_human"; "delete_human";
       "list_personas"; "get_persona"; "add_persona"; "update_persona";
       "delete_persona"; "list_sources"; "create_source";
       "attach_source_to_agent"; "delete_source"; "get_config"]
  end.

(** Attribute lookup along the method resolution order: the first class
    that defines the name. *)
Definition resolve (c : class) (name : string) : option class :=
  find (fun k => existsb (String.eqb name) (class_dict k)) (c :: bases c).

(** A client object: one of the two strategies. *)
Inductive client :=
| Rest (self : RESTClient.t)
| Local (self : LocalClient.t).

Definition class_of (c : client) : class :=
  match c with
  | Rest _ => CRESTClient
  | Local _ => CLocalClient
  end.

Section Facade.
Context `{PyRuntime}.
Variable DEFAULT_PRESET : string.

(** [create_client] *)
Definition create_client (base_url token : option string) : M client :=
  match base_url with
  | None =>
      self <- LocalClient.init DEFAULT_PRESET false None false ;;
      ret (Local self)
  | Some u =>
      ret (Rest (RESTClient.init u (py_str (of_opt_str token)) false))
  end.

(** [client.get_messages(agent_id, before, after, limit)] *)
Definition get_messages (c : client) (agent_id : value)
    (before after : option UUID) (limit : option Z) : M value :=
  match resolve (class_of c) "get_messages", c with
  | Some CRESTClient, Rest self =>
      RESTClient.get_messages self agent_id before after limit
  | Some CAbstractClient, _ =>
      AbstractClient.get_messages agent_id before after limit
  | _, _ => raise (AttributeError "object has no attribute 'get_messages'")
  end.

(** [client.agent_exists(agent_id, agent_name)] *)
Definition agent_exists (c : client) (agent_id agent_name : option string)
  : M bool :=
  match c with
  | Rest self => RESTClient.agent_exists self agent_id agent_name
  | Local self => LocalClient.agent_exists self agent_id agent_name
  end.

End Facade.

(** ** A concrete runtime

    An instance of [PyRuntime] to run the model on examples.  It covers
    the canonical forms only: hyphenated or plain 32-digit hexadecimal
    identifiers, epoch seconds of the years 1 to 9999 and of the years
    around them that [fromtimestamp] rejects with a [ValueError], and date-time
    strings written exactly as [YYYY-MM-DDTHH:MM:SS.f] with one to six
    fraction digits. *)
Module CPython.

Definition hex_val (c : ascii) : option N :=
  let n := N_of_ascii c in
  if (48 <=? n)%N && (n <=? 57)%N then Some (n - 48)%N
  else if (97 <=? n)%N && (n <=? 102)%N then Some (n - 87)%N
  else if (65 <=? n)%N && (n <=? 70)%N then Some (n - 55)%N
  else None.

Fixpoint parse_hex (s : string) (acc : N) : option N :=
  match s with
  | EmptyString => Some acc
  | String c s' =>
      match hex_val c with
      | Some d => parse_hex s' (16 * acc + d)%N
      | None => None
      end
  end.

Fixpoint remove_hyphens (s : string) : string :=
  match s with
  | EmptyString => EmptyString
  | String c s' =>
      if Ascii.eqb c "-" then remove_hyphens s'
      else String c (remove_hyphens s')
  end.

Definition uuid_of_string (s : string) : UUID + string :=
  let h := remove_hyphens s in
  if Nat.eqb (String.length h) 32 then
    match parse_hex h 0%N with
    | Some n => inl n
    | None => inr "invalid literal for int() with base 16"
    end
  else inr "badly formed hexadecimal UUID string".

(** The civil date of a day number counted from 1970-01-01. *)
Definition civil_from_days (days : Z) : Z * Z * Z :=
  let z := days + 719468 in
  let era := z / 146097 in
  let doe := z - era * 146097 in
  let yoe := (doe - doe / 1460 + doe / 36524 - doe / 146096) / 365 in
  let doy := doe - (365 * yoe + yoe / 4 - yoe / 100) in
  let mp := (5 * doy + 2) / 153 in
  let d := doy - (153 * mp + 2) / 5 + 1 in
  let m := if mp <? 10 then mp + 3 else mp - 9 in
  let y := yoe + era * 400 + (if m <=? 2 then 1 else 0) in
  (y, m, d).

Definition fromtimestamp_utc (t : Z) : datetime + exn :=
  let '(y, m, d) := civil_from_days (t / 86400) in
  let s := t mod 86400 in
  if (1 <=? y) && (y <=? 9999) then
    inl (mk_datetime y m d (s / 3600) (s mod 3600 / 60) (s mod 60) 0 true)
  else inr (ValueError ("year " +++ int_str y +++ " is out of range")).

Definition digit_val (c : ascii) : option Z :=
  let n := N_of_ascii c in
  if (48 <=? n)%N && (n <=? 57)%N then Some (Z.of_N n - 48) else None.

(** Exactly [n] decimal digits at the head of [s]. *)
Fixpoint digits (n : nat) (s : string) (acc : Z) : option (Z * string) :=
  match n, s with
  | O, _ => Some (acc, s)
  | S n', String c s' =>
      match digit_val c with
      | Some d => digits n' s' (10 * acc + d)
      | None => None
      end
  | S _, EmptyString => None
  end.

Definition expect (c : ascii) (s : string) : option string :=
  match s with
  | String c' s' => if Ascii.eqb c c' then Some s' else None
  | EmptyString => None
  end.

Definition days_in_month (y m : Z) : Z :=
  if m =? 2 then
    if ((y mod 4 =? 0) && negb (y mod 100 =? 0)) || (y mod 400 =? 0)
    then 29 else 28
  else if (m =? 4) || (m =? 6) || (m =? 9) || (m =? 11) then 30
  else 31.

Definition opt_bind {A B} (o : option A) (k : A -> option B) : option B :=
  match o with Some a => k a | None => None end.

Definition parse_iso (s : string) : option datetime :=
  opt_bind (digits 4 s 0) (fun '(y, s) =>
  opt_bind (expect "-" s) (fun s =>
  opt_bind (digits 2 s 0) (fun '(mo, s) =>
  opt_bind (expect "-" s) (fun s =>
  opt_bind (digits 2 s 0) (fun '(d, s) =>
  opt_bind (expect "T" s) (fun s =>
  opt_bind (digits 2 s 0) (fun '(h, s) =>
  opt_bind (expect ":" s) (fun s =>
  opt_bind (digits 2 s 0) (fun '(mi, s) =>
  opt_bind (expect ":" s) (fun s =>
  opt_bind (digits 2 s 0) (fun '(se, s) =>
  opt_bind (expect "." s) (fun s =>
  let n := String.length s in
  opt_bind (digits n s 0) (fun '(f, _) =>
  if (1 <=? y) && (1 <=? mo) && (mo <=? 12) && (1 <=? d)
     && (d <=? days_in_month y mo) && (h <? 24) && (mi <? 60) && (se <? 60)
     && Nat.leb 1 n && Nat.leb n 6
  then Some (mk_datetime y mo d h mi se (f * 10 ^ Z.of_nat (6 - n)) false)
  else None))))))))))))).

Definition strptime (s fmt : string) : datetime + string :=
  if String.eqb fmt "%Y-%m-%dT%H:%M:%S.%f" then
    match parse_iso s with
    | Some t => inl t
    | None => inr ("time data '" +++ s +++ "' does not match format '"
                   +++ fmt +++ "'")
    end
  else inr "format not supported".

Definition pad (w : nat) (z : Z) : string :=
  let s := int_str z in
  let fix zeros n := match n with O => "" | S n' => "0" +++ zeros n' end in
  zeros (w - String.length s)%nat +++ s.

Definition datetime_str (t : datetime) : string :=
  pad 4 (year t) +++ "-" +++ pad 2 (month t) +++ "-" +++ pad 2 (day t)
  +++ " " +++ pad 2 (hour t) +++ ":" +++ pad 2 (minute t) +++ ":"
  +++ pad 2 (second t)
  +++ (if microsecond t =? 0 then "" else "." +++ pad 6 (microsecond t))
  +++ (if tz_utc t then "+00:00" else "").

(** [repr(x)], for strings without quotes or control characters. *)
Fixpoint repr (v : value) : string :=
  match v with
  | VNone => "None"
  | VBool true => "True"
  | VBool false => "False"
  | VInt z => int_str z
  | VStr s => "'" +++ s +++ "'"
  | VList l =>
      "[" +++
      (fix items (l : list value) : string :=
         match l with
         | [] => ""
         | x :: r =>
             match r with
             | [] => repr x
             | _ => repr x +++ ", " +++ items r
             end
         end) l +++ "]"
  | VDict d =>
      "{" +++
      (fix items (d : list (string * value)) : string :=
         match d with
         | [] => ""
         | (k, x) :: r =>
             match r with
             | [] => "'" +++ k +++ "': " +++ repr x
             | _ => "'" +++ k +++ "': " +++ repr x +++ ", " +++ items r
             end
         end) d +++ "}"
  | VUUID u => "UUID('" +++ uuid_str u +++ "')"
  | VDatetime t => "datetime.datetime(" +++ datetime_str t +++ ")"
  end.

Definition container_str (v : value) : string :=
  match v with
  | VDatetime t => datetime_str t
  | _ => repr v
  end.

Definition runtime : PyRuntime :=
  Build_PyRuntime uuid_of_string fromtimestamp_utc strptime container_str.

End CPython.

(** ** Observations on a run *)

(** The durations of the sleeps in a trace, oldest first. *)
Fixpoint sleeps (t : list event) : list Z :=
  match t with
  | [] => []
  | EvSleep s :: t' => s :: sleeps t'
  | _ :: t' => sleeps t'
  end.

(** The requests sent in a trace, oldest first. *)
Fixpoint requests (t : list event) : list request :=
  match t with
  | [] => []
  | EvHttp r :: t' => r :: requests t'
  | _ :: t' => requests t'
  end.

(** The server methods called in a trace, oldest first. *)
Fixpoint server_calls (t : list event) : list string :=
  match t with
  | [] => []
  | EvServer m _ :: t' => m :: server_calls t'
  | _ :: t' => server_calls t'
  end.

(** A status response that leaves the poller waiting: a job that is
    neither completed nor failed. *)
Definition pending (r : response) : bool :=
  match job_of_response r with
  | Return j =>
      negb (JobStatus_eqb (job_status j) completed)
      && negb (JobStatus_eqb (job_status j) failed)
  | _ => false
  end.

(** The world once the backend has answered one more request. *)
Definition answered (q : request) (w : World) : World :=
  mk_world (tl (http_script w)) (srv_script w) (fs w) (anon_clientid w)
           (ms w) (ifaces w) (trace w ++ [EvHttp q]).

(** The request [get_job_status] sends. *)
Definition status_request `{PyRuntime} (self : RESTClient.t) (job_id : value)
  : request :=
  mk_request GET
    (RESTClient.base_url self +++ "/api/sources/status/" +++ py_str job_id)
    (RESTClient.headers self) [] None [].

(** The request with which [load_file_into_source] uploads a file. *)
Definition upload_request `{PyRuntime} (self : RESTClient.t) (source_id : UUID)
    (content : string) : request :=
  mk_request POST
    (RESTClient.base_url self +++ "/api/sources/" +++ py_str (VUUID source_id)
     +++ "/upload")
    (RESTClient.headers self) [] None [("file", content)].

(** The requests [delete_source] sends when no source has the name. *)
Definition sources_request (self : RESTClient.t) : request :=
  mk_request GET (RESTClient.base_url self +++ "/api/sources")
    (RESTClient.headers self) [] None [].

Definition delete_nil_request (self : RESTClient.t) : request :=
  mk_request DELETE
    (RESTClient.base_url self
     +++ "/api/sources/00000000-0000-0000-0000-000000000000")
    (RESTClient.headers self) [] None [].

(** The sources a listing response decodes to. *)
Definition sources_of_response (r : response) : outcome (list SourceModel) :=
  d <- response_json r ;;
  ListSourcesResponse_sources d.

(** No source of the listing has the given name. *)
Definition unlisted (source_name : string) (sources : list SourceModel) : bool :=
  forallb (fun s => negb (eq_str (sm_name s) source_name)) sources.

(** The world once a file has been opened. *)
Definition opened (filename : string) (w : World) : World :=
  mk_world (http_script w) (srv_script w) (fs w) (anon_clientid w)
           (ms w) (ifaces w) (trace w ++ [EvOpen filename]).

(** The world once the poller has slept. *)
Definition slept (seconds : Z) (w : World) : World :=
  mk_world (http_script w) (srv_script w) (fs w) (anon_clientid w)
           (ms w) (ifaces w) (trace w ++ [EvSleep seconds]).

(** The seconds since the epoch that a [created_at] of the wire denotes,
    when it is a number. *)
Definition epoch_seconds (v : value) : option Z :=
  match v with
  | VInt z => Some z
  | VBool b => Some (Z.b2z b)
  | _ => None
  end.

(** [s'] is the conversion of the listed source [s]: the id and the name
    are as listed, the user id is the UUID that the listed string denotes,
    the timestamp is what [strptime] reads in the listed string with the
    format of the code, and the embedding configuration is the object made
    of the five entries of the listed dict. *)
Definition converted `{PyRuntime} (s s' : SourceModel) : Prop :=
  exists u str t cfg endpoint_type endpoint model dim chunk_size,
    UUID_new (sm_user_id s) = Return u
    /\ sm_created_at s = VStr str
    /\ strptime str "%Y-%m-%dT%H:%M:%S.%f" = inl t
    /\ sm_embedding_config s = WireConfig cfg
    /\ subscript cfg "embedding_endpoint_type" = Return endpoint_type
    /\ subscript cfg "embedding_endpoint" = Return endpoint
    /\ subscript cfg "embedding_model" = Return model
    /\ subscript cfg "embedding_dim" = Return dim
    /\ subscript cfg "embedding_chunk_size" = Return chunk_size
    /\ s' = mk_SourceModel (sm_id s) (sm_name s) (VUUID u) (VDatetime t)
              (DomainConfig
                 (mk_EmbeddingConfig endpoint_type endpoint model dim
                    chunk_size)).

(** The events of polling rounds that found the job pending: for each id
    in turn, the status query for it, then a sleep of one second. *)
Definition rounds `{PyRuntime} (self : RESTClient.t) (ids : list value)
  : list event :=
  flat_map (fun id => [EvHttp (status_request self id); EvSleep 1]) ids.

(** The store once [user] has been put in it: the row is updated when
    there is one of that id, added when there is none. *)
Definition upserted (user : User) (s : MetadataStore) : MetadataStore :=
  match Store.get_user s (user_id_of user) with
  | Some _ => Store.update_user user s
  | None => mk_store (users s ++ [user]) (presets s)
  end.

(** The store once the default preset of a user is in it. *)
Definition with_default_preset (name : string) (id : UUID) (s : MetadataStore)
  : MetadataStore :=
  if Store.has_preset s id name then s
  else mk_store (users s) (presets s ++ [(id, name)]).

(** The world a successful [LocalClient.__init__] leaves. *)
Definition initialized (name : string) (id : UUID) (w : World) : World :=
  mk_world (http_script w) (srv_script w) (fs w) (anon_clientid w)
           (with_default_preset name id
              (upserted (mk_User id None false) (ms w)))
           (ifaces w ++ [[]]) (trace w).

(** The identifier [LocalClient.__init__] resolves: the argument when it
    is given, the configured anonymous id otherwise. *)
Definition resolved_user_id `{PyRuntime} (user_id : option string) (w : World)
  : outcome UUID :=
  if truthy_str user_id then UUID_new (of_opt_str user_id)
  else UUID_new (VStr (anon_clientid w)).

(** The buffer of an interface. *)
Definition buffer (r : nat) (w : World) : list value := nth r (ifaces w) [].

(** [m] keeps the property [P] of the world. *)
Definition preserves {A : Type} (P : World -> Prop) (m : M A) : Prop :=
  forall w, P w -> P (snd (m w)).

(** Every request sent so far carries the headers of the client. *)
Definition authorized (self : RESTClient.t) (w : World) : Prop :=
  Forall (fun q => req_headers q = RESTClient.headers self)
         (requests (trace w)).

(** [m] sends one request with the headers of the client, takes the
    backend's answer to it, and does nothing else to the world. *)
Definition one_request {A : Type} (self : RESTClient.t) (m : M A) : Prop :=
  forall w, exists q,
    snd (m w) = answered q w /\ req_headers q = RESTClient.headers self.

(** The names of the contract that a class leaves to [AbstractClient]. *)
Definition inherited (c : class) : list string :=
  filter (fun name =>
            match resolve c name with
            | Some CAbstractClient => true
            | _ => false
            end)
         (class_dict CAbstractClient).

(** The request with which [delete_source] deletes the source of an id. *)
Definition delete_request `{PyRuntime} (self : RESTClient.t) (source_id : value)
  : request :=
  mk_request DELETE
    (RESTClient.base_url self +++ "/api/sources/" +++ py_str source_id)
    (RESTClient.headers self) [] None [].

(** The request [RESTClient.create_agent] sends. *)
Definition create_agent_request (self : RESTClient.t)
    (name preset persona human : option string) : request :=
  mk_request POST (RESTClient.base_url self +++ "/api/agents/create")
    (RESTClient.headers self) []
    (Some (VDict [("config",
                   VDict [("name", of_opt_str name);
                          ("preset", of_opt_str preset);
                          ("persona", of_opt_str persona);
                          ("human", of_opt_str human)])])) [].

(** The calls on a remote client that are embedded here, with their
    arguments: twenty-two of the operations of [RESTClient]. *)
Inductive remote_call :=
| Call_list_agents
| Call_agent_exists (agent_id agent_name : option string)
| Call_create_agent (name preset persona human : option string)
    (embedding_config : option EmbeddingConfig) (llm_config : option LLMConfig)
| Call_rename_agent (agent_id : UUID) (new_name : string)
| Call_delete_agent (agent_id : option UUID) (agent_name : option string)
| Call_get_agent_config (agent_id : option UUID) (agent_name : option string)
| Call_get_preset (preset_name user_id : value)
| Call_create_preset (name : string)
    (description system_name persona_name human_name : option string)
    (tools : option (list RESTClient.ToolModel)) (default_tools : bool)
| Call_user_message (agent_id message : string)
| Call_save
| Call_get_agent_archival_memory (agent_id : UUID) (before after : option UUID)
    (limit : option Z)
| Call_insert_archival_memory (agent_id : UUID) (memory : string)
| Call_delete_archival_memory (agent_id memory_id : UUID)
| Call_get_messages (agent_id : value) (before after : option UUID)
    (limit : option Z)
| Call_send_message (agent_id : value) (message role : string)
    (stream : option bool)
| Call_get_human (name : string) (user_id : UUID)
| Call_list_sources
| Call_delete_source (source_name : string)
| Call_get_job_status (job_id : value)
| Call_load_file_into_source (filename : string) (source_id : UUID)
    (blocking : bool)
| Call_create_source (name : string) (description : option string)
| Call_detach_source (source_id agent_id : UUID).

(** Making a call and dropping its result; [fuel] bounds the status
    queries of a blocking load. *)
Definition perform `{PyRuntime} (DEFAULT_PRESET : string) (fuel : nat)
    (self : RESTClient.t) (c : remote_call) : M unit :=
  match c with
  | Call_list_agents => RESTClient.list_agents self ;;; ret tt
  | Call_agent_exists i n => RESTClient.agent_exists self i n ;;; ret tt
  | Call_create_agent n p pe h ec lc =>
      RESTClient.create_agent self n p pe h ec lc ;;; ret tt
  | Call_rename_agent i n => RESTClient.rename_agent self i n ;;; ret tt
  | Call_delete_agent i n => RESTClient.delete_agent self i n
  | Call_get_agent_config i n => RESTClient.get_agent_config self i n ;;; ret tt
  | Call_get_preset n u => RESTClient.get_preset self n u ;;; ret tt
  | Call_create_preset n d s p h t dt =>
      RESTClient.create_preset DEFAULT_PRESET self n d s p h t dt ;;; ret tt
  | Call_user_message i m => RESTClient.user_message self i m ;;; ret tt
  | Call_save => RESTClient.save self
  | Call_get_agent_archival_memory i b a l =>
      RESTClient.get_agent_archival_memory self i b a l ;;; ret tt
  | Call_insert_archival_memory i m =>
      RESTClient.insert_archival_memory self i m ;;; ret tt
  | Call_delete_archival_memory i m => RESTClient.delete_archival_memory self i m
  | Call_get_messages i b a l => RESTClient.get_messages self i b a l ;;; ret tt
  | Call_send_message i m r s => RESTClient.send_message self i m r s ;;; ret tt
  | Call_get_human n u => RESTClient.get_human self n u ;;; ret tt
  | Call_list_sources => RESTClient.list_sources self ;;; ret tt
  | Call_delete_source n => RESTClient.delete_source self n
  | Call_get_job_status i => RESTClient.get_job_status self i ;;; ret tt
  | Call_load_file_into_source f i b =>
      RESTClient.load_file_into_source fuel self f i b ;;; ret tt
  | Call_create_source n d => RESTClient.create_source self n d ;;; ret tt
  | Call_detach_source s a => RESTClient.detach_source self s a
  end.

(** The calls that are one round trip to the backend. *)
Definition single_request (c : remote_call) : bool :=
  match c with
  | Call_create_agent _ _ _ _ ec lc => negb (truthy_obj ec || truthy_obj lc)
  | Call_create_preset _ _ _ _ _ _ _ => false
  | Call_save => false
  | Call_delete_source _ => false
  | Call_load_file_into_source _ _ _ => false
  | _ => true
  end.

(** The world once an interface has been cleared. *)
Definition cleared (iface : nat) (w : World) : World :=
  mk_world (http_script w) (srv_script w) (fs w) (anon_clientid w) (ms w)
           (set_nth iface [] (ifaces w)) (trace w).

(** The world once the embedded server has answered one more call. *)
Definition served (iface : nat) (meth : string) (args : list value) (w : World)
  : World :=
  match srv_script w with
  | [] =>
      mk_world (http_script w) [] (fs w) (anon_clientid w) (ms w) (ifaces w)
               (trace w ++ [EvServer meth args])
  | r :: rest =>
      mk_world (http_script w) rest (fs w) (anon_clientid w) (ms w)
               (set_nth iface (nth iface (ifaces w) [] ++ emitted r) (ifaces w))
               (trace w ++ [EvServer meth args])
  end.

(** Worlds and objects for the examples. *)
Module Examples.

Definition client : RESTClient.t :=
  RESTClient.init "http://localhost:8283" "secret" false.

Definition world (script : list response) : World :=
  mk_world script [] [("notes.txt", "hello")]
           "00000000-0000-0000-0000-0000000000aa" (mk_store [] []) [] [].

Definition ok (v : value) : response := mk_response 200 "" (Some v).

Definition job (status : string) (metadata : value) : value :=
  VDict [("id", VStr "3b0c8a4e-9d4b-4c55-8f0e-5a7d1c2e9f10");
         ("status", VStr status);
         ("metadata", metadata)].

Definition bad_encoding : value := VDict [("reason", VStr "bad encoding")].

Definition embedding : value :=
  VDict [("embedding_endpoint_type", VStr "openai");
         ("embedding_endpoint", VStr "https://api.openai.com/v1");
         ("embedding_model", VStr "text-embedding-ada-002");
         ("embedding_dim", VInt 1536);
         ("embedding_chunk_size", VInt 300)].

Definition source (name created_at : string) : value :=
  VDict [("id", VStr "11111111-2222-3333-4444-555555555555");
         ("name", VStr name);
         ("user_id", VStr "00000000-0000-0000-0000-0000000000aa");
         ("created_at", VStr created_at);
         ("embedding_config", embedding)].

Definition listing : value :=
  VDict [("num_agents", VInt 1);
         ("agents", VList [VDict [("id", VStr "a1"); ("name", VStr "scout")]])].

Definition job_model (status : JobStatus) (metadata : value) : JobModel :=
  mk_JobModel (VStr "3b0c8a4e-9d4b-4c55-8f0e-5a7d1c2e9f10") status metadata.

(** Upload accepted, then Running, Running, Completed. *)
Definition completing : World :=
  world [ok (job "created" (VDict [])); ok (job "running" (VDict []));
         ok (job "running" (VDict [])); ok (job "completed" (VDict []))].

(** Upload accepted, then Running, Failed with a reason. *)
Definition failing : World :=
  world [ok (job "created" (VDict [])); ok (job "running" (VDict []));
         ok (job "failed" bad_encoding)].

Definition source_uuid : UUID := 0x11111111222233334444555555555555%N.

Definition embedding_config : EmbeddingConfig :=
  mk_EmbeddingConfig (VStr "openai") (VStr "https://api.openai.com/v1")
    (VStr "text-embedding-ada-002") (VInt 1536) (VInt 300).

(** A listing of sources with one source, named ["docs"]. *)
Definition one_source : value :=
  VDict [("sources", VList [source "docs" "2024-03-01T09:30:00.000000"])].

(** Upload accepted, then Running for as long as anyone asks. *)
Definition stuck : World :=
  world [ok (job "created" (VDict [])); ok (job "running" (VDict []));
         ok (job "running" (VDict [])); ok (job "running" (VDict []))].

(** An upload answered with a job that has already failed. *)
Definition failed_at_once : World :=
  world [ok (job "failed" bad_encoding)].

Definition unavailable : response :=
  mk_response 503 "Service Unavailable" None.

Definition llm : value :=
  VDict [("model", VStr "gpt-4"); ("model_endpoint_type", VStr "openai");
         ("model_endpoint", VStr "https://api.openai.com/v1");
         ("model_wrapper", VNone); ("context_window", VInt 8192)].

(** The body of a response that carries an agent state. *)
Definition agent_body : value :=
  VDict [("agent_state",
          VDict [("id", VStr "a1"); ("name", VStr "scout");
                 ("user_id", VStr "00000000-0000-0000-0000-0000000000aa");
                 ("preset", VStr "memgpt_chat"); ("persona", VStr "sam");
                 ("human", VStr "cs_phd"); ("llm_config", llm);
                 ("embedding_config", embedding); ("state", VDict []);
                 ("created_at", VInt 1700000000)])].

Definition source_with (id name : string) : value :=
  VDict [("id", VStr id); ("name", VStr name);
         ("user_id", VStr "00000000-0000-0000-0000-0000000000aa");
         ("created_at", VStr "2024-03-01T09:30:00.000000");
         ("embedding_config", embedding)].

Definition source_model (id name : string) : SourceModel :=
  mk_SourceModel (VStr id) (VStr name)
    (VStr "00000000-0000-0000-0000-0000000000aa")
    (VStr "2024-03-01T09:30:00.000000") (WireConfig embedding).

(** A listing with three sources, two of them named ["docs"]. *)
Definition three_sources : value :=
  VDict [("sources", VList [source_with "s1" "notes"; source_with "s2" "docs";
                            source_with "s3" "docs"])].

Definition normalized_source (id name : string) : SourceModel :=
  mk_SourceModel (VStr id) (VStr name) (VUUID 170%N)
    (VDatetime (mk_datetime 2024 3 1 9 30 0 0 false))
    (DomainConfig embedding_config).

(** What [list_sources] makes of that listing. *)
Definition three_normalized : list SourceModel :=
  [normalized_source "s1" "notes"; normalized_source "s2" "docs";
   normalized_source "s3" "docs"].

(** The agent of the examples as the wire has it, created at [created_at]. *)
Definition agent_model (created_at : value) : AgentStateModel :=
  mk_AgentStateModel (VStr "a1") (VStr "scout")
    (VStr "00000000-0000-0000-0000-0000000000aa")
    (VStr "memgpt_chat") (VStr "sam") (VStr "cs_phd")
    (mk_LLMConfig (VStr "gpt-4") (VStr "openai")
       (VStr "https://api.openai.com/v1") VNone (VInt 8192))
    embedding_config (VDict []) created_at.

Definition local : LocalClient.t :=
  LocalClient.mk false 170%N (mk_User 170%N None false) 0%nat.

Definition local_saving : LocalClient.t :=
  LocalClient.mk true 170%N (mk_User 170%N None false) 0%nat.

Definition local_world (script : list server_reply) : World :=
  mk_world [] script [] "00000000-0000-0000-0000-0000000000aa"
           (mk_store [] []) [[VStr "stale"]] [].

End Examples.

(** * Properties *)

(** ** The monad *)

Lemma bind_M {A B} (m : M A) (k : A -> M B) (w : World) :
  (x <- m ;; k x) w =
  match m w with
  | (Return a, w') => k a w'
  | (Raise e, w') => (Raise e, w')
  | (Diverge, w') => (Diverge, w')
  end.
Proof. reflexivity. Qed.

Lemma bind_lift {A B} (o : outcome A) (k : A -> M B) (w : World) :
  (x <- lift o ;; k x) w =
  match o with
  | Return a => k a w
  | Raise e => (Raise e, w)
  | Diverge => (Diverge, w)
  end.
Proof. destruct o; reflexivity. Qed.

Lemma http_run (q : request) (w : World) :
  http q w =
  (match http_script w with
   | [] => Raise ConnectionError
   | r :: _ => Return r
   end, answered q w).
Proof.
  unfold http, answered, log. cbn.
  destruct (http_script w); reflexivity.
Qed.

Lemma http_answers (q : request) (w : World) (r : response) (rest : list response) :
  http_script w = r :: rest ->
  http q w = (Return r, answered q w).
Proof. intros Hs. rewrite http_run, Hs. reflexivity. Qed.

Lemma sleeps_app (t u : list event) : sleeps (t ++ u) = sleeps t ++ sleeps u.
Proof.
  induction t as [|e t IH]; [reflexivity|].
  destruct e; cbn; rewrite IH; reflexivity.
Qed.

Lemma requests_app (t u : list event) :
  requests (t ++ u) = requests t ++ requests u.
Proof.
  induction t as [|e t IH]; [reflexivity|].
  destruct e; cbn; rewrite IH; reflexivity.
Qed.

Lemma server_calls_app (t u : list event) :
  server_calls (t ++ u) = server_calls t ++ server_calls u.
Proof.
  induction t as [|e t IH]; [reflexivity|].
  destruct e; cbn; rewrite IH; reflexivity.
Qed.

(** ** The remote strategy *)

Section Remote.
Context `{PyRuntime}.

(** *** Creating an agent *)

(** C5: on the remote strategy, [create_agent] with an [embedding_config]
    or an [llm_config] that is not [None] raises the override error, and
    the world is left as it was: no request has been sent and no
    response consumed. *)
Theorem create_agent_rejects_config_override :
  forall self name preset persona human embedding_config llm_config w,
    embedding_config <> None \/ llm_config <> None ->
    RESTClient.create_agent self name preset persona human
      embedding_config llm_config w
    = (Raise (ValueError
         "Cannot override embedding_config or llm_config when creating agent via REST API"),
       w).
Proof.
  intros self name preset persona human ec lc w [Hne | Hne];
    unfold RESTClient.create_agent.
  - destruct ec as [e|]; [reflexivity | congruence].
  - destruct lc as [l|]; [| congruence].
    destruct ec; reflexivity.
Qed.

(** Without overrides the request does go out. *)
Lemma create_agent_sends_request :
  forall self name preset persona human w,
    requests (trace (snd (RESTClient.create_agent self name preset persona
                            human None None w)))
    = requests (trace w) ++
      [mk_request POST (RESTClient.base_url self +++ "/api/agents/create")
         (RESTClient.headers self) []
         (Some (VDict [("config",
                        VDict [("name", of_opt_str name);
                               ("preset", of_opt_str preset);
                               ("persona", of_opt_str persona);
                               ("human", of_opt_str human)])])) []].
Proof.
  intros. unfold RESTClient.create_agent, RESTClient.requests_post.
  change (truthy_obj None || truthy_obj None) with false. cbv iota.
  rewrite bind_M, http_run.
  assert (Ht : forall q, requests (trace (answered q w))
                         = requests (trace w) ++ [q]).
  { intros q. unfold answered. cbn [trace]. apply requests_app. }
  destruct (http_script w) as [|r rest]; [apply Ht|].
  destruct (negb (status_code r =? 200)); [apply Ht|].
  unfold lift. apply Ht.
Qed.

(** *** The job poller *)

Lemma get_job_status_run (self : RESTClient.t) (id : value) (w : World) :
  RESTClient.get_job_status self id w =
  (match http_script w with
   | [] => Raise ConnectionError
   | r :: _ => job_of_response r
   end, answered (status_request self id) w).
Proof.
  unfold RESTClient.get_job_status, RESTClient.requests_get.
  rewrite bind_M, http_run.
  destruct (http_script w); reflexivity.
Qed.

Lemma wait_for_job_step (fuel : nat) (self : RESTClient.t) (job : JobModel)
    (w : World) (r : response) (rest : list response) (j : JobModel) :
  http_script w = r :: rest ->
  job_of_response r = Return j ->
  RESTClient.wait_for_job (S fuel) self job w =
  let w1 := answered (status_request self (job_id job)) w in
  if JobStatus_eqb (job_status j) completed then (Return j, w1)
  else if JobStatus_eqb (job_status j) failed then
    (Raise (ValueError ("Job failed: " +++ py_str (job_metadata j))), w1)
  else RESTClient.wait_for_job fuel self j (slept 1 w1).
Proof.
  intros Hs Hj. cbn [RESTClient.wait_for_job].
  rewrite bind_M, get_job_status_run, Hs, Hj. cbv zeta.
  destruct (JobStatus_eqb (job_status j) completed); [reflexivity|].
  destruct (JobStatus_eqb (job_status j) failed); reflexivity.
Qed.

(** The poller on a backend that answers [rs], all pending, and then
    [r], a terminal job: one sleep of one second per pending answer,
    then the job or the failure. *)
Lemma wait_for_job_terminal :
  forall rs fuel self job w r rest j,
    http_script w = rs ++ r :: rest ->
    forallb pending rs = true ->
    (length rs < fuel)%nat ->
    job_of_response r = Return j ->
    job_status j = completed \/ job_status j = failed ->
    fst (RESTClient.wait_for_job fuel self job w)
    = (if JobStatus_eqb (job_status j) completed then Return j
       else Raise (ValueError ("Job failed: " +++ py_str (job_metadata j))))
    /\ sleeps (trace (snd (RESTClient.wait_for_job fuel self job w)))
       = sleeps (trace w) ++ repeat 1 (length rs)
    /\ http_script (snd (RESTClient.wait_for_job fuel self job w)) = rest.
Proof.
  induction rs as [|a rs IH]; intros fuel self job w r rest j Hs Hp Hf Hj Ht.
  - destruct fuel as [|fuel]; [cbn in Hf; lia|].
    cbn [app] in Hs.
    rewrite (wait_for_job_step fuel self job w r rest j Hs Hj). cbv zeta.
    assert (Hw : sleeps (trace (answered (status_request self (job_id job)) w))
                 = sleeps (trace w) ++ repeat 1 (length (@nil response))).
    { unfold answered. cbn [trace length repeat]. rewrite sleeps_app.
      reflexivity. }
    assert (Hr : http_script (answered (status_request self (job_id job)) w)
                 = rest).
    { unfold answered. cbn [http_script]. rewrite Hs. reflexivity. }
    destruct Ht as [Ht | Ht]; rewrite Ht; cbn [JobStatus_eqb fst snd]; auto.
  - destruct fuel as [|fuel]; [cbn in Hf; lia|].
    cbn [app] in Hs. cbn [forallb] in Hp.
    apply andb_true_iff in Hp. destruct Hp as [Ha Hp].
    unfold pending in Ha.
    destruct (job_of_response a) as [ja| |] eqn:Hja; try discriminate.
    apply andb_true_iff in Ha. destruct Ha as [Hc Hfl].
    apply negb_true_iff in Hc, Hfl.
    rewrite (wait_for_job_step fuel self job w a (rs ++ r :: rest) ja Hs Hja).
    cbv zeta. rewrite Hc, Hfl.
    set (w1 := slept 1 (answered (status_request self (job_id job)) w)).
    assert (Hs1 : http_script w1 = rs ++ r :: rest).
    { unfold w1, slept, answered. cbn [http_script]. rewrite Hs. reflexivity. }
    assert (Hf1 : (length rs < fuel)%nat) by (cbn [length] in Hf; lia).
    destruct (IH fuel self ja w1 r rest j Hs1 Hp Hf1 Hj Ht) as (R1 & R2 & R3).
    split; [exact R1|]. split; [|exact R3].
    rewrite R2. unfold w1, slept, answered. cbn [trace length].
    rewrite !sleeps_app. cbn [sleeps app].
    rewrite <- app_assoc. f_equal.
    change (1 :: repeat 1 (length rs)) with (repeat 1 (S (length rs))).
    cbn [app]. rewrite app_nil_r. reflexivity.
Qed.

(** The poller returns completed jobs only. *)
Lemma wait_for_job_returns_completed :
  forall fuel self job w j,
    fst (RESTClient.wait_for_job fuel self job w) = Return j ->
    job_status j = completed.
Proof.
  induction fuel as [|fuel IH]; intros self job w j Hr.
  - discriminate Hr.
  - cbn [RESTClient.wait_for_job] in Hr.
    rewrite bind_M, get_job_status_run in Hr.
    destruct (http_script w) as [|r rest]; [discriminate Hr|].
    destruct (job_of_response r) as [j1| |]; try discriminate Hr.
    destruct (JobStatus_eqb (job_status j1) completed) eqn:Hc.
    + cbn in Hr. injection Hr as <-.
      destruct (job_status j1); try discriminate Hc; reflexivity.
    + destruct (JobStatus_eqb (job_status j1) failed); [discriminate Hr|].
      rewrite bind_M in Hr. cbn [sleep log] in Hr.
      apply IH in Hr. exact Hr.
Qed.

Lemma open_rb_run (filename : string) (w : World) :
  open_rb filename w =
  (match read_file (fs w) filename with
   | Some content => Return content
   | None => Raise (FileNotFoundError filename)
   end, opened filename w).
Proof.
  unfold open_rb, opened, log. cbn.
  destruct (read_file (fs w) filename); reflexivity.
Qed.

Lemma load_file_into_source_run (fuel : nat) (self : RESTClient.t)
    (filename : string) (source_id : UUID) (blocking : bool) (w : World)
    (content : string) (up : response) (rest : list response) (j0 : JobModel) :
  read_file (fs w) filename = Some content ->
  http_script w = up :: rest ->
  status_code up = 200 ->
  job_of_response up = Return j0 ->
  RESTClient.load_file_into_source fuel self filename source_id blocking w =
  let w1 := answered (upload_request self source_id content)
                     (opened filename w) in
  if blocking then RESTClient.wait_for_job fuel self j0 w1
  else (Return j0, w1).
Proof.
  intros Hf Hs Hc Hj.
  unfold RESTClient.load_file_into_source, RESTClient.requests_post.
  rewrite bind_M, open_rb_run, Hf.
  rewrite bind_M, http_run.
  change (http_script (opened filename w)) with (http_script w).
  rewrite Hs, Hc. cbn [Z.eqb Pos.eqb negb].
  rewrite bind_lift, Hj. cbv zeta.
  destruct blocking; reflexivity.
Qed.

(** C3: a blocking [load_file_into_source] never returns a job that is
    not completed; and when the status queries answer pending jobs and
    then a failed one, the call raises [ValueError] whose message is
    ["Job failed: "] followed by the metadata of that job. *)
Theorem blocking_load_raises_on_failed_job :
  forall fuel self filename source_id w,
    (forall j,
        fst (RESTClient.load_file_into_source fuel self filename source_id
               true w) = Return j ->
        job_status j = completed)
    /\
    (forall content up rs r rest j0 j,
        read_file (fs w) filename = Some content ->
        http_script w = up :: rs ++ r :: rest ->
        status_code up = 200 ->
        job_of_response up = Return j0 ->
        forallb pending rs = true ->
        job_of_response r = Return j ->
        job_status j = failed ->
        (length rs < fuel)%nat ->
        fst (RESTClient.load_file_into_source fuel self filename source_id
               true w)
        = Raise (ValueError ("Job failed: " +++ py_str (job_metadata j)))).
Proof.
  intros fuel self filename source_id w. split.
  - intros j.
    unfold RESTClient.load_file_into_source, RESTClient.requests_post.
    rewrite bind_M, open_rb_run.
    destruct (read_file (fs w) filename) as [content|]; [|discriminate].
    rewrite bind_M, http_run.
    destruct (http_script (opened filename w)) as [|up rest]; [discriminate|].
    destruct (negb (status_code up =? 200)); [discriminate|].
    rewrite bind_lift.
    destruct (job_of_response up) as [j0| |]; try discriminate.
    apply wait_for_job_returns_completed.
  - intros content up rs r rest j0 j Hf Hs Hc Hj0 Hp Hj Hst Hfuel.
    rewrite (load_file_into_source_run fuel self filename source_id true w
               content up (rs ++ r :: rest) j0 Hf Hs Hc Hj0).
    cbv zeta.
    set (w1 := answered (upload_request self source_id content)
                        (opened filename w)).
    assert (Hs1 : http_script w1 = rs ++ r :: rest).
    { unfold w1, answered, opened. cbn [http_script]. rewrite Hs. reflexivity. }
    destruct (wait_for_job_terminal rs fuel self j0 w1 r rest j Hs1 Hp Hfuel Hj
                (or_intror Hst)) as (R1 & _).
    rewrite R1, Hst. reflexivity.
Qed.

(** C6: when the upload succeeds and the status queries answer Running,
    Running and then Completed, a blocking [load_file_into_source]
    returns the completed job, and what it has added to the sleeps of
    the run is two sleeps of one second each. *)
Theorem blocking_load_two_sleeps :
  forall fuel self filename source_id w content up r1 r2 r3 rest j0 j1 j2 j3,
    read_file (fs w) filename = Some content ->
    http_script w = up :: r1 :: r2 :: r3 :: rest ->
    status_code up = 200 ->
    job_of_response up = Return j0 ->
    job_of_response r1 = Return j1 -> job_status j1 = running ->
    job_of_response r2 = Return j2 -> job_status j2 = running ->
    job_of_response r3 = Return j3 -> job_status j3 = completed ->
    (3 <= fuel)%nat ->
    fst (RESTClient.load_file_into_source fuel self filename source_id true w)
    = Return j3
    /\ sleeps (trace (snd (RESTClient.load_file_into_source fuel self filename
                             source_id true w)))
       = sleeps (trace w) ++ [1; 1].
Proof.
  intros fuel self filename source_id w content up r1 r2 r3 rest j0 j1 j2 j3
         Hf Hs Hc Hj0 Hj1 Hs1 Hj2 Hs2 Hj3 Hs3 Hfuel.
  rewrite (load_file_into_source_run fuel self filename source_id true w
             content up (r1 :: r2 :: r3 :: rest) j0 Hf Hs Hc Hj0).
  cbv zeta.
  set (w1 := answered (upload_request self source_id content)
                      (opened filename w)).
  assert (Hw1 : http_script w1 = [r1; r2] ++ r3 :: rest).
  { unfold w1, answered, opened. cbn [http_script]. rewrite Hs. reflexivity. }
  assert (Hp : forallb pending [r1; r2] = true).
  { cbn [forallb]. unfold pending. rewrite Hj1, Hj2, Hs1, Hs2. reflexivity. }
  assert (Hlen : (length [r1; r2] < fuel)%nat) by (cbn [length]; lia).
  destruct (wait_for_job_terminal [r1; r2] fuel self j0 w1 r3 rest j3
              Hw1 Hp Hlen Hj3 (or_introl Hs3)) as (R1 & R2 & _).
  rewrite R1, R2, Hs3. split; [reflexivity|].
  unfold w1, answered, opened. cbn [trace length repeat].
  rewrite !sleeps_app. cbn [sleeps]. rewrite !app_nil_r. reflexivity.
Qed.

(** Without [blocking] the just-submitted job comes back at once,
    whatever its status, and nothing is polled. *)
Lemma non_blocking_load_returns_submitted_job :
  forall fuel self filename source_id w content up rest j0,
    read_file (fs w) filename = Some content ->
    http_script w = up :: rest ->
    status_code up = 200 ->
    job_of_response up = Return j0 ->
    RESTClient.load_file_into_source fuel self filename source_id false w
    = (Return j0,
       answered (upload_request self source_id content) (opened filename w)).
Proof.
  intros. erewrite load_file_into_source_run by eassumption. reflexivity.
Qed.

(** A backend that never leaves Running keeps the poller busy for any
    number of queries. *)
Lemma wait_for_job_unbounded :
  forall fuel self job w,
    (fuel <= length (http_script w))%nat ->
    forallb pending (firstn fuel (http_script w)) = true ->
    fst (RESTClient.wait_for_job fuel self job w) = Diverge.
Proof.
  induction fuel as [|fuel IH]; intros self job w Hlen Hp; [reflexivity|].
  destruct (http_script w) as [|r rest] eqn:Hs; [cbn in Hlen; lia|].
  cbn [firstn forallb] in Hp. apply andb_true_iff in Hp.
  destruct Hp as [Hr Hp]. unfold pending in Hr.
  destruct (job_of_response r) as [j| |] eqn:Hj; try discriminate.
  apply andb_true_iff in Hr. destruct Hr as [Hc Hfl].
  apply negb_true_iff in Hc, Hfl.
  rewrite (wait_for_job_step fuel self job w r rest j Hs Hj).
  cbv zeta. rewrite Hc, Hfl. apply IH.
  - unfold slept, answered. cbn [http_script]. rewrite Hs.
    cbn [tl]. cbn [length] in Hlen. lia.
  - unfold slept, answered. cbn [http_script]. rewrite Hs. exact Hp.
Qed.

(** *** Deleting a source *)

Lemma find_source_id_unlisted :
  forall sources source_name source_id,
    unlisted source_name sources = true ->
    RESTClient.find_source_id sources source_name source_id = source_id.
Proof.
  induction sources as [|s sources IH]; intros source_name source_id Hu;
    [reflexivity|].
  unfold unlisted in Hu. cbn [forallb] in Hu.
  apply andb_true_iff in Hu. destruct Hu as [Hs Hu].
  apply negb_true_iff in Hs.
  cbn [RESTClient.find_source_id]. rewrite Hs. apply IH. exact Hu.
Qed.

(** C10: when the listing has no source of the given name,
    [delete_source] raises nothing about it: it sends the listing
    request and then a DELETE for the all-zero UUID, and its outcome is
    the one the status of that second response decides. *)
Theorem delete_source_unlisted_targets_nil_uuid :
  forall self source_name w listing resp rest sources,
    http_script w = listing :: resp :: rest ->
    sources_of_response listing = Return sources ->
    unlisted source_name sources = true ->
    fst (RESTClient.delete_source self source_name w)
    = (if status_code resp =? 200 then Return tt
       else Raise (AssertionError ("Failed to delete source: " +++ text resp)))
    /\ trace (snd (RESTClient.delete_source self source_name w))
       = trace w ++ [EvHttp (sources_request self);
                     EvHttp (delete_nil_request self)].
Proof.
  intros self source_name w listing resp rest sources Hs Hl Hu.
  unfold RESTClient.delete_source, RESTClient.requests_get,
    RESTClient.requests_delete.
  rewrite bind_M, http_run, Hs.
  fold (sources_of_response listing).
  rewrite bind_lift, Hl.
  rewrite (find_source_id_unlisted sources source_name _ Hu).
  rewrite bind_M, http_run.
  change (py_str (VUUID 0%N)) with "00000000-0000-0000-0000-000000000000".
  fold (sources_request self).
  assert (Hs1 : http_script (answered (sources_request self) w) = resp :: rest).
  { unfold answered. cbn [http_script]. rewrite Hs. reflexivity. }
  rewrite Hs1.
  replace (RESTClient.base_url self +++ "/api/sources/"
           +++ "00000000-0000-0000-0000-000000000000")
    with (RESTClient.base_url self
          +++ "/api/sources/00000000-0000-0000-0000-000000000000").
  2:{ generalize (RESTClient.base_url self). intros b.
      induction b as [|c b IH]; [reflexivity|]. cbn. f_equal. }
  fold (delete_nil_request self).
  unfold assert.
  destruct (status_code resp =? 200); cbn [fst snd]; split; try reflexivity;
    unfold answered; cbn [trace]; rewrite <- app_assoc; reflexivity.
Qed.

(** *** Status codes *)

Lemma list_agents_run (self : RESTClient.t) (w : World) :
  fst (RESTClient.list_agents self w) =
  match http_script w with
  | [] => Raise ConnectionError
  | r :: _ => d <- response_json r ;; ListAgentsResponse_new d
  end.
Proof.
  unfold RESTClient.list_agents, RESTClient.requests_get.
  rewrite bind_M, http_run.
  destruct (http_script w); reflexivity.
Qed.

(** [list_agents] does not look at the status code: whatever it is, a
    body that decodes is returned. *)
Lemma list_agents_any_status :
  forall self w st txt d rest l,
    http_script w = mk_response st txt (Some d) :: rest ->
    ListAgentsResponse_new d = Return l ->
    fst (RESTClient.list_agents self w) = Return l.
Proof.
  intros self w st txt d rest l Hs Hd.
  rewrite list_agents_run, Hs. cbn. exact Hd.
Qed.

(** [get_messages] does look at it. *)
Lemma get_messages_checks_status :
  forall self agent_id before after limit w r rest,
    http_script w = r :: rest ->
    status_code r <> 200 ->
    fst (RESTClient.get_messages self agent_id before after limit w)
    = Raise (ValueError ("Failed to get messages: " +++ text r)).
Proof.
  intros self agent_id before after limit w r rest Hs Hc.
  unfold RESTClient.get_messages, RESTClient.requests_get.
  rewrite bind_M, http_run, Hs.
  apply Z.eqb_neq in Hc. rewrite Hc. reflexivity.
Qed.

(** *** Checking that an agent exists *)

(** The remote [agent_exists] sends its request whatever the arguments
    are, and answers from the status code alone. *)
Lemma rest_agent_exists_run :
  forall self agent_id agent_name w r rest,
    http_script w = r :: rest ->
    fst (RESTClient.agent_exists self agent_id agent_name w)
    = (if status_code r =? 404 then Return false
       else if status_code r =? 200 then Return true
       else Raise (ValueError ("Failed to check if agent exists: " +++ text r))).
Proof.
  intros self agent_id agent_name w r rest Hs.
  unfold RESTClient.agent_exists, RESTClient.requests_get.
  rewrite bind_M, http_run, Hs.
  destruct (status_code r =? 404); [reflexivity|].
  destruct (status_code r =? 200); reflexivity.
Qed.

(** *** Timestamps *)

(** An agent state that is returned carries a parsed timestamp. *)
Lemma agent_state_created_at_parsed :
  forall response a,
    RESTClient.get_agent_response_to_state response = Return a ->
    exists t, agent_created_at a = VDatetime t.
Proof.
  intros response a. unfold RESTClient.get_agent_response_to_state.
  destruct (asm_created_at response) as [ |b|z| | | | | ]; cbn;
    try discriminate.
  - destruct (fromtimestamp_utc (Z.b2z b)) as [t|e]; cbn; [|discriminate].
    intros [= <-]. exists t. reflexivity.
  - destruct (fromtimestamp_utc z) as [t|e]; cbn; [|discriminate].
    intros [= <-]. exists t. reflexivity.
Qed.

(** A listed source that is returned carries a parsed timestamp, and a
    string that [strptime] rejects raises its [ValueError]. *)
Lemma listed_source_created_at_parsed :
  forall source s,
    RESTClient.normalize_source source = Return s ->
    exists t, sm_created_at s = VDatetime t.
Proof.
  intros source s. unfold RESTClient.normalize_source.
  destruct (UUID_new (sm_user_id source)) as [u| |]; cbn; try discriminate.
  destruct (sm_created_at source) as [ | | |c| | | | ]; cbn; try discriminate.
  destruct (strptime c "%Y-%m-%dT%H:%M:%S.%f") as [t|msg]; cbn;
    [|discriminate].
  destruct (sm_embedding_config source) as [cfg|cfg]; cbn; [|discriminate].
  repeat match goal with
         | |- context [subscript cfg ?k] =>
             destruct (subscript cfg k); cbn; try discriminate
         end.
  intros [= <-]. exists t. reflexivity.
Qed.

Lemma listed_source_rejects_unparsable :
  forall source u c msg,
    UUID_new (sm_user_id source) = Return u ->
    sm_created_at source = VStr c ->
    strptime c "%Y-%m-%dT%H:%M:%S.%f" = inr msg ->
    RESTClient.normalize_source source = Raise (ValueError msg).
Proof.
  intros source u c msg Hu Hc Hp. unfold RESTClient.normalize_source.
  rewrite Hu, Hc. cbn. rewrite Hp. reflexivity.
Qed.

(** A created source carries the [created_at] entry of the body as it
    came: [create_source] neither parses nor rejects it. *)
Lemma create_source_created_at_verbatim :
  forall self name description w r rest kv s,
    http_script w = r :: rest ->
    body r = Some (VDict kv) ->
    fst (RESTClient.create_source self name description w) = Return s ->
    lookup "created_at" kv = Some (source_created_at s).
Proof.
  intros self name description w r rest kv s Hs Hb.
  unfold RESTClient.create_source, RESTClient.requests_post.
  rewrite bind_M, http_run, Hs. unfold lift, response_json. rewrite Hb.
  cbn [fst bind outcome_monad]. unfold SourceModel_new.
  cbn [kwargs bind outcome_monad]. unfold field.
  destruct (lookup "id" kv) as [i|]; [|discriminate].
  destruct (lookup "name" kv) as [n|]; [|discriminate].
  destruct (lookup "user_id" kv) as [u|]; [|discriminate].
  destruct (lookup "created_at" kv) as [c|]; [|discriminate].
  destruct (lookup "embedding_config" kv) as [e|]; [|discriminate].
  cbn [ret outcome_monad sm_id sm_user_id sm_embedding_config sm_name
       sm_created_at].
  destruct (UUID_new i) as [iu| |]; try discriminate.
  destruct (UUID_new u) as [uu| |]; try discriminate.
  destruct (subscript e "embedding_dim") as [dim| |]; try discriminate.
  destruct (subscript e "embedding_model") as [mdl| |]; try discriminate.
  intros [= <-]. reflexivity.
Qed.

End Remote.

(** ** The remote strategy on concrete backends *)

Section RemoteScenarios.
#[local] Existing Instance CPython.runtime.
Import Examples.

Lemma create_agent_rejects_config_override_witness :
  (Some embedding_config <> None \/ @None LLMConfig <> None)
  /\ RESTClient.create_agent client (Some "scout") None None None
       (Some embedding_config) None (world [])
     = (Raise (ValueError
          "Cannot override embedding_config or llm_config when creating agent via REST API"),
        world []).
Proof.
  split.
  - left. discriminate.
  - apply create_agent_rejects_config_override. left. discriminate.
Defined.

Lemma blocking_load_raises_on_failed_job_witness :
  fst (RESTClient.load_file_into_source 5 client "notes.txt" source_uuid
         true failing)
  = Raise (ValueError "Job failed: {'reason': 'bad encoding'}").
Proof.
  change "Job failed: {'reason': 'bad encoding'}"
    with ("Job failed: "
          +++ py_str (job_metadata (job_model failed bad_encoding))).
  apply (proj2 (blocking_load_raises_on_failed_job 5 client "notes.txt"
                  source_uuid failing)
           "hello" (ok (job "created" (VDict [])))
           [ok (job "running" (VDict []))] (ok (job "failed" bad_encoding)) []
           (job_model created (VDict [])) (job_model failed bad_encoding));
    try reflexivity.
  cbn. lia.
Defined.

Lemma blocking_load_two_sleeps_witness :
  fst (RESTClient.load_file_into_source 3 client "notes.txt" source_uuid
         true completing)
  = Return (job_model completed (VDict []))
  /\ sleeps (trace (snd (RESTClient.load_file_into_source 3 client
                           "notes.txt" source_uuid true completing)))
     = sleeps (trace completing) ++ [1; 1].
Proof.
  apply (blocking_load_two_sleeps 3 client "notes.txt" source_uuid completing
           "hello" (ok (job "created" (VDict [])))
           (ok (job "running" (VDict []))) (ok (job "running" (VDict [])))
           (ok (job "completed" (VDict []))) []
           (job_model created (VDict [])) (job_model running (VDict []))
           (job_model running (VDict [])) (job_model completed (VDict [])));
    reflexivity.
Defined.

(** The same run, event by event: the file, the upload, and three status
    queries with a sleep before the second and the third. *)
Example blocking_load_trace :
  trace (snd (RESTClient.load_file_into_source 3 client "notes.txt"
                source_uuid true completing))
  = let q := status_request client
               (VStr "3b0c8a4e-9d4b-4c55-8f0e-5a7d1c2e9f10") in
    [EvOpen "notes.txt"; EvHttp (upload_request client source_uuid "hello");
     EvHttp q; EvSleep 1; EvHttp q; EvSleep 1; EvHttp q].
Proof. reflexivity. Qed.

Lemma delete_source_unlisted_targets_nil_uuid_witness :
  fst (RESTClient.delete_source client "papers"
         (world [ok one_source; mk_response 404 "Source not found" None]))
  = Raise (AssertionError "Failed to delete source: Source not found")
  /\ trace (snd (RESTClient.delete_source client "papers"
                   (world [ok one_source;
                           mk_response 404 "Source not found" None])))
     = [EvHttp (sources_request client); EvHttp (delete_nil_request client)].
Proof.
  apply (delete_source_unlisted_targets_nil_uuid client "papers"
           (world [ok one_source; mk_response 404 "Source not found" None])
           (ok one_source) (mk_response 404 "Source not found" None) []
           [mk_SourceModel (VStr "11111111-2222-3333-4444-555555555555")
              (VStr "docs") (VStr "00000000-0000-0000-0000-0000000000aa")
              (VStr "2024-03-01T09:30:00.000000") (WireConfig embedding)]);
    reflexivity.
Defined.

(** A source that is listed is deleted by its own id. *)
Example delete_source_listed :
  requests (trace (snd (RESTClient.delete_source client "docs"
                          (world [ok one_source; ok VNone]))))
  = [sources_request client;
     mk_request DELETE
       "http://localhost:8283/api/sources/11111111-2222-3333-4444-555555555555"
       (RESTClient.headers client) [] None []].
Proof. reflexivity. Qed.

(** C1 (the code departs from it): [create_source] hands the caller the
    [created_at] string of the response as it came.  A well-formed
    date-time string is not parsed into a timestamp, and a string that is
    no date-time at all raises nothing; [list_sources] parses the first
    and rejects the second. *)
Theorem create_source_returns_raw_timestamp :
  fst (RESTClient.create_source client "docs" None
         (world [ok (source "docs" "2024-03-01T09:30:00.000000")]))
  = Return (mk_Source source_uuid (VStr "docs") 170%N
              (VStr "2024-03-01T09:30:00.000000")
              (VInt 1536) (VStr "text-embedding-ada-002"))
  /\ fst (RESTClient.create_source client "docs" None
            (world [ok (source "docs" "last Tuesday")]))
     = Return (mk_Source source_uuid (VStr "docs") 170%N
                 (VStr "last Tuesday")
                 (VInt 1536) (VStr "text-embedding-ada-002")).
Proof. split; reflexivity. Qed.

Example list_sources_parses_timestamp :
  fst (RESTClient.list_sources client (world [ok one_source]))
  = Return [mk_SourceModel (VStr "11111111-2222-3333-4444-555555555555")
              (VStr "docs") (VUUID 170%N)
              (VDatetime (mk_datetime 2024 3 1 9 30 0 0 false))
              (DomainConfig
                 (mk_EmbeddingConfig (VStr "openai")
                    (VStr "https://api.openai.com/v1")
                    (VStr "text-embedding-ada-002") (VInt 1536) (VInt 300)))].
Proof. reflexivity. Qed.

Example list_sources_rejects_timestamp :
  fst (RESTClient.list_sources client
         (world [ok (VDict [("sources",
                             VList [source "docs" "last Tuesday"])])]))
  = Raise (ValueError
             "time data 'last Tuesday' does not match format '%Y-%m-%dT%H:%M:%S.%f'").
Proof. reflexivity. Qed.

(** C2 (the code departs from it): [list_agents], [get_job_status] and
    [create_source] never look at the status code.  On a response with
    status 500 whose body decodes, each returns the decoded object and
    raises nothing. *)
Theorem non_ok_status_returns_object :
  fst (RESTClient.list_agents client
         (world [mk_response 500 "Internal Server Error" (Some listing)]))
  = Return (mk_ListAgentsResponse (VInt 1)
              (VList [VDict [("id", VStr "a1"); ("name", VStr "scout")]]))
  /\ fst (RESTClient.get_job_status client (VStr "j")
            (world [mk_response 500 "Internal Server Error"
                      (Some (job "running" (VDict [])))]))
     = Return (job_model running (VDict []))
  /\ fst (RESTClient.create_source client "docs" None
            (world [mk_response 500 "Internal Server Error"
                      (Some (source "docs" "2024-03-01T09:30:00.000000"))]))
     = Return (mk_Source source_uuid (VStr "docs") 170%N
                 (VStr "2024-03-01T09:30:00.000000")
                 (VInt 1536) (VStr "text-embedding-ada-002")).
Proof. repeat split; reflexivity. Qed.

(** With an error body instead, what is raised is the decoding error,
    which does not carry the text of the response. *)
Example list_agents_error_body :
  fst (RESTClient.list_agents client
         (world [mk_response 401 "{'detail': 'Unauthorized'}"
                   (Some (VDict [("detail", VStr "Unauthorized")]))]))
  = Raise (ValidationError "ListAgentsResponse").
Proof. reflexivity. Qed.

(** C4 (the code departs from it): the remote [agent_exists] accepts both
    arguments together, and none at all: it sends its request for
    [str(agent_id)] and answers from the status code. *)
Theorem rest_agent_exists_accepts_both_and_neither :
  RESTClient.agent_exists client (Some "a1") (Some "scout") (world [ok VNone])
  = (Return true,
     answered (mk_request GET "http://localhost:8283/api/agents/a1/config"
                 (RESTClient.headers client) [] None [])
              (world [ok VNone]))
  /\ RESTClient.agent_exists client None None
       (world [mk_response 404 "Not Found" None])
     = (Return false,
        answered (mk_request GET "http://localhost:8283/api/agents/None/config"
                    (RESTClient.headers client) [] None [])
                 (world [mk_response 404 "Not Found" None])).
Proof. split; reflexivity. Qed.

End RemoteScenarios.

(** ** The local strategy *)

(** *** The metadata store *)

Lemma get_user_upserted (user : User) (s : MetadataStore) :
  Store.get_user (upserted user s) (user_id_of user) = Some user.
Proof.
  unfold upserted, Store.get_user.
  destruct (find _ (users s)) as [u0|] eqn:Hf.
  - unfold Store.update_user. cbn [users].
    induction (users s) as [|u l IH]; [discriminate Hf|].
    cbn [find map] in *.
    destruct (N.eqb (user_id_of u) (user_id_of user)) eqn:Hu.
    + cbn [find]. rewrite N.eqb_refl. reflexivity.
    + cbn [find]. rewrite Hu. apply IH. exact Hf.
  - cbn [users].
    induction (users s) as [|u l IH]; cbn [find app] in *.
    + rewrite N.eqb_refl. reflexivity.
    + destruct (N.eqb (user_id_of u) (user_id_of user)); [discriminate Hf|].
      apply IH. exact Hf.
Qed.

Lemma update_user_twice (user : User) (s : MetadataStore) :
  Store.update_user user (Store.update_user user s) = Store.update_user user s.
Proof.
  unfold Store.update_user. cbn [users presets]. f_equal.
  rewrite map_map. apply map_ext. intros u.
  destruct (N.eqb (user_id_of u) (user_id_of user)) eqn:Hu.
  - rewrite N.eqb_refl. reflexivity.
  - rewrite Hu. reflexivity.
Qed.

Lemma update_user_absent (user : User) (l : list User) :
  find (fun u => N.eqb (user_id_of u) (user_id_of user)) l = None ->
  map (fun u => if N.eqb (user_id_of u) (user_id_of user) then user else u) l
  = l.
Proof.
  induction l as [|u l IH]; intros Hf; [reflexivity|].
  cbn [find map] in *.
  destruct (N.eqb (user_id_of u) (user_id_of user)); [discriminate Hf|].
  rewrite IH by exact Hf. reflexivity.
Qed.

(** Putting the same user in twice is putting it in once. *)
Lemma upserted_twice (user : User) (s : MetadataStore) :
  upserted user (upserted user s) = upserted user s.
Proof.
  unfold upserted at 1. rewrite get_user_upserted.
  unfold upserted. unfold Store.get_user.
  destruct (find _ (users s)) as [u0|] eqn:Hf.
  - apply update_user_twice.
  - unfold Store.update_user. cbn [users presets]. f_equal.
    rewrite map_app. cbn [map]. rewrite N.eqb_refl.
    rewrite update_user_absent by exact Hf. reflexivity.
Qed.

Lemma count_user_upserted (user : User) (s : MetadataStore) :
  Store.count_user (upserted user s) (user_id_of user)
  = Nat.max 1 (Store.count_user s (user_id_of user)).
Proof.
  unfold upserted, Store.get_user, Store.count_user.
  destruct (find _ (users s)) as [u0|] eqn:Hf.
  - unfold Store.update_user. cbn [users].
    assert (Hc : forall l,
      length (filter (fun u => N.eqb (user_id_of u) (user_id_of user))
                (map (fun u => if N.eqb (user_id_of u) (user_id_of user)
                               then user else u) l))
      = length (filter (fun u => N.eqb (user_id_of u) (user_id_of user)) l)).
    { induction l as [|u l IH]; [reflexivity|]. cbn [map filter].
      destruct (N.eqb (user_id_of u) (user_id_of user)) eqn:Hu.
      - rewrite N.eqb_refl. cbn [length]. rewrite IH. reflexivity.
      - rewrite Hu. exact IH. }
    rewrite Hc.
    assert (Hpos : (1 <= length (filter (fun u => N.eqb (user_id_of u)
                                           (user_id_of user)) (users s)))%nat).
    { induction (users s) as [|u l IH]; [discriminate Hf|].
      cbn [find filter] in *.
      destruct (N.eqb (user_id_of u) (user_id_of user)).
      - cbn [length]. lia.
      - apply IH. exact Hf. }
    lia.
  - cbn [users]. rewrite filter_app, length_app. cbn [filter].
    rewrite N.eqb_refl. cbn [length].
    assert (Hz : length (filter (fun u => N.eqb (user_id_of u)
                                   (user_id_of user)) (users s)) = 0%nat).
    { induction (users s) as [|u l IH]; [reflexivity|].
      cbn [find filter] in *.
      destruct (N.eqb (user_id_of u) (user_id_of user)); [discriminate Hf|].
      apply IH. exact Hf. }
    rewrite Hz. reflexivity.
Qed.

Lemma with_default_preset_twice (name : string) (id : UUID) (s : MetadataStore) :
  with_default_preset name id (with_default_preset name id s)
  = with_default_preset name id s.
Proof.
  unfold with_default_preset.
  destruct (Store.has_preset s id name) eqn:Hp.
  - rewrite Hp. reflexivity.
  - assert (Hn : Store.has_preset
                   (mk_store (users s) (presets s ++ [(id, name)])) id name
                 = true).
    { unfold Store.has_preset. cbn [presets]. rewrite existsb_app.
      cbn [existsb fst snd]. rewrite N.eqb_refl, String.eqb_refl.
      cbn. apply orb_true_r. }
    rewrite Hn. reflexivity.
Qed.

Lemma upserted_with_default_preset (user : User) (name : string) (id : UUID)
    (s : MetadataStore) :
  upserted user (with_default_preset name id s)
  = with_default_preset name id (upserted user s).
Proof.
  unfold with_default_preset.
  assert (Hp : Store.has_preset (upserted user s) id name
               = Store.has_preset s id name).
  { unfold upserted, Store.has_preset, Store.update_user.
    destruct (Store.get_user s (user_id_of user)); reflexivity. }
  rewrite Hp. destruct (Store.has_preset s id name); [reflexivity|].
  unfold upserted, Store.get_user, Store.update_user. cbn [users presets].
  destruct (find _ (users s)); reflexivity.
Qed.

(** *** The queuing interface *)

Lemma length_set_nth {A} (n : nat) (x : A) (l : list A) :
  length (set_nth n x l) = length l.
Proof.
  revert n. induction l as [|y l IH]; intros [|n]; cbn; try reflexivity.
  rewrite IH. reflexivity.
Qed.

Lemma nth_set_nth {A} (n : nat) (x d : A) (l : list A) :
  (n < length l)%nat -> nth n (set_nth n x l) d = x.
Proof.
  revert n. induction l as [|y l IH]; intros [|n] Hn; cbn in *; try lia.
  - reflexivity.
  - apply IH. lia.
Qed.

(** *** Constructing the client *)

Section LocalStrategy.
Context `{PyRuntime}.
Variable DEFAULT_PRESET : string.

Lemma init_run (auto_save : bool) (user_id : option string) (debug : bool)
    (w : World) (uid : UUID) :
  resolved_user_id user_id w = Return uid ->
  LocalClient.init DEFAULT_PRESET auto_save user_id debug w
  = (Return (LocalClient.mk auto_save uid (mk_User uid None false)
               (length (ifaces w))),
     initialized DEFAULT_PRESET uid w).
Proof.
  intros Hid. unfold LocalClient.init.
  rewrite bind_M. cbn [get_world].
  fold (resolved_user_id user_id w). rewrite bind_lift, Hid.
  rewrite bind_M. cbn [get_world].
  unfold initialized, upserted, with_default_preset,
    LocalClient.add_default_presets, Store.create_user.
  cbn [user_id_of].
  destruct (Store.get_user (ms w) uid) as [u0|] eqn:Hg.
  - cbn.
    match goal with
    | |- context [existsb ?f ?l] => destruct (existsb f l)
    end; reflexivity.
  - cbn.
    match goal with
    | |- context [existsb ?f ?l] => destruct (existsb f l)
    end; reflexivity.
Qed.

(** C7: when the resolved identifier parses, constructing the client
    returns, and it upserts the User row: a row of that id is updated,
    and one is created when there is none.  Constructing a second client
    on the store the first one left returns as well, leaves the store as
    it is, and the number of rows of that id is one (or what it was
    before, when the store already had several). *)
Theorem local_init_upserts_user :
  forall auto_save user_id debug w uid,
    resolved_user_id user_id w = Return uid ->
    exists c1 w1 c2 w2,
      LocalClient.init DEFAULT_PRESET auto_save user_id debug w
      = (Return c1, w1)
      /\ LocalClient.init DEFAULT_PRESET auto_save user_id debug w1
         = (Return c2, w2)
      /\ LocalClient.user_id c1 = uid /\ LocalClient.user_id c2 = uid
      /\ users (ms w1)
         = match Store.get_user (ms w) uid with
           | Some _ =>
               users (Store.update_user (mk_User uid None false) (ms w))
           | None => users (ms w) ++ [mk_User uid None false]
           end
      /\ Store.get_user (ms w1) uid = Some (mk_User uid None false)
      /\ ms w2 = ms w1
      /\ Store.count_user (ms w2) uid
         = Nat.max 1 (Store.count_user (ms w) uid).
Proof.
  intros auto_save user_id debug w uid Hid.
  set (user := mk_User uid None false).
  assert (Hid1 : resolved_user_id user_id (initialized DEFAULT_PRESET uid w)
                 = Return uid) by exact Hid.
  exists (LocalClient.mk auto_save uid user (length (ifaces w))),
         (initialized DEFAULT_PRESET uid w),
         (LocalClient.mk auto_save uid user
            (length (ifaces (initialized DEFAULT_PRESET uid w)))),
         (initialized DEFAULT_PRESET uid (initialized DEFAULT_PRESET uid w)).
  split; [apply init_run; exact Hid|].
  split; [apply init_run; exact Hid1|].
  split; [reflexivity|]. split; [reflexivity|].
  assert (Hu : forall s, users (with_default_preset DEFAULT_PRESET uid s)
                         = users s).
  { intros s. unfold with_default_preset.
    destruct (Store.has_preset s uid DEFAULT_PRESET); reflexivity. }
  assert (Hg : forall s, Store.get_user
                           (with_default_preset DEFAULT_PRESET uid s) uid
                         = Store.get_user s uid).
  { intros s. unfold Store.get_user. rewrite Hu. reflexivity. }
  assert (Hc : forall s, Store.count_user
                           (with_default_preset DEFAULT_PRESET uid s) uid
                         = Store.count_user s uid).
  { intros s. unfold Store.count_user. rewrite Hu. reflexivity. }
  assert (Hms : ms (initialized DEFAULT_PRESET uid
                      (initialized DEFAULT_PRESET uid w))
                = ms (initialized DEFAULT_PRESET uid w)).
  { unfold initialized. cbn [ms]. fold user.
    rewrite upserted_with_default_preset, upserted_twice.
    apply with_default_preset_twice. }
  split.
  { unfold initialized. cbn [ms]. rewrite Hu. fold user.
    unfold upserted. cbn [user_id_of user].
    destruct (Store.get_user (ms w) uid); reflexivity. }
  split.
  { unfold initialized. cbn [ms]. rewrite Hg. fold user.
    apply (get_user_upserted user). }
  split; [exact Hms|].
  rewrite Hms. unfold initialized. cbn [ms]. rewrite Hc. fold user.
  apply (count_user_upserted user).
Qed.

(** The guard is what keeps [create_user] from failing: on its own it
    raises on an id that is already in the store. *)
Lemma create_user_existing_fails :
  forall user s u0,
    Store.get_user s (user_id_of user) = Some u0 ->
    Store.create_user user s
    = inr (ValueError ("User with id " +++ uuid_str (user_id_of user)
                       +++ " already exists")).
Proof.
  intros user s u0 Hg. unfold Store.create_user. rewrite Hg. reflexivity.
Qed.

(** The interface of a new client is a buffer of the world, and an empty
    one. *)
Lemma init_interface_valid :
  forall auto_save user_id debug w c w1,
    LocalClient.init DEFAULT_PRESET auto_save user_id debug w = (Return c, w1) ->
    (LocalClient.interface c < length (ifaces w1))%nat
    /\ buffer (LocalClient.interface c) w1 = [].
Proof.
  intros auto_save user_id debug w c w1 Hr.
  destruct (resolved_user_id user_id w) as [uid|e|] eqn:Hid.
  - rewrite (init_run auto_save user_id debug w uid Hid) in Hr.
    injection Hr as <- <-. unfold initialized, buffer.
    cbn [LocalClient.interface ifaces]. rewrite length_app. cbn [length].
    split; [lia|].
    rewrite app_nth2 by lia. rewrite Nat.sub_diag. reflexivity.
  - unfold LocalClient.init in Hr. rewrite bind_M in Hr. cbn [get_world] in Hr.
    fold (resolved_user_id user_id w) in Hr. rewrite bind_lift, Hid in Hr.
    discriminate Hr.
  - unfold LocalClient.init in Hr. rewrite bind_M in Hr. cbn [get_world] in Hr.
    fold (resolved_user_id user_id w) in Hr. rewrite bind_lift, Hid in Hr.
    discriminate Hr.
Qed.

(** An identifier that does not parse is the one thing [__init__]
    raises on, before the store is touched. *)
Lemma init_bad_user_id :
  forall auto_save user_id debug w e,
    resolved_user_id user_id w = Raise e ->
    LocalClient.init DEFAULT_PRESET auto_save user_id debug w = (Raise e, w).
Proof.
  intros auto_save user_id debug w e Hid. unfold LocalClient.init.
  rewrite bind_M. cbn [get_world].
  fold (resolved_user_id user_id w). rewrite bind_lift, Hid. reflexivity.
Qed.

(** *** Messages *)

Lemma resolve_get_messages :
  resolve CLocalClient "get_messages" = Some CAbstractClient
  /\ resolve CRESTClient "get_messages" = Some CRESTClient.
Proof. split; reflexivity. Qed.

(** C8: on a local client, [get_messages] raises [NotImplementedError]
    and does nothing else: the class does not define the method, so the
    call runs the body of [AbstractClient]. *)
Theorem local_get_messages_not_implemented :
  forall self agent_id before after limit w,
    get_messages (Local self) agent_id before after limit w
    = (Raise NotImplementedError, w).
Proof. intros. reflexivity. Qed.

(** On a remote client the same call goes to the backend. *)
Lemma rest_get_messages_dispatch :
  forall self agent_id before after limit,
    get_messages (Rest self) agent_id before after limit
    = RESTClient.get_messages self agent_id before after limit.
Proof. intros. reflexivity. Qed.

(** C9: a [user_message] whose server call returns.  Without
    [auto_save] the result is a response with exactly the messages that
    [to_list] drains from the interface after the server call: the ones
    the server emitted during it, whatever the interface held before; the
    interface is empty afterwards.  With [auto_save] the client calls
    [save_agents] and the result is [None] (or what [save_agents] raises):
    no message is handed to the caller, they stay in the interface. *)
Theorem local_user_message_result :
  forall user_id user iface agent_id message w r rest v,
    (iface < length (ifaces w))%nat ->
    srv_script w = r :: rest ->
    reply r = inl v ->
    let off := LocalClient.user_message
                 (LocalClient.mk false user_id user iface) agent_id message w in
    let on := LocalClient.user_message
                (LocalClient.mk true user_id user iface) agent_id message w in
    let after_server :=
      served iface "user_message" [VUUID user_id; VStr agent_id; VStr message]
        (cleared iface w) in
    (fst off = Return (Some (buffer iface after_server))
     /\ buffer iface after_server = emitted r
     /\ buffer iface (snd off) = []
     /\ server_calls (trace (snd off))
        = server_calls (trace w) ++ ["user_message"])
    /\ (fst on = match rest with
                 | [] => Return None
                 | r2 :: _ =>
                     match reply r2 with
                     | inl _ => Return None
                     | inr e => Raise e
                     end
                 end
        /\ buffer iface (snd on)
           = emitted r ++ match rest with [] => [] | r2 :: _ => emitted r2 end
        /\ server_calls (trace (snd on))
           = server_calls (trace w) ++ ["user_message"; "save_agents"]).
Proof.
  intros user_id user iface agent_id message w r rest v Hi Hs Hr
         off on after_server.
  assert (Hb : nth iface
                 (set_nth iface
                    (nth iface (set_nth iface [] (ifaces w)) [] ++ emitted r)
                    (set_nth iface [] (ifaces w))) []
               = emitted r).
  { rewrite nth_set_nth by (rewrite length_set_nth; exact Hi).
    rewrite nth_set_nth by exact Hi. reflexivity. }
  assert (Ha : buffer iface after_server = emitted r).
  { unfold after_server, buffer, served, cleared. cbn [srv_script ifaces].
    rewrite Hs. cbn [ifaces]. exact Hb. }
  split.
  - rewrite Ha. split; [|split; [reflexivity|]].
    + subst off. unfold LocalClient.user_message, server_call,
        QueuingInterface.clear, QueuingInterface.to_list,
        QueuingInterface.push.
      cbn. rewrite Hs. cbn. rewrite Hr. cbn. rewrite Hb. reflexivity.
    + subst off. unfold LocalClient.user_message, server_call,
        QueuingInterface.clear, QueuingInterface.to_list,
        QueuingInterface.push, buffer.
      cbn. rewrite Hs. cbn. rewrite Hr. cbn. split.
      * apply nth_set_nth. rewrite !length_set_nth. exact Hi.
      * rewrite server_calls_app. reflexivity.
  - subst on. unfold LocalClient.user_message, LocalClient.save, server_call,
      QueuingInterface.clear, QueuingInterface.push, buffer.
    cbn. rewrite Hs. cbn. rewrite Hr. cbn.
    destruct rest as [|r2 rest2]; cbn.
    + split; [reflexivity|]. split.
      * rewrite Hb, app_nil_r. reflexivity.
      * rewrite <- app_assoc. rewrite server_calls_app. reflexivity.
    + assert (Hb2 :
        nth iface
          (set_nth iface
             (nth iface
                (set_nth iface
                   (nth iface (set_nth iface [] (ifaces w)) [] ++ emitted r)
                   (set_nth iface [] (ifaces w))) [] ++ emitted r2)
             (set_nth iface
                (nth iface (set_nth iface [] (ifaces w)) [] ++ emitted r)
                (set_nth iface [] (ifaces w)))) []
        = emitted r ++ emitted r2).
      { rewrite nth_set_nth by (rewrite !length_set_nth; exact Hi).
        rewrite Hb. reflexivity. }
      destruct (reply r2) as [v2|e]; cbn;
        (split; [reflexivity|]); (split; [exact Hb2|]);
        rewrite <- app_assoc; rewrite server_calls_app; reflexivity.
Qed.

(** When the server call raises, so does [user_message], whatever
    [auto_save] is. *)
Lemma local_user_message_server_error :
  forall self agent_id message w r rest e,
    srv_script w = r :: rest ->
    reply r = inr e ->
    fst (LocalClient.user_message self agent_id message w) = Raise e.
Proof.
  intros self agent_id message w r rest e Hs Hr.
  unfold LocalClient.user_message, server_call, QueuingInterface.clear,
    QueuingInterface.push.
  cbn. rewrite Hs. cbn. rewrite Hr. reflexivity.
Qed.

(** *** Checking that an agent exists, locally *)

(** The local [agent_exists] refuses both arguments together, and none
    at all, before it asks the server. *)
Lemma local_agent_exists_validates :
  forall self agent_id agent_name w,
    truthy_str agent_id = truthy_str agent_name ->
    exists msg,
      LocalClient.agent_exists self agent_id agent_name w
      = (Raise (ValueError msg), w).
Proof.
  intros self agent_id agent_name w Heq. unfold LocalClient.agent_exists.
  rewrite Heq. destruct (truthy_str agent_name); cbn [orb andb negb].
  - eexists. reflexivity.
  - eexists. reflexivity.
Qed.

End LocalStrategy.

(** ** The local strategy on concrete stores and servers *)

Section LocalScenarios.
#[local] Existing Instance CPython.runtime.
Import Examples.

Lemma local_init_upserts_user_witness :
  exists c1 w1 c2 w2,
    LocalClient.init "memgpt_chat" false None false (world [])
    = (Return c1, w1)
    /\ LocalClient.init "memgpt_chat" false None false w1 = (Return c2, w2)
    /\ LocalClient.user_id c1 = 170%N /\ LocalClient.user_id c2 = 170%N
    /\ users (ms w1)
       = match Store.get_user (ms (world [])) 170%N with
         | Some _ =>
             users (Store.update_user (mk_User 170%N None false)
                      (ms (world [])))
         | None => users (ms (world [])) ++ [mk_User 170%N None false]
         end
    /\ Store.get_user (ms w1) 170%N = Some (mk_User 170%N None false)
    /\ ms w2 = ms w1
    /\ Store.count_user (ms w2) 170%N
       = Nat.max 1 (Store.count_user (ms (world [])) 170%N).
Proof.
  apply (local_init_upserts_user "memgpt_chat" false None false (world [])
           170%N).
  reflexivity.
Defined.

(** Two clients on one store: one User row, one default preset, two
    interfaces. *)
Example local_init_twice :
  snd ((c1 <- LocalClient.init "memgpt_chat" false None false ;;
        LocalClient.init "memgpt_chat" true None false) (world []))
  = mk_world [] [] [("notes.txt", "hello")]
      "00000000-0000-0000-0000-0000000000aa"
      (mk_store [mk_User 170%N None false] [(170%N, "memgpt_chat")])
      [[]; []] [].
Proof. reflexivity. Qed.

Lemma local_user_message_result_witness :
  (fst (LocalClient.user_message local "a1" "hello"
          (local_world [mk_reply [VStr "hi there"] (inl VNone);
                        mk_reply [VStr "saved"] (inl VNone)]))
   = Return (Some (buffer 0
                     (served 0 "user_message"
                        [VUUID 170%N; VStr "a1"; VStr "hello"]
                        (cleared 0
                           (local_world
                              [mk_reply [VStr "hi there"] (inl VNone);
                               mk_reply [VStr "saved"] (inl VNone)])))))
   /\ buffer 0
        (served 0 "user_message" [VUUID 170%N; VStr "a1"; VStr "hello"]
           (cleared 0
              (local_world [mk_reply [VStr "hi there"] (inl VNone);
                            mk_reply [VStr "saved"] (inl VNone)])))
      = [VStr "hi there"]
   /\ buffer 0
        (snd (LocalClient.user_message local "a1" "hello"
                (local_world [mk_reply [VStr "hi there"] (inl VNone);
                              mk_reply [VStr "saved"] (inl VNone)])))
      = []
   /\ server_calls
        (trace (snd (LocalClient.user_message local "a1" "hello"
                       (local_world
                          [mk_reply [VStr "hi there"] (inl VNone);
                           mk_reply [VStr "saved"] (inl VNone)]))))
      = ["user_message"])
  /\ (fst (LocalClient.user_message local_saving "a1" "hello"
             (local_world [mk_reply [VStr "hi there"] (inl VNone);
                           mk_reply [VStr "saved"] (inl VNone)]))
      = Return None
      /\ buffer 0
           (snd (LocalClient.user_message local_saving "a1" "hello"
                   (local_world [mk_reply [VStr "hi there"] (inl VNone);
                                 mk_reply [VStr "saved"] (inl VNone)])))
         = [VStr "hi there"; VStr "saved"]
      /\ server_calls
           (trace (snd (LocalClient.user_message local_saving "a1" "hello"
                          (local_world
                             [mk_reply [VStr "hi there"] (inl VNone);
                              mk_reply [VStr "saved"] (inl VNone)]))))
         = ["user_message"; "save_agents"]).
Proof.
  apply (local_user_message_result 170%N (mk_User 170%N None false) 0%nat
           "a1" "hello"
           (local_world [mk_reply [VStr "hi there"] (inl VNone);
                         mk_reply [VStr "saved"] (inl VNone)])
           (mk_reply [VStr "hi there"] (inl VNone))
           [mk_reply [VStr "saved"] (inl VNone)] VNone).
  - cbn. lia.
  - reflexivity.
  - reflexivity.
Defined.

(** With [auto_save] the caller gets [None]; the messages are still in
    the interface. *)
Example local_user_message_auto_save :
  fst (LocalClient.user_message local_saving "a1" "hello"
         (local_world [mk_reply [VStr "hi there"] (inl VNone)]))
  = Return None
  /\ buffer 0
       (snd (LocalClient.user_message local_saving "a1" "hello"
               (local_world [mk_reply [VStr "hi there"] (inl VNone)])))
     = [VStr "hi there"].
Proof. split; reflexivity. Qed.

(** [create_client] picks the strategy from [base_url]. *)
Example create_client_remote :
  create_client "memgpt_chat" (Some "http://localhost:8283") (Some "secret")
    (world [])
  = (Return (Rest client), world []).
Proof. reflexivity. Qed.

Example create_client_local :
  fst (create_client "memgpt_chat" None None (world []))
  = Return (Local (LocalClient.mk false 170%N (mk_User 170%N None false) 0%nat)).
Proof. reflexivity. Qed.

(** The two strategies on the same contradictory arguments: the local one
    raises, the remote one answers. *)
Example agent_exists_strategies_differ :
  fst (agent_exists (Local local) (Some "a1") (Some "scout")
         (local_world [mk_reply [] (inl listing)]))
  = Raise (ValueError "Only one of agent_id or agent_name can be provided")
  /\ fst (agent_exists (Local local) None None
            (local_world [mk_reply [] (inl listing)]))
     = Raise (ValueError "Either agent_id or agent_name must be provided")
  /\ fst (agent_exists (Rest client) (Some "a1") (Some "scout")
            (world [ok VNone]))
     = Return true.
Proof. repeat split; reflexivity. Qed.

(** The local [agent_exists] with exactly one argument asks the server,
    and then fails on the response object. *)
Example local_agent_exists_by_name :
  fst (LocalClient.agent_exists local None (Some "scout")
         (local_world [mk_reply [] (inl listing)]))
  = Raise (TypeError "'ListAgentsResponse' object is not subscriptable")
  /\ fst (LocalClient.agent_exists local (Some "a2") None
            (local_world [mk_reply [] (inl listing)]))
     = Raise (TypeError "'ListAgentsResponse' object is not subscriptable").
Proof. split; reflexivity. Qed.

End LocalScenarios.

(** * Further properties *)

(** ** Uploading a file *)

Section Upload.
Context `{PyRuntime}.

(** A blocking load has no timeout: as long as the backend answers
    pending jobs, the poller is still waiting, whatever the number of
    queries it is given. *)
Theorem blocking_load_no_timeout :
  forall fuel self filename source_id w content up rest j0,
    read_file (fs w) filename = Some content ->
    http_script w = up :: rest ->
    status_code up = 200 ->
    job_of_response up = Return j0 ->
    (fuel <= length rest)%nat ->
    forallb pending (firstn fuel rest) = true ->
    fst (RESTClient.load_file_into_source fuel self filename source_id true w)
    = Diverge.
Proof.
  intros fuel self filename source_id w content up rest j0 Hf Hs Hc Hj Hl Hp.
  rewrite (load_file_into_source_run fuel self filename source_id true w
             content up rest j0 Hf Hs Hc Hj).
  cbv zeta. apply wait_for_job_unbounded.
  - unfold answered, opened. cbn [http_script]. rewrite Hs. exact Hl.
  - unfold answered, opened. cbn [http_script]. rewrite Hs. exact Hp.
Qed.

(** Without [blocking] the job of the upload response is returned as it
    is, failed or not, after the one upload request: no status query, no
    sleep. *)
Theorem non_blocking_load_never_polls :
  forall fuel self filename source_id w content up rest j0,
    read_file (fs w) filename = Some content ->
    http_script w = up :: rest ->
    status_code up = 200 ->
    job_of_response up = Return j0 ->
    let run := RESTClient.load_file_into_source fuel self filename source_id
                 false w in
    fst run = Return j0
    /\ requests (trace (snd run))
       = requests (trace w) ++ [upload_request self source_id content]
    /\ sleeps (trace (snd run)) = sleeps (trace w)
    /\ http_script (snd run) = rest.
Proof.
  intros fuel self filename source_id w content up rest j0 Hf Hs Hc Hj run.
  subst run.
  rewrite (load_file_into_source_run fuel self filename source_id false w
             content up rest j0 Hf Hs Hc Hj).
  cbv zeta. cbn [fst snd]. unfold answered, opened. cbn [trace http_script].
  rewrite Hs. rewrite !requests_app, !sleeps_app. cbn [requests sleeps tl].
  rewrite !app_nil_r. repeat split; reflexivity.
Qed.

(** A file that cannot be opened: the call raises before it sends
    anything. *)
Theorem load_missing_file_sends_nothing :
  forall fuel self filename source_id blocking w,
    read_file (fs w) filename = None ->
    RESTClient.load_file_into_source fuel self filename source_id blocking w
    = (Raise (FileNotFoundError filename), opened filename w).
Proof.
  intros fuel self filename source_id blocking w Hf.
  unfold RESTClient.load_file_into_source.
  rewrite bind_M, open_rb_run, Hf. reflexivity.
Qed.

(** An upload that the backend does not answer with 200: the call raises
    with the text of the response, blocking or not, and never asks for the
    status of a job. *)
Theorem load_upload_rejected :
  forall fuel self filename source_id blocking w content up rest,
    read_file (fs w) filename = Some content ->
    http_script w = up :: rest ->
    status_code up <> 200 ->
    RESTClient.load_file_into_source fuel self filename source_id blocking w
    = (Raise (ValueError ("Failed to upload file to source: " +++ text up)),
       answered (upload_request self source_id content) (opened filename w)).
Proof.
  intros fuel self filename source_id blocking w content up rest Hf Hs Hc.
  unfold RESTClient.load_file_into_source, RESTClient.requests_post.
  rewrite bind_M, open_rb_run, Hf.
  rewrite bind_M, http_run.
  change (http_script (opened filename w)) with (http_script w).
  rewrite Hs. apply Z.eqb_neq in Hc. rewrite Hc. reflexivity.
Qed.

Lemma last_cons_default {A} (a b c : A) (l : list A) :
  last (a :: l) b = last (a :: l) c.
Proof.
  revert a. induction l as [|x l IH]; intros a; [reflexivity|].
  change (last (x :: l) b = last (x :: l) c). apply IH.
Qed.

(** The rhythm of the poller, whatever the backend answers.  With [js]
    the pending jobs the backend answered with, in order: what the poller
    adds to the trace is one round (a status query, then a sleep of one
    second) for the job it was handed and for each of [js] but the last,
    closed by the status query for the last of them when it stops, and by
    nothing, after as many rounds as it was given, when it is still
    waiting. *)
Theorem wait_for_job_queries_and_sleeps :
  forall fuel self job w,
    exists js,
      Forall2 (fun r j => job_of_response r = Return j /\ pending r = true)
              (firstn (length js) (http_script w)) js
      /\ match fst (RESTClient.wait_for_job fuel self job w) with
         | Diverge =>
             length js = fuel
             /\ trace (snd (RESTClient.wait_for_job fuel self job w))
                = trace w ++ rounds self (map job_id (removelast (job :: js)))
         | _ =>
             (length js < fuel)%nat
             /\ trace (snd (RESTClient.wait_for_job fuel self job w))
                = trace w ++ rounds self (map job_id (removelast (job :: js)))
                  ++ [EvHttp (status_request self (job_id (last js job)))]
         end.
Proof.
  induction fuel as [|fuel IH]; intros self job w.
  - exists []. cbn. rewrite app_nil_r. repeat split. constructor.
  - cbn [RESTClient.wait_for_job].
    rewrite bind_M, get_job_status_run.
    set (w1 := answered (status_request self (job_id job)) w).
    assert (Hstop : forall (o : outcome JobModel),
               o <> Diverge ->
               exists js,
                 Forall2 (fun r j => job_of_response r = Return j
                                     /\ pending r = true)
                         (firstn (length js) (http_script w)) js
                 /\ match fst (o, w1) with
                    | Diverge =>
                        length js = S fuel
                        /\ trace (snd (o, w1))
                           = trace w
                             ++ rounds self (map job_id (removelast (job :: js)))
                    | _ =>
                        (length js < S fuel)%nat
                        /\ trace (snd (o, w1))
                           = trace w
                             ++ rounds self (map job_id (removelast (job :: js)))
                             ++ [EvHttp (status_request self
                                           (job_id (last js job)))]
                    end).
    { intros o Ho. exists []. cbn [fst snd].
      split; [constructor|].
      destruct o; [| |congruence]; cbn; split; try lia; reflexivity. }
    destruct (http_script w) as [|r rest] eqn:Hs; [apply Hstop; discriminate|].
    destruct (job_of_response r) as [j|e|] eqn:Hj.
    + destruct (JobStatus_eqb (job_status j) completed) eqn:Hc;
        [apply Hstop; discriminate|].
      destruct (JobStatus_eqb (job_status j) failed) eqn:Hf;
        [apply Hstop; discriminate|].
      rewrite bind_M. cbn [sleep log].
      set (w2 := mk_world _ _ _ _ _ _ _).
      assert (Ht2 : trace w2
                    = trace w ++ [EvHttp (status_request self (job_id job));
                                  EvSleep 1]).
      { unfold w2, w1, answered. cbn [trace]. rewrite <- app_assoc.
        reflexivity. }
      assert (Hs2 : http_script w2 = rest).
      { unfold w2, w1, answered. cbn [http_script]. rewrite Hs. reflexivity. }
      destruct (IH self j w2) as (js & Hall & Hrun).
      exists (j :: js). split.
      * cbn [length firstn]. constructor.
        -- split; [exact Hj|]. unfold pending. rewrite Hj, Hc, Hf. reflexivity.
        -- rewrite <- Hs2. exact Hall.
      * change (removelast (job :: j :: js)) with (job :: removelast (j :: js)).
        cbn [map rounds flat_map].
        fold (rounds self (map job_id (removelast (j :: js)))).
        assert (Hl : last (j :: js) job = last js j).
        { destruct js as [|x js']; [reflexivity|].
          change (last (x :: js') job = last (x :: js') j).
          apply last_cons_default. }
        rewrite Hl.
        destruct (fst (RESTClient.wait_for_job fuel self j w2));
          destruct Hrun as (Hlen & Htr);
          (split; [cbn [length]; lia|]);
          rewrite Htr, Ht2, <- app_assoc; reflexivity.
    + apply Hstop. discriminate.
    + (* a body never decodes to a job that is still decoding *)
      exfalso. unfold job_of_response, response_json in Hj.
      destruct (body r) as [d|]; cbn in Hj; [|discriminate].
      unfold JobModel_new, kwargs, field in Hj.
      destruct d; cbn in Hj; try discriminate.
      destruct (lookup "id" d); cbn in Hj; [|discriminate].
      destruct (lookup "status" d) as [st|]; cbn in Hj; [|discriminate].
      destruct st; try discriminate.
      destruct (JobStatus_of_string s); discriminate.
Qed.

End Upload.

(** ** What a call leaves alone *)

Lemma preserves_ret {A} (P : World -> Prop) (a : A) : preserves P (ret a).
Proof. intros w Hw. exact Hw. Qed.

Lemma preserves_raise {A} (P : World -> Prop) (e : exn) :
  preserves P (raise e : M A).
Proof. intros w Hw. exact Hw. Qed.

Lemma preserves_lift {A} (P : World -> Prop) (o : outcome A) :
  preserves P (lift o).
Proof. intros w Hw. exact Hw. Qed.

Lemma preserves_diverge {A} (P : World -> Prop) :
  preserves P (diverge : M A).
Proof. intros w Hw. exact Hw. Qed.

Lemma preserves_get_world (P : World -> Prop) : preserves P get_world.
Proof. intros w Hw. exact Hw. Qed.

Lemma preserves_assert (P : World -> Prop) (c : bool) (msg : string) :
  preserves P (assert c msg).
Proof. intros w Hw. destruct c; exact Hw. Qed.

Lemma preserves_bind {A B} (P : World -> Prop) (m : M A) (k : A -> M B) :
  preserves P m ->
  (forall a, preserves P (k a)) ->
  preserves P (x <- m ;; k x).
Proof.
  intros Hm Hk w Hw. rewrite bind_M.
  specialize (Hm w Hw). destruct (m w) as [[a|e|] w1]; cbn [snd] in *.
  - apply Hk. exact Hm.
  - exact Hm.
  - exact Hm.
Qed.

Ltac frame :=
  repeat first
    [ solve [auto]
    | apply preserves_ret | apply preserves_raise | apply preserves_lift
    | apply preserves_diverge | apply preserves_assert
    | apply preserves_get_world
    | apply preserves_bind; [|intro]
    | match goal with
      | |- preserves _ (if ?b then _ else _) => destruct b
      | |- preserves _ (match ?x with _ => _ end) => destruct x
      end ].

(** *** The remote strategy acts through its requests *)

Section RemoteFrame.
Context `{PyRuntime}.
Variable self : RESTClient.t.
Variable P : World -> Prop.
Hypothesis P_http :
  forall q, req_headers q = RESTClient.headers self -> preserves P (http q).
Hypothesis P_sleep : forall s, preserves P (sleep s).
Hypothesis P_open : forall f, preserves P (open_rb f).

Lemma wait_for_job_preserves (fuel : nat) (job : JobModel) :
  preserves P (RESTClient.wait_for_job fuel self job).
Proof.
  revert job. induction fuel as [|fuel IH]; intros job.
  - apply preserves_diverge.
  - cbn [RESTClient.wait_for_job].
    unfold RESTClient.get_job_status, RESTClient.requests_get.
    apply preserves_bind.
    + apply preserves_bind; [apply P_http; reflexivity|].
      intro. apply preserves_lift.
    + intro j. destruct (JobStatus_eqb (job_status j) completed);
        [apply preserves_ret|].
      destruct (JobStatus_eqb (job_status j) failed); [apply preserves_raise|].
      apply preserves_bind; [apply P_sleep|]. intro. apply IH.
Qed.

(** A property of the world that the client's own requests, its sleeps
    and its opening of files keep is kept by every call. *)
Lemma perform_preserves (DEFAULT_PRESET : string) (fuel : nat) (c : remote_call) :
  preserves P (perform DEFAULT_PRESET fuel self c).
Proof.
  assert (Hq : forall m u ps j fl,
             preserves P (http (mk_request m u (RESTClient.headers self)
                                  ps j fl))).
  { intros. apply P_http. reflexivity. }
  pose proof wait_for_job_preserves as Hw.
  destruct c; unfold perform;
    unfold RESTClient.list_agents, RESTClient.agent_exists,
      RESTClient.create_agent, RESTClient.rename_agent,
      RESTClient.delete_agent, RESTClient.get_agent_config,
      RESTClient.get_preset, RESTClient.create_preset,
      RESTClient.call_get_preset, RESTClient.user_message,
      RESTClient.send_message, RESTClient.save,
      RESTClient.get_agent_archival_memory,
      RESTClient.insert_archival_memory, RESTClient.delete_archival_memory,
      RESTClient.get_messages, RESTClient.get_human, RESTClient.list_sources,
      RESTClient.delete_source, RESTClient.get_job_status,
      RESTClient.load_file_into_source, RESTClient.create_source,
      RESTClient.detach_source, RESTClient.get_preset,
      RESTClient.requests_get, RESTClient.requests_post,
      RESTClient.requests_delete, RESTClient.requests_call;
    cbv zeta; frame.
Qed.

End RemoteFrame.

Section RemoteInvariants.
Context `{PyRuntime}.

Lemma http_world (q : request) (w : World) : snd (http q w) = answered q w.
Proof. rewrite http_run. reflexivity. Qed.

(** Every request that a client built from a token sends in a call of
    [remote_call] carries the two headers of [__init__], the bearer token
    among them: if that holds of the requests sent before the call, it
    holds of the requests sent by its end. *)
Theorem every_request_carries_the_token :
  forall DEFAULT_PRESET fuel base_url token debug c w q,
    authorized (RESTClient.init base_url token debug) w ->
    In q (requests (trace (snd (perform DEFAULT_PRESET fuel
                                  (RESTClient.init base_url token debug) c w)))) ->
    req_headers q = [("accept", "application/json");
                     ("authorization", "Bearer " +++ token)].
Proof.
  intros DEFAULT_PRESET fuel base_url token debug c w q Hw Hin.
  set (self := RESTClient.init base_url token debug) in *.
  assert (Ha : authorized self
                 (snd (perform DEFAULT_PRESET fuel self c w))).
  { clear Hin. revert w Hw.
    change (preserves (authorized self) (perform DEFAULT_PRESET fuel self c)).
    apply perform_preserves.
    - intros q0 Hq w Hw. rewrite http_world. unfold authorized, answered in *.
      cbn [trace]. rewrite requests_app. apply Forall_app. split; [exact Hw|].
      cbn [requests]. constructor; [exact Hq | constructor].
    - intros s w Hw. unfold authorized, sleep, log in *. cbn [snd trace].
      rewrite requests_app. cbn [requests]. rewrite app_nil_r. exact Hw.
    - intros f w Hw. rewrite open_rb_run. unfold authorized, opened in *.
      cbn [snd trace]. rewrite requests_app. cbn [requests].
      rewrite app_nil_r. exact Hw. }
  unfold authorized in Ha. rewrite Forall_forall in Ha.
  apply (Ha q Hin).
Qed.

Lemma one_request_intro {A} (self : RESTClient.t) (q : request)
    (k : response -> M A) :
  req_headers q = RESTClient.headers self ->
  (forall r w0, preserves (fun w => w = w0) (k r)) ->
  one_request self (r <- http q ;; k r).
Proof.
  intros Hq Hk w. exists q. split; [|exact Hq].
  rewrite bind_M, http_run.
  destruct (http_script w) as [|r rest]; [reflexivity|].
  apply (Hk r (answered q w)). reflexivity.
Qed.

Lemma one_request_then {A B} (self : RESTClient.t) (m : M A) (k : A -> M B) :
  one_request self m ->
  (forall a w0, preserves (fun w => w = w0) (k a)) ->
  one_request self (x <- m ;; k x).
Proof.
  intros Hm Hk w. destruct (Hm w) as (q & Hw & Hq). exists q.
  split; [|exact Hq]. rewrite bind_M.
  destruct (m w) as [[a|e|] w1]; cbn [snd] in *; try exact Hw.
  rewrite <- Hw. apply (Hk a w1). reflexivity.
Qed.

(** Among the calls of [remote_call], the ones that are one round trip
    ([single_request]: all but [delete_source], [load_file_into_source],
    [create_preset], [save] and [create_agent] with an override): each
    sends exactly one request, with the headers of the client, consumes
    the backend's answer to it, and changes nothing else, whether it
    returns or raises. *)
Theorem single_request_calls :
  forall DEFAULT_PRESET fuel self c,
    single_request c = true ->
    one_request self (perform DEFAULT_PRESET fuel self c).
Proof.
  intros DEFAULT_PRESET fuel self c Hc.
  destruct c; try discriminate Hc; unfold perform;
    try (destruct embedding_config, llm_config; try discriminate Hc);
    unfold RESTClient.list_agents, RESTClient.agent_exists,
      RESTClient.create_agent, RESTClient.rename_agent,
      RESTClient.delete_agent, RESTClient.get_agent_config,
      RESTClient.get_preset, RESTClient.user_message,
      RESTClient.send_message, RESTClient.get_agent_archival_memory,
      RESTClient.insert_archival_memory, RESTClient.delete_archival_memory,
      RESTClient.get_messages, RESTClient.get_human, RESTClient.list_sources,
      RESTClient.get_job_status, RESTClient.create_source,
      RESTClient.detach_source, RESTClient.requests_get,
      RESTClient.requests_post, RESTClient.requests_delete,
      RESTClient.requests_call;
    cbn [truthy_obj orb]; cbv zeta;
    first
      [ apply one_request_intro; [reflexivity | intros; frame]
      | apply one_request_then;
        [apply one_request_intro; [reflexivity | intros; frame]
        | intros; frame] ].
Qed.

End RemoteInvariants.

(** ** Status codes and agent states *)

Section RemoteStatus.
Context `{PyRuntime}.

Lemma first_response {A} (q : request) (k : response -> M A) (w : World)
    (r : response) (rest : list response) :
  http_script w = r :: rest ->
  (x <- http q ;; k x) w = k r (answered q w).
Proof. intros Hs. rewrite bind_M, http_run, Hs. reflexivity. Qed.

(** [create_agent] on a response that is not 200: it raises with the
    status code and the text of the response, and the body is not read. *)
Theorem create_agent_non_ok_status :
  forall self name preset persona human w r rest,
    http_script w = r :: rest ->
    status_code r <> 200 ->
    RESTClient.create_agent self name preset persona human None None w
    = (Raise (ValueError ("Status " +++ int_str (status_code r)
                          +++ " - Failed to create agent: " +++ text r)),
       answered (create_agent_request self name preset persona human) w).
Proof.
  intros self name preset persona human w r rest Hs Hc.
  unfold RESTClient.create_agent, RESTClient.requests_post.
  cbn [truthy_obj orb]. cbv zeta.
  fold (create_agent_request self name preset persona human).
  rewrite (first_response _ _ w r rest Hs).
  apply Z.eqb_neq in Hc. rewrite Hc. reflexivity.
Qed.

(** What [get_agent_response_to_state] makes of a response.  When
    [created_at] is a number of seconds since the epoch, the result is
    decided by what the runtime's [fromtimestamp] makes of that number: the
    state with [created_at] that datetime and every other field carried
    over as it is, or the exception of the runtime when the number is out
    of range.  When [created_at] is anything else, the conversion raises
    [TypeError]. *)
Theorem agent_state_conversion_outcome :
  forall response,
    (forall z,
        epoch_seconds (asm_created_at response) = Some z ->
        RESTClient.get_agent_response_to_state response
        = match fromtimestamp_utc z with
          | inl t =>
              Return (mk_AgentState (asm_id response) (asm_name response)
                        (asm_user_id response) (asm_preset response)
                        (asm_persona response) (asm_human response)
                        (asm_llm_config response)
                        (asm_embedding_config response)
                        (asm_state response) (VDatetime t))
          | inr e => Raise e
          end)
    /\ (epoch_seconds (asm_created_at response) = None ->
        exists msg,
          RESTClient.get_agent_response_to_state response
          = Raise (TypeError msg)).
Proof.
  intros response. unfold RESTClient.get_agent_response_to_state.
  destruct (asm_llm_config response) as [m1 m2 m3 m4 m5].
  destruct (asm_embedding_config response) as [e1 e2 e3 e4 e5].
  cbn [model model_endpoint_type model_endpoint model_wrapper context_window
       embedding_endpoint_type embedding_endpoint embedding_model
       embedding_dim embedding_chunk_size].
  split.
  - intros z Hz.
    destruct (asm_created_at response) as [ |b|z0| | | | | ];
      cbn in Hz; try discriminate; injection Hz as <-;
      match goal with
      | |- context [fromtimestamp_utc ?x] =>
          destruct (fromtimestamp_utc x) as [t|e]
      end; reflexivity.
  - intros Hn.
    destruct (asm_created_at response) as [ |b|z0| | | | | ];
      cbn in Hn; try discriminate; eexists; reflexivity.
Qed.

(** The operations that check the status: on a response that is not 200
    each raises, with the text of the response after its own prefix: a
    [ValueError] where the code tests the status, an [AssertionError]
    where it asserts it. *)
Theorem checked_operations_reject_non_ok :
  forall self w r rest,
    http_script w = r :: rest ->
    status_code r <> 200 ->
    (forall agent_id before after limit,
        fst (RESTClient.get_messages self agent_id before after limit w)
        = Raise (ValueError ("Failed to get messages: " +++ text r)))
    /\ (forall agent_id message role stream,
        fst (RESTClient.send_message self agent_id message role stream w)
        = Raise (ValueError ("Failed to send message: " +++ text r)))
    /\ (forall agent_id message,
        fst (RESTClient.user_message self agent_id message w)
        = Raise (ValueError ("Failed to send message: " +++ text r)))
    /\ (forall agent_id memory,
        fst (RESTClient.insert_archival_memory self agent_id memory w)
        = Raise (ValueError ("Failed to insert archival memory: " +++ text r)))
    /\ (forall agent_id new_name,
        fst (RESTClient.rename_agent self agent_id new_name w)
        = Raise (AssertionError ("Failed to rename agent: " +++ text r)))
    /\ (forall agent_id agent_name,
        fst (RESTClient.delete_agent self agent_id agent_name w)
        = Raise (AssertionError ("Failed to delete agent: " +++ text r)))
    /\ (forall agent_id agent_name,
        fst (RESTClient.get_agent_config self agent_id agent_name w)
        = Raise (AssertionError ("Failed to get agent: " +++ text r)))
    /\ (forall preset_name user_id,
        fst (RESTClient.get_preset self preset_name user_id w)
        = Raise (AssertionError ("Failed to get preset: " +++ text r)))
    /\ (forall agent_id before after limit,
        fst (RESTClient.get_agent_archival_memory self agent_id before after
               limit w)
        = Raise (AssertionError ("Failed to get archival memory: " +++ text r)))
    /\ (forall agent_id memory_id,
        fst (RESTClient.delete_archival_memory self agent_id memory_id w)
        = Raise (AssertionError ("Failed to delete archival memory: "
                                 +++ text r)))
    /\ (forall source_id agent_id,
        fst (RESTClient.detach_source self source_id agent_id w)
        = Raise (AssertionError ("Failed to detach source from agent: "
                                 +++ text r))).
Proof.
  intros self w r rest Hs Hc. apply Z.eqb_neq in Hc.
  repeat split; intros;
    unfold RESTClient.get_messages, RESTClient.user_message,
      RESTClient.send_message, RESTClient.insert_archival_memory,
      RESTClient.rename_agent, RESTClient.delete_agent,
      RESTClient.get_agent_config, RESTClient.get_preset,
      RESTClient.get_agent_archival_memory,
      RESTClient.delete_archival_memory, RESTClient.detach_source,
      RESTClient.requests_get, RESTClient.requests_call;
    cbv zeta; rewrite (first_response _ _ w r rest Hs), Hc; reflexivity.
Qed.

(** [get_human] answers from the body alone: it returns [None] exactly
    when the body is JSON [null], whatever the status code is. *)
Theorem rest_get_human_null_body :
  forall self name user_id w r rest,
    http_script w = r :: rest ->
    (fst (RESTClient.get_human self name user_id w) = Return None
     <-> body r = Some VNone).
Proof.
  intros self name user_id w r rest Hs.
  unfold RESTClient.get_human, RESTClient.requests_call.
  rewrite (first_response _ _ w r rest Hs).
  rewrite bind_lift. unfold response_json.
  destruct (body r) as [d|]; [|split; discriminate].
  destruct d; cbn; try (split; [intros _; reflexivity | reflexivity]);
    try (split; discriminate).
Qed.

(** [create_preset] never reaches the backend: it calls [get_preset] with
    a keyword that [get_preset] does not have, so every call raises
    [TypeError] and leaves the world as it was. *)
Theorem rest_create_preset_never_sends :
  forall DEFAULT_PRESET self name description system_name persona_name
         human_name tools default_tools w,
    RESTClient.create_preset DEFAULT_PRESET self name description system_name
      persona_name human_name tools default_tools w
    = (Raise (TypeError
         "RESTClient.get_preset() got an unexpected keyword argument 'name'"),
       w).
Proof. intros. reflexivity. Qed.

(** Called with the keywords it has, [get_preset] does send its request. *)
Lemma call_get_preset_well_formed :
  forall self preset_name user_id,
    RESTClient.call_get_preset self
      [("user_id", user_id); ("preset_name", preset_name)]
    = RESTClient.get_preset self preset_name user_id.
Proof. intros. reflexivity. Qed.

End RemoteStatus.

(** ** Sources *)

Section RemoteSources.
Context `{PyRuntime}.

Lemma mapM_return {A B} (f : A -> outcome B) (l : list A) (l' : list B) :
  mapM f l = Return l' -> Forall2 (fun x y => f x = Return y) l l'.
Proof.
  revert l'. induction l as [|x l IH]; intros l' Hm; cbn in Hm.
  - injection Hm as <-. constructor.
  - destruct (f x) as [y| |] eqn:Hx; try discriminate.
    destruct (mapM f l) as [ys| |]; try discriminate.
    injection Hm as <-. constructor; [exact Hx | apply IH; reflexivity].
Qed.

Lemma mapM_raise {A B} (f : A -> outcome B) (l : list A) (x : A) (e : exn) :
  (forall y, f y <> Diverge) ->
  In x l -> f x = Raise e ->
  exists e', mapM f l = Raise e'.
Proof.
  intros Hd. induction l as [|y l IH]; intros Hin Hx; [destruct Hin|].
  cbn. destruct (f y) as [b|e1|] eqn:Hy.
  - destruct Hin as [-> | Hin]; [congruence|].
    destruct (IH Hin Hx) as (e' & ->). exists e'. reflexivity.
  - exists e1. reflexivity.
  - destruct (Hd y Hy).
Qed.

Lemma mapM_returns {A B} (f : A -> outcome B) (l : list A) (l' : list B) :
  Forall2 (fun x y => f x = Return y) l l' -> mapM f l = Return l'.
Proof.
  induction 1 as [|x y xs ys Hxy _ IH]; [reflexivity|].
  cbn. rewrite Hxy, IH. reflexivity.
Qed.

Lemma normalize_source_converted (source s : SourceModel) :
  RESTClient.normalize_source source = Return s <-> converted source s.
Proof.
  unfold RESTClient.normalize_source, converted. split.
  - destruct (UUID_new (sm_user_id source)) as [u| |]; cbn; try discriminate.
    destruct (sm_created_at source) as [ | | |c| | | | ]; cbn;
      try discriminate.
    destruct (strptime c "%Y-%m-%dT%H:%M:%S.%f") as [t|msg] eqn:Ht; cbn;
      [|discriminate].
    destruct (sm_embedding_config source) as [cfg|cfg]; cbn; [|discriminate].
    destruct (subscript cfg "embedding_endpoint_type") as [a| |] eqn:Ha; cbn;
      try discriminate.
    destruct (subscript cfg "embedding_endpoint") as [b| |] eqn:Hb; cbn;
      try discriminate.
    destruct (subscript cfg "embedding_dim") as [d| |] eqn:Hd; cbn;
      try discriminate.
    destruct (subscript cfg "embedding_model") as [m| |] eqn:Hm; cbn;
      try discriminate.
    destruct (subscript cfg "embedding_chunk_size") as [k| |] eqn:Hk; cbn;
      try discriminate.
    intros [= <-].
    exists u, c, t, cfg, a, b, m, d, k. repeat split; assumption.
  - intros (u & c & t & cfg & a & b & m & d & k
            & Hu & Hc & Ht & Hcfg & Ha & Hb & Hm & Hd & Hk & ->).
    rewrite Hu, Hc. cbn. rewrite Ht, Hcfg. cbn.
    rewrite Ha. cbn. rewrite Hb. cbn. rewrite Hd. cbn. rewrite Hm. cbn.
    rewrite Hk. reflexivity.
Qed.

Lemma normalize_source_stops (source : SourceModel) :
  RESTClient.normalize_source source <> Diverge.
Proof.
  unfold RESTClient.normalize_source.
  destruct (UUID_new (sm_user_id source)) as [u| |] eqn:Hu; cbn;
    try discriminate.
  - destruct (sm_created_at source) as [ | | |c| | | | ]; cbn;
      try discriminate.
    destruct (strptime c "%Y-%m-%dT%H:%M:%S.%f") as [t|msg]; cbn;
      [|discriminate].
    destruct (sm_embedding_config source) as [cfg|cfg]; cbn; [|discriminate].
    unfold subscript. destruct cfg; cbn; try discriminate.
    repeat match goal with
           | |- context [lookup ?k ?d] =>
               destruct (lookup k d); cbn; try discriminate
           end.
  - unfold UUID_new in Hu. destruct (sm_user_id source); try discriminate.
    destruct (uuid_of_string s); discriminate.
Qed.

(** [list_sources] is all or nothing.  It returns exactly when the
    response decodes to a listing every source of which can be converted,
    and it then returns the conversions of the listed sources, in order:
    id and name as listed, the user id parsed as a UUID, the timestamp
    read by [strptime] in the format of the code, the embedding
    configuration built from the five entries of the listed dict.  When
    one listed source has no conversion, the call raises and returns
    none. *)
Theorem list_sources_all_or_nothing :
  forall self w r rest,
    http_script w = r :: rest ->
    (forall l,
        fst (RESTClient.list_sources self w) = Return l
        <-> exists srcs,
              sources_of_response r = Return srcs
              /\ Forall2 converted srcs l)
    /\ (forall srcs s,
          sources_of_response r = Return srcs ->
          In s srcs ->
          (forall s', ~ converted s s') ->
          exists e, fst (RESTClient.list_sources self w) = Raise e).
Proof.
  intros self w r rest Hs.
  assert (Hrun : fst (RESTClient.list_sources self w)
                 = (srcs <- sources_of_response r ;;
                    mapM RESTClient.normalize_source srcs)).
  { unfold RESTClient.list_sources, RESTClient.requests_get.
    rewrite bind_M, http_run, Hs. unfold lift, sources_of_response. cbn [fst].
    destruct (response_json r) as [d| |]; reflexivity. }
  rewrite Hrun. clear Hrun. split; [intros l; split|].
  - intros Hl.
    destruct (sources_of_response r) as [srcs| |]; cbn in Hl; try discriminate.
    exists srcs. split; [reflexivity|].
    apply mapM_return in Hl.
    induction Hl as [|x y xs ys Hxy _ IH]; constructor; [|exact IH].
    apply normalize_source_converted. exact Hxy.
  - intros (srcs & -> & Hall). cbn. apply mapM_returns.
    induction Hall as [|x y xs ys Hxy _ IH]; constructor; [|exact IH].
    apply normalize_source_converted. exact Hxy.
  - intros srcs s Hsrc Hin Hn. rewrite Hsrc. cbn.
    destruct (RESTClient.normalize_source s) as [s'|e|] eqn:Hc.
    + destruct (Hn s'). apply normalize_source_converted. exact Hc.
    + apply (mapM_raise _ srcs s e normalize_source_stops Hin Hc).
    + destruct (normalize_source_stops s Hc).
Qed.

(** When several sources have the name, [delete_source] deletes the one
    listed first: the DELETE goes to the id of the first match. *)
Theorem delete_source_first_match :
  forall self source_name w listing resp rest pre s post,
    http_script w = listing :: resp :: rest ->
    sources_of_response listing = Return (pre ++ s :: post) ->
    unlisted source_name pre = true ->
    eq_str (sm_name s) source_name = true ->
    fst (RESTClient.delete_source self source_name w)
    = (if status_code resp =? 200 then Return tt
       else Raise (AssertionError ("Failed to delete source: " +++ text resp)))
    /\ trace (snd (RESTClient.delete_source self source_name w))
       = trace w ++ [EvHttp (sources_request self);
                     EvHttp (delete_request self (sm_id s))].
Proof.
  intros self source_name w listing resp rest pre s post Hs Hl Hu Hn.
  assert (Hfind : RESTClient.find_source_id (pre ++ s :: post) source_name
                    (VUUID 0%N) = sm_id s).
  { clear Hl. induction pre as [|p pre IH].
    - cbn. rewrite Hn. reflexivity.
    - unfold unlisted in Hu. cbn [forallb] in Hu.
      apply andb_true_iff in Hu. destruct Hu as [Hp Hu].
      apply negb_true_iff in Hp. cbn. rewrite Hp. apply IH. exact Hu. }
  unfold RESTClient.delete_source, RESTClient.requests_get,
    RESTClient.requests_delete.
  fold (sources_request self).
  rewrite bind_M, http_run, Hs.
  fold (sources_of_response listing). rewrite bind_lift, Hl, Hfind.
  fold (delete_request self (sm_id s)).
  rewrite bind_M, http_run.
  assert (Hs1 : http_script (answered (sources_request self) w) = resp :: rest).
  { unfold answered. cbn [http_script]. rewrite Hs. reflexivity. }
  rewrite Hs1. unfold assert.
  destruct (status_code resp =? 200); cbn [fst snd]; split; try reflexivity;
    unfold answered; cbn [trace]; rewrite <- app_assoc; reflexivity.
Qed.

(** When the listing cannot be decoded, [delete_source] raises the
    decoding error and deletes nothing: the listing request is the only
    one it sends. *)
Theorem delete_source_listing_failure :
  forall self source_name w listing rest e,
    http_script w = listing :: rest ->
    sources_of_response listing = Raise e ->
    RESTClient.delete_source self source_name w
    = (Raise e, answered (sources_request self) w).
Proof.
  intros self source_name w listing rest e Hs Hl.
  unfold RESTClient.delete_source, RESTClient.requests_get.
  fold (sources_request self).
  rewrite bind_M, http_run, Hs.
  fold (sources_of_response listing). rewrite bind_lift, Hl. reflexivity.
Qed.

End RemoteSources.

(** ** What each strategy implements *)

(** The names of the contract that each strategy leaves to
    [AbstractClient], whose definitions raise [NotImplementedError]:
    thirteen for the local strategy, five for the remote one. *)
Theorem strategies_missing_operations :
  inherited CLocalClient
  = ["rename_agent"; "get_agent"; "insert_archival_memory";
     "delete_archival_memory"; "get_messages"; "send_message"; "create_human";
     "create_persona"; "list_tools"; "create_tool"; "load_file_into_source";
     "detach_source"; "list_models"]
  /\ inherited CRESTClient
     = ["get_agent"; "create_human"; "create_persona"; "list_tools";
        "create_tool"].
Proof. split; reflexivity. Qed.

(** ** Encoding an agent *)

Lemma pyobj_nested_ind (Q : pyobj -> Prop) :
  (forall v, Q (Plain v)) ->
  (forall attrs, Forall (fun p => Q (snd p)) attrs -> Q (Instance attrs)) ->
  forall obj, Q obj.
Proof.
  intros HP HI. fix IH 1. intros [v|attrs].
  - apply HP.
  - apply HI. induction attrs as [|[k o] l IHl]; constructor.
    + apply IH.
    + exact IHl.
Qed.

(** [AgentEncoder.default] returns on an object exactly when no attribute
    of it, at any depth, holds anything but a UUID or an instance.  It
    then returns the encoding of the object: the string form of a UUID,
    and for an instance the dict of its attributes, under their names and
    in their order, each encoded in turn.  On every other object it raises
    the [TypeError] of the first value, in the order of the attributes,
    that is not a UUID. *)
Theorem agent_encoder_default_outcome :
  forall obj,
    match first_plain obj with
    | None =>
        uuids_only obj = true
        /\ AgentEncoder.default obj = Return (encoding obj)
    | Some v =>
        uuids_only obj = false
        /\ AgentEncoder.default obj
           = Raise (TypeError ("Object of type " +++ type_name v
                               +++ " is not JSON serializable"))
    end.
Proof.
  induction obj as [v|attrs IH] using pyobj_nested_ind.
  - destruct v; cbn; split; reflexivity.
  - cbn [uuids_only AgentEncoder.default first_plain encoding].
    set (items := fix items (l : list (string * pyobj))
                    : outcome (list (string * value)) :=
           match l with
           | [] => Return []
           | (key, v) :: rest =>
               match AgentEncoder.default v with
               | Return x =>
                   match items rest with
                   | Return xs => Return ((key, x) :: xs)
                   | Raise e => Raise e
                   | Diverge => Diverge
                   end
               | Raise e => Raise e
               | Diverge => Diverge
               end
           end).
    set (all := fix all (l : list (string * pyobj)) : bool :=
           match l with
           | [] => true
           | (_, v) :: rest => uuids_only v && all rest
           end).
    set (first := fix first (l : list (string * pyobj)) : option value :=
           match l with
           | [] => None
           | (_, v) :: rest =>
               match first_plain v with
               | Some x => Some x
               | None => first rest
               end
           end).
    assert (Hitems :
      match first attrs with
      | None =>
          all attrs = true
          /\ items attrs
             = Return (map (fun kv => (fst kv, encoding (snd kv))) attrs)
      | Some v =>
          all attrs = false
          /\ items attrs
             = Raise (TypeError ("Object of type " +++ type_name v
                                 +++ " is not JSON serializable"))
      end).
    { induction IH as [|[k o] l Ho _ IHl]; cbn.
      - split; reflexivity.
      - cbn [snd] in Ho. destruct (first_plain o) as [x|].
        + destruct Ho as (-> & ->). split; reflexivity.
        + destruct Ho as (-> & ->). cbn.
          destruct (first l) as [x|]; destruct IHl as (-> & ->);
            split; reflexivity. }
    destruct (first attrs) as [x|]; destruct Hitems as (-> & ->);
      split; reflexivity.
Qed.

(** ** Calls on the embedded server *)

Section LocalCalls.
Context `{PyRuntime}.

Lemma clear_run (iface : nat) (w : World) :
  QueuingInterface.clear iface w = (Return tt, cleared iface w).
Proof. reflexivity. Qed.

Lemma server_call_run (iface : nat) (meth : string) (args : list value)
    (w : World) :
  server_call iface meth args w =
  (match srv_script w with
   | [] => Return VNone
   | r :: _ => match reply r with inl v => Return v | inr e => Raise e end
   end, served iface meth args w).
Proof.
  unfold server_call, served, QueuingInterface.push, log, set_srv_script,
    set_ifaces, get_world.
  cbn. destruct (srv_script w) as [|r rest]; cbn; [reflexivity|].
  destruct (reply r); reflexivity.
Qed.

Lemma server_calls_served (iface : nat) (meth : string) (args : list value)
    (w : World) :
  server_calls (trace (served iface meth args w))
  = server_calls (trace w) ++ [meth].
Proof.
  unfold served. destruct (srv_script w); cbn [trace];
    rewrite server_calls_app; reflexivity.
Qed.

Lemma local_list_agents_run (self : LocalClient.t) (w : World)
    (r : server_reply) (rest : list server_reply) (listing : value) :
  srv_script w = r :: rest ->
  reply r = inl listing ->
  LocalClient.list_agents self w
  = (ListAgentsResponse_new listing,
     served (LocalClient.interface self) "list_agents"
       [VUUID (LocalClient.user_id self)]
       (cleared (LocalClient.interface self) w)).
Proof.
  intros Hs Hr. unfold LocalClient.list_agents.
  rewrite bind_M, clear_run. rewrite bind_M, server_call_run.
  change (srv_script (cleared (LocalClient.interface self) w))
    with (srv_script w).
  rewrite Hs, Hr. reflexivity.
Qed.



(** Without a name there is nothing to check: the local [create_agent]
    goes straight to the server, with one call. *)
Theorem local_create_agent_unnamed :
  forall self name preset persona human w,
    truthy_str name = false ->
    server_calls (trace (snd (LocalClient.create_agent self name preset
                                persona human w)))
    = server_calls (trace w) ++ ["create_agent"]
    /\ fst (LocalClient.create_agent self name preset persona human w)
       = match srv_script w with
         | [] => Return VNone
         | r :: _ => match reply r with inl v => Return v | inr e => Raise e end
         end.
Proof.
  intros self name preset persona human w Hn.
  unfold LocalClient.create_agent. rewrite Hn.
  rewrite bind_M. cbn [ret M_monad].
  rewrite bind_M, clear_run, server_call_run. cbn [fst snd].
  split; [rewrite server_calls_served; reflexivity | reflexivity].
Qed.


(** A [user_message] whose server call raises: the exception reaches the
    caller, and [save_agents] is not called, [auto_save] or not. *)
Theorem local_user_message_error_skips_save :
  forall self agent_id message w r rest e,
    srv_script w = r :: rest ->
    reply r = inr e ->
    fst (LocalClient.user_message self agent_id message w) = Raise e
    /\ server_calls (trace (snd (LocalClient.user_message self agent_id
                                   message w)))
       = server_calls (trace w) ++ ["user_message"]
    /\ srv_script (snd (LocalClient.user_message self agent_id message w))
       = rest.
Proof.
  intros self agent_id message w r rest e Hs Hr.
  unfold LocalClient.user_message.
  rewrite bind_M, clear_run. rewrite bind_M, server_call_run.
  change (srv_script (cleared (LocalClient.interface self) w))
    with (srv_script w).
  rewrite Hs, Hr. cbn [fst snd].
  split; [reflexivity|].
  split; [rewrite server_calls_served; reflexivity|].
  unfold served, cleared. cbn [srv_script]. rewrite Hs. reflexivity.
Qed.

(** Every local call that goes to the server clears the interface first:
    what [get_agent_memory] and [run_command] leave in it is what the
    server emitted during the call, whatever it held before. *)
Theorem local_calls_clear_interface :
  forall self agent_id command w,
    (LocalClient.interface self < length (ifaces w))%nat ->
    let emitted_next :=
      match srv_script w with [] => [] | r :: _ => emitted r end in
    buffer (LocalClient.interface self)
      (snd (LocalClient.get_agent_memory self agent_id w)) = emitted_next
    /\ buffer (LocalClient.interface self)
         (snd (LocalClient.run_command self agent_id command w)) = emitted_next
    /\ buffer (LocalClient.interface self)
         (snd (LocalClient.list_agents self w)) = emitted_next.
Proof.
  intros self agent_id command w Hi emitted_next.
  assert (Hb : forall meth args,
             buffer (LocalClient.interface self)
               (served (LocalClient.interface self) meth args
                  (cleared (LocalClient.interface self) w)) = emitted_next).
  { intros meth args. unfold buffer, served, cleared, emitted_next.
    cbn [srv_script ifaces].
    destruct (srv_script w) as [|r rest]; cbn [ifaces].
    - apply nth_set_nth. exact Hi.
    - rewrite nth_set_nth by (rewrite length_set_nth; exact Hi).
      rewrite nth_set_nth by exact Hi. reflexivity. }
  unfold LocalClient.get_agent_memory, LocalClient.run_command,
    LocalClient.list_agents.
  split; [rewrite bind_M, clear_run, server_call_run; apply Hb|].
  split; [rewrite bind_M, clear_run, server_call_run; apply Hb|].
  rewrite bind_M, clear_run, bind_M, server_call_run.
  change (srv_script (cleared (LocalClient.interface self) w))
    with (srv_script w).
  destruct (srv_script w) as [|r rest]; cbn [snd].
  - unfold lift. cbn [snd]. apply Hb.
  - destruct (reply r); unfold lift; cbn [snd]; apply Hb.
Qed.

End LocalCalls.

(** ** The further properties on concrete backends and servers *)

Section FurtherScenarios.
#[local] Existing Instance CPython.runtime.
Import Examples.

Lemma blocking_load_no_timeout_witness :
  fst (RESTClient.load_file_into_source 3 client "notes.txt" source_uuid true
         stuck)
  = Diverge.
Proof.
  apply (blocking_load_no_timeout 3 client "notes.txt" source_uuid stuck
           "hello" (ok (job "created" (VDict [])))
           [ok (job "running" (VDict [])); ok (job "running" (VDict []));
            ok (job "running" (VDict []))]
           (job_model created (VDict []))); reflexivity.
Defined.

Lemma non_blocking_load_never_polls_witness :
  fst (RESTClient.load_file_into_source 0 client "notes.txt" source_uuid false
         failed_at_once)
  = Return (job_model failed bad_encoding)
  /\ requests (trace (snd (RESTClient.load_file_into_source 0 client
                             "notes.txt" source_uuid false failed_at_once)))
     = requests (trace failed_at_once)
       ++ [upload_request client source_uuid "hello"]
  /\ sleeps (trace (snd (RESTClient.load_file_into_source 0 client
                           "notes.txt" source_uuid false failed_at_once)))
     = sleeps (trace failed_at_once)
  /\ http_script (snd (RESTClient.load_file_into_source 0 client "notes.txt"
                         source_uuid false failed_at_once))
     = [].
Proof.
  apply (non_blocking_load_never_polls 0 client "notes.txt" source_uuid
           failed_at_once "hello" (ok (job "failed" bad_encoding)) []
           (job_model failed bad_encoding)); reflexivity.
Defined.

Lemma load_missing_file_sends_nothing_witness :
  RESTClient.load_file_into_source 3 client "absent.txt" source_uuid true
    completing
  = (Raise (FileNotFoundError "absent.txt"), opened "absent.txt" completing).
Proof.
  apply (load_missing_file_sends_nothing 3 client "absent.txt" source_uuid
           true completing).
  reflexivity.
Defined.

Lemma load_upload_rejected_witness :
  RESTClient.load_file_into_source 3 client "notes.txt" source_uuid true
    (world [unavailable; ok (job "completed" (VDict []))])
  = (Raise (ValueError
              "Failed to upload file to source: Service Unavailable"),
     answered (upload_request client source_uuid "hello")
       (opened "notes.txt"
          (world [unavailable; ok (job "completed" (VDict []))]))).
Proof.
  apply (load_upload_rejected 3 client "notes.txt" source_uuid true
           (world [unavailable; ok (job "completed" (VDict []))])
           "hello" unavailable [ok (job "completed" (VDict []))]).
  - reflexivity.
  - reflexivity.
  - discriminate.
Defined.

Lemma every_request_carries_the_token_witness :
  req_headers (sources_request client)
  = [("accept", "application/json"); ("authorization", "Bearer secret")].
Proof.
  apply (every_request_carries_the_token "memgpt_chat" 0
           "http://localhost:8283" "secret" false (Call_delete_source "papers")
           (world [ok one_source; unavailable]) (sources_request client)).
  - constructor.
  - left. reflexivity.
Defined.

Lemma single_request_calls_witness :
  exists q,
    snd (perform "memgpt_chat" 0 client (Call_rename_agent source_uuid "scout")
           (world [unavailable; ok agent_body]))
    = answered q (world [unavailable; ok agent_body])
    /\ req_headers q = RESTClient.headers client.
Proof.
  apply (single_request_calls "memgpt_chat" 0 client
           (Call_rename_agent source_uuid "scout") eq_refl
           (world [unavailable; ok agent_body])).
Defined.

Lemma create_agent_non_ok_status_witness :
  RESTClient.create_agent client (Some "scout") None None None None None
    (world [unavailable])
  = (Raise (ValueError
              "Status 503 - Failed to create agent: Service Unavailable"),
     answered (create_agent_request client (Some "scout") None None None)
       (world [unavailable])).
Proof.
  apply (create_agent_non_ok_status client (Some "scout") None None None
           (world [unavailable]) unavailable []).
  - reflexivity.
  - discriminate.
Defined.

Example agent_state_of_agent_body :
  RESTClient.agent_state_of_response (ok agent_body)
  = Return (mk_AgentState (VStr "a1") (VStr "scout")
              (VStr "00000000-0000-0000-0000-0000000000aa")
              (VStr "memgpt_chat") (VStr "sam") (VStr "cs_phd")
              (mk_LLMConfig (VStr "gpt-4") (VStr "openai")
                 (VStr "https://api.openai.com/v1") VNone (VInt 8192))
              embedding_config (VDict [])
              (VDatetime (mk_datetime 2023 11 14 22 13 20 0 true))).
Proof. reflexivity. Qed.

Lemma checked_operations_reject_non_ok_witness :
  fst (RESTClient.rename_agent client source_uuid "scout" (world [unavailable]))
  = Raise (AssertionError "Failed to rename agent: Service Unavailable").
Proof.
  assert (Hc : status_code unavailable <> 200) by discriminate.
  pose proof (checked_operations_reject_non_ok client (world [unavailable])
                unavailable [] eq_refl Hc) as Hall.
  destruct Hall as (_ & _ & _ & _ & Hrename & _).
  exact (Hrename source_uuid "scout").
Defined.

Lemma rest_get_human_null_body_witness :
  fst (RESTClient.get_human client "basic" source_uuid
         (world [mk_response 404 "null" (Some VNone)]))
  = Return None
  <-> body (mk_response 404 "null" (Some VNone)) = Some VNone.
Proof.
  apply (rest_get_human_null_body client "basic" source_uuid
           (world [mk_response 404 "null" (Some VNone)])
           (mk_response 404 "null" (Some VNone)) []).
  reflexivity.
Defined.

Lemma list_sources_all_or_nothing_witness :
  exists srcs,
    sources_of_response (ok three_sources) = Return srcs
    /\ Forall2 converted srcs three_normalized.
Proof.
  apply (proj1 (list_sources_all_or_nothing client (world [ok three_sources])
                  (ok three_sources) [] eq_refl) three_normalized).
  reflexivity.
Defined.

Lemma delete_source_first_match_witness :
  fst (RESTClient.delete_source client "docs"
         (world [ok three_sources; ok VNone]))
  = Return tt
  /\ trace (snd (RESTClient.delete_source client "docs"
                   (world [ok three_sources; ok VNone])))
     = trace (world [ok three_sources; ok VNone])
       ++ [EvHttp (sources_request client);
           EvHttp (delete_request client (VStr "s2"))].
Proof.
  apply (delete_source_first_match client "docs"
           (world [ok three_sources; ok VNone]) (ok three_sources) (ok VNone)
           [] [source_model "s1" "notes"] (source_model "s2" "docs")
           [source_model "s3" "docs"]); reflexivity.
Defined.

Lemma delete_source_listing_failure_witness :
  RESTClient.delete_source client "docs" (world [unavailable; ok VNone])
  = (Raise JSONDecodeError,
     answered (sources_request client) (world [unavailable; ok VNone])).
Proof.
  apply (delete_source_listing_failure client "docs"
           (world [unavailable; ok VNone]) unavailable [ok VNone]
           JSONDecodeError); reflexivity.
Defined.

Lemma rest_agent_exists_run_witness :
  fst (RESTClient.agent_exists client (Some "a1") None (world [unavailable]))
  = Raise (ValueError "Failed to check if agent exists: Service Unavailable").
Proof.
  apply (rest_agent_exists_run client (Some "a1") None (world [unavailable])
           unavailable []).
  reflexivity.
Defined.

Lemma local_agent_exists_validates_witness :
  exists msg,
    LocalClient.agent_exists local (Some "a1") (Some "scout")
      (local_world [mk_reply [] (inl listing)])
    = (Raise (ValueError msg), local_world [mk_reply [] (inl listing)]).
Proof.
  apply (local_agent_exists_validates local (Some "a1") (Some "scout")
           (local_world [mk_reply [] (inl listing)])).
  reflexivity.
Defined.

Lemma init_bad_user_id_witness :
  LocalClient.init "memgpt_chat" false (Some "not-a-uuid") false (world [])
  = (Raise (ValueError "badly formed hexadecimal UUID string"), world []).
Proof.
  apply (init_bad_user_id "memgpt_chat" false (Some "not-a-uuid") false
           (world []) (ValueError "badly formed hexadecimal UUID string")).
  reflexivity.
Defined.


Lemma local_create_agent_unnamed_witness :
  server_calls
    (trace (snd (LocalClient.create_agent local (Some "") None None None
                   (local_world [mk_reply [] (inl (VStr "state"))]))))
  = server_calls (trace (local_world [mk_reply [] (inl (VStr "state"))]))
    ++ ["create_agent"]
  /\ fst (LocalClient.create_agent local (Some "") None None None
            (local_world [mk_reply [] (inl (VStr "state"))]))
     = Return (VStr "state").
Proof.
  apply (local_create_agent_unnamed local (Some "") None None None
           (local_world [mk_reply [] (inl (VStr "state"))])).
  reflexivity.
Defined.


Lemma local_user_message_error_skips_save_witness :
  fst (LocalClient.user_message local_saving "a1" "hello"
         (local_world [mk_reply [VStr "partial"] (inr (KeyError "a1"))]))
  = Raise (KeyError "a1")
  /\ server_calls
       (trace (snd (LocalClient.user_message local_saving "a1" "hello"
                      (local_world
                         [mk_reply [VStr "partial"] (inr (KeyError "a1"))]))))
     = server_calls
         (trace (local_world [mk_reply [VStr "partial"] (inr (KeyError "a1"))]))
       ++ ["user_message"]
  /\ srv_script
       (snd (LocalClient.user_message local_saving "a1" "hello"
               (local_world [mk_reply [VStr "partial"] (inr (KeyError "a1"))])))
     = [].
Proof.
  apply (local_user_message_error_skips_save local_saving "a1" "hello"
           (local_world [mk_reply [VStr "partial"] (inr (KeyError "a1"))])
           (mk_reply [VStr "partial"] (inr (KeyError "a1"))) []
           (KeyError "a1")); reflexivity.
Defined.

Lemma local_calls_clear_interface_witness :
  buffer 0 (snd (LocalClient.get_agent_memory local "a1"
                   (local_world [mk_reply [VStr "fresh"] (inl VNone)])))
  = [VStr "fresh"]
  /\ buffer 0 (snd (LocalClient.run_command local "a1" "/dump"
                      (local_world [mk_reply [VStr "fresh"] (inl VNone)])))
     = [VStr "fresh"]
  /\ buffer 0 (snd (LocalClient.list_agents local
                      (local_world [mk_reply [VStr "fresh"] (inl VNone)])))
     = [VStr "fresh"].
Proof.
  apply (local_calls_clear_interface local "a1" "/dump"
           (local_world [mk_reply [VStr "fresh"] (inl VNone)])).
  cbn. lia.
Defined.

(** An agent state as an object: its UUIDs encode, its name does not. *)
Example agent_encoder_on_ids :
  AgentEncoder.default
    (Instance [("id", Plain (VUUID 170%N));
               ("owner", Instance [("user_id", Plain (VUUID 1%N))])])
  = Return (VDict [("id", VStr "00000000-0000-0000-0000-0000000000aa");
                   ("owner",
                    VDict [("user_id",
                            VStr "00000000-0000-0000-0000-000000000001")])]).
Proof. reflexivity. Qed.

Example agent_encoder_on_name :
  AgentEncoder.default
    (Instance [("id", Plain (VUUID 170%N)); ("name", Plain (VStr "scout"))])
  = Raise (TypeError "Object of type str is not JSON serializable").
Proof. reflexivity. Qed.

End FurtherScenarios.

(** ** More on the poller and on construction *)

Section PollerAndConstruction.
Context `{PyRuntime}.


(** Every client gets an interface of its own: of two clients
    constructed one after the other, the first holds the buffer added
    first and the second the buffer added next, two different buffers,
    both new and both empty; the interfaces that were there before are
    left as they were. *)
Theorem local_init_fresh_interface :
  forall DEFAULT_PRESET auto_save user_id debug auto_save' user_id' debug'
         w c1 w1 c2 w2,
    LocalClient.init DEFAULT_PRESET auto_save user_id debug w = (Return c1, w1) ->
    LocalClient.init DEFAULT_PRESET auto_save' user_id' debug' w1
    = (Return c2, w2) ->
    LocalClient.interface c1 <> LocalClient.interface c2
    /\ ifaces w2 = ifaces w ++ [[]; []]
    /\ LocalClient.interface c1 = length (ifaces w)
    /\ LocalClient.interface c2 = S (length (ifaces w))
    /\ (LocalClient.interface c1 < length (ifaces w2))%nat
    /\ (LocalClient.interface c2 < length (ifaces w2))%nat
    /\ buffer (LocalClient.interface c1) w2 = []
    /\ buffer (LocalClient.interface c2) w2 = []
    /\ (forall r, (r < length (ifaces w))%nat -> buffer r w2 = buffer r w).
Proof.
  intros DEFAULT_PRESET auto_save user_id debug auto_save' user_id' debug'
         w c1 w1 c2 w2 H1 H2.
  assert (Hinit : forall a u d w0 c w',
             LocalClient.init DEFAULT_PRESET a u d w0 = (Return c, w') ->
             LocalClient.interface c = length (ifaces w0)
             /\ ifaces w' = ifaces w0 ++ [[]]).
  { intros a u d w0 c w' Hr.
    destruct (resolved_user_id u w0) as [uid|e|] eqn:Hid.
    - rewrite (init_run DEFAULT_PRESET a u d w0 uid Hid) in Hr.
      injection Hr as <- <-. split; reflexivity.
    - unfold LocalClient.init in Hr. rewrite bind_M in Hr.
      cbn [get_world] in Hr. fold (resolved_user_id u w0) in Hr.
      rewrite bind_lift, Hid in Hr. discriminate Hr.
    - unfold LocalClient.init in Hr. rewrite bind_M in Hr.
      cbn [get_world] in Hr. fold (resolved_user_id u w0) in Hr.
      rewrite bind_lift, Hid in Hr. discriminate Hr. }
  destruct (Hinit _ _ _ _ _ _ H1) as (I1 & F1).
  destruct (Hinit _ _ _ _ _ _ H2) as (I2 & F2).
  assert (F : ifaces w2 = ifaces w ++ [[]; []]).
  { rewrite F2, F1, <- app_assoc. reflexivity. }
  assert (J2 : LocalClient.interface c2 = S (length (ifaces w))).
  { rewrite I2, F1, length_app. cbn [length]. lia. }
  split; [rewrite I1, J2; lia|].
  split; [exact F|].
  split; [exact I1|].
  split; [exact J2|].
  unfold buffer. rewrite I1, J2, F, length_app. cbn [length].
  split; [lia|]. split; [lia|].
  split; [|split].
  - rewrite app_nth2 by lia. rewrite Nat.sub_diag. reflexivity.
  - rewrite app_nth2 by lia.
    replace (S (length (ifaces w)) - length (ifaces w))%nat with 1%nat by lia.
    reflexivity.
  - intros r Hr. apply app_nth1. exact Hr.
Qed.

End PollerAndConstruction.

Section MoreScenarios.
#[local] Existing Instance CPython.runtime.
Import Examples.


Lemma local_init_fresh_interface_witness :
  LocalClient.interface local
  <> LocalClient.interface
       (LocalClient.mk true 170%N (mk_User 170%N None false) 1%nat)
  /\ ifaces (initialized "memgpt_chat" 170%N
               (initialized "memgpt_chat" 170%N (world [])))
     = ifaces (world []) ++ [[]; []]
  /\ LocalClient.interface local = length (ifaces (world []))
  /\ LocalClient.interface
       (LocalClient.mk true 170%N (mk_User 170%N None false) 1%nat)
     = S (length (ifaces (world [])))
  /\ (LocalClient.interface local
      < length (ifaces (initialized "memgpt_chat" 170%N
                          (initialized "memgpt_chat" 170%N (world [])))))%nat
  /\ (LocalClient.interface
        (LocalClient.mk true 170%N (mk_User 170%N None false) 1%nat)
      < length (ifaces (initialized "memgpt_chat" 170%N
                          (initialized "memgpt_chat" 170%N (world [])))))%nat
  /\ buffer (LocalClient.interface local)
       (initialized "memgpt_chat" 170%N
          (initialized "memgpt_chat" 170%N (world []))) = []
  /\ buffer (LocalClient.interface
               (LocalClient.mk true 170%N (mk_User 170%N None false) 1%nat))
       (initialized "memgpt_chat" 170%N
          (initialized "memgpt_chat" 170%N (world []))) = []
  /\ (forall r, (r < length (ifaces (world [])))%nat ->
      buffer r (initialized "memgpt_chat" 170%N
                  (initialized "memgpt_chat" 170%N (world [])))
      = buffer r (world [])).
Proof.
  apply (local_init_fresh_interface "memgpt_chat" false None false
           true None false (world []) local
           (initialized "memgpt_chat" 170%N (world []))
           (LocalClient.mk true 170%N (mk_User 170%N None false) 1%nat)
           (initialized "memgpt_chat" 170%N
              (initialized "memgpt_chat" 170%N (world []))));
    reflexivity.
Defined.

Lemma agent_state_conversion_outcome_witness :
  RESTClient.get_agent_response_to_state (agent_model (VInt 1700000000))
  = Return (mk_AgentState (VStr "a1") (VStr "scout")
              (VStr "00000000-0000-0000-0000-0000000000aa")
              (VStr "memgpt_chat") (VStr "sam") (VStr "cs_phd")
              (mk_LLMConfig (VStr "gpt-4") (VStr "openai")
                 (VStr "https://api.openai.com/v1") VNone (VInt 8192))
              embedding_config (VDict [])
              (VDatetime (mk_datetime 2023 11 14 22 13 20 0 true)))
  /\ RESTClient.get_agent_response_to_state
       (agent_model (VInt 1000000000000))
     = Raise (ValueError "year 33658 is out of range")
  /\ exists msg,
       RESTClient.get_agent_response_to_state
         (agent_model (VStr "2023-11-14"))
       = Raise (TypeError msg).
Proof.
  split; [|split].
  - exact (proj1 (agent_state_conversion_outcome
                    (agent_model (VInt 1700000000)))
             1700000000 eq_refl).
  - exact (proj1 (agent_state_conversion_outcome
                    (agent_model (VInt 1000000000000)))
             1000000000000 eq_refl).
  - exact (proj2 (agent_state_conversion_outcome
                    (agent_model (VStr "2023-11-14")))
             eq_refl).
Defined.

End MoreScenarios.
